(** * christmastree: gesture input, application state machine and camera controller

    A shallow embedding of the algorithmic core of the repository:

    - [Index]         : the page component (application state, [handleGestureChange],
                        the wiring of the two input hooks);
    - [HandGesture]   : the [useHandGesture] hook ([calculateFingerDistance],
                        [detectGesture], [processResults]);
    - [MouseFallback] : the [useMouseFallback] hook (mouse and touch handlers);
    - [Scene]         : the [CameraController] of Scene.tsx ([findNearestRibbonT] and
                        the per-frame callback given to [useFrame]).

    Number model.  A JavaScript number is modelled as a real number ([R]):
    [Math.sqrt], [Math.sin], [Math.cos], [Math.exp] and [Math.PI] are the
    functions and the constant of the real-number library, and arithmetic is
    exact.  Rounding of binary64 arithmetic, infinities (other than the
    [Infinity] that initialises a running minimum, which is an [option]) and
    NaN are outside the model, with one exception: the loop variable of
    [findNearestRibbonT], on which the number of iterations depends, is a
    binary64 number, added to and compared as the code does, so the loop
    visits the 50 values 0, 0.02, ..., 0.9800000000000005 that the code
    visits and stops at 1.0000000000000004; the geometry computed from each
    value is in real numbers.  [Date.now()] is an integer number of
    milliseconds ([Z]).

    Effects.  React state cells and refs are fields of a record that each
    handler takes and returns; the calls made on callback props are returned
    as a list, oldest first.  A read of a property of [undefined] is a
    [Throw] completion. *)

From Stdlib Require Import Reals Lra Lia ZArith List Bool String.
From Stdlib Require PrimFloat FloatOps SpecFloat.
Import (notations) PrimFloat.
Import ListNotations.
Local Open Scope R_scope.

(** A decimal literal in [float_scope] denotes the nearest binary64 number,
    as a numeric literal of JavaScript does. *)
Set Warnings "-inexact-float".

(** * The model *)

(** ** Shared types *)

(** Modelled from the spec: the declaration of [TreeState] in
    '@/types/christmas' is not among the sources; the spec gives the
    application state as the enumeration {tree, galaxy, focus}, and these are
    the string literals the sources compare it with. *)
Inductive TreeState : Set := tree | galaxy | focus.

(** Modelled from the spec: the declaration of [GestureType] in
    '@/types/christmas' is not among the sources; the spec gives the gesture
    vocabulary as {none, fist, open, pinch}, and these are the string
    literals the sources use. *)
Inductive GestureType : Set := none | fist | open | pinch.

Definition TreeState_eq_dec (a b : TreeState) : {a = b} + {a <> b}.
Proof. decide equality. Defined.

Definition GestureType_eq_dec (a b : GestureType) : {a = b} + {a <> b}.
Proof. decide equality. Defined.

(** [a === b] on tree states and gestures. *)
Definition TreeState_eqb (a b : TreeState) : bool :=
  if TreeState_eq_dec a b then true else false.

Definition GestureType_eqb (a b : GestureType) : bool :=
  if GestureType_eq_dec a b then true else false.

(** Comparisons of numbers, as booleans. *)
Definition Rltb (a b : R) : bool := if Rlt_dec a b then true else false.
Definition Rleb (a b : R) : bool := if Rle_dec a b then true else false.
Definition Rgtb (a b : R) : bool := Rltb b a.
Definition Rgeb (a b : R) : bool := Rleb b a.

(** [Math.floor] on a number, as an integer. *)
Definition Math_floor (a : R) : Z := Int_part a.

(** [Math.pow] with a literal natural exponent. *)
Definition Math_pow (a : R) (n : nat) : R := a ^ n.

(** The real number a finite binary64 number stands for: its mantissa times
    a power of two.  (Infinities and NaN stand for no real number; they do
    not occur where this is used.) *)
Definition realOf (f : PrimFloat.float) : R :=
  match FloatOps.Prim2SF f with
  | SpecFloat.S754_finite s m e =>
      let n := if s then Z.neg m else Z.pos m in
      if (0 <=? e)%Z then IZR (n * 2 ^ e) else IZR n / IZR (2 ^ (- e))
  | _ => 0
  end.

(** ** The page component (Index) *)

Module Index.

(** The pieces of React state of [Index] that the gesture logic reads and
    writes ([useState] cells; the refs [treeStateRef] and [photosRef] are
    re-assigned from them on every render). *)
Record State : Type := mkState {
  treeState : TreeState;
  photos : list string;
  focusedPhotoIndex : option Z;
  orbitRotation : R * R
}.

Definition setTreeState (v : TreeState) (s : State) : State :=
  mkState v (photos s) (focusedPhotoIndex s) (orbitRotation s).

Definition setFocusedPhotoIndex (v : option Z) (s : State) : State :=
  mkState (treeState s) (photos s) v (orbitRotation s).

Definition setOrbitRotation (v : R * R) (s : State) : State :=
  mkState (treeState s) (photos s) (focusedPhotoIndex s) v.

(** The initial render: state [tree], the twelve bundled photos, nothing focused. *)
Definition initial : State :=
  mkState tree
    ["/Photos/1.jpg"; "/Photos/2.jpg"; "/Photos/3.jpg"; "/Photos/4.jpg";
     "/Photos/5.jpg"; "/Photos/6.jpg"; "/Photos/7.jpg"; "/Photos/8.jpg";
     "/Photos/9.jpg"; "/Photos/10.jpg"; "/Photos/11.jpg"; "/Photos/12.jpg"]%string
    None (0, 0).

(** [const photoCount = currentPhotos.length > 0 ? currentPhotos.length : 12]. *)
Definition photoCount (currentPhotos : list string) : Z :=
  if (0 <? Z.of_nat (List.length currentPhotos))%Z
  then Z.of_nat (List.length currentPhotos) else 12%Z.

(** [handleGestureChange]; [random] is the value returned by the call of
    [Math.random()] (a number in [0, 1)). *)
Definition handleGestureChange (random : R) (gesture : GestureType) (s : State) : State :=
  let currentTreeState := treeState s in
  let currentPhotos := photos s in
  match gesture with
  | fist => setFocusedPhotoIndex None (setTreeState tree s)
  | open => setFocusedPhotoIndex None (setTreeState galaxy s)
  | pinch =>
      if TreeState_eqb currentTreeState galaxy then
        let photoCount := photoCount currentPhotos in
        let randomIndex := Math_floor (random * IZR (Z.min photoCount 12)) in
        setTreeState focus (setFocusedPhotoIndex (Some randomIndex) s)
      else if TreeState_eqb currentTreeState focus then
        setTreeState galaxy (setFocusedPhotoIndex None s)
      else s
  | none => s
  end.

(** The calls a pointer handler can make on the callbacks it is given. *)
Inductive Call : Type :=
| onStateChange (st : TreeState)
| onOrbitChange (rotation : R * R)
| onGestureChange (g : GestureType).

(** The wiring of [useMouseFallback] in [Index]: [onStateChange] is
    [setTreeState], [onOrbitChange] is [setOrbitRotation] and
    [onGestureChange] is [handleGestureChange]. *)
Definition dispatch (random : R) (c : Call) (s : State) : State :=
  match c with
  | onStateChange st => setTreeState st s
  | onOrbitChange r => setOrbitRotation r s
  | onGestureChange g => handleGestureChange random g s
  end.

Definition dispatchAll (random : R) (cs : list Call) (s : State) : State :=
  fold_left (fun acc c => dispatch random c acc) cs s.

(** The tick of the loading interval,
    [setLoadingProgress(prev => prev >= 95 ? prev : prev + Math.random() * 20)];
    [random] is the value of [Math.random()].  (The tick that finds
    [prev >= 95] also clears the interval.) *)
Definition loadingTick (random prev : R) : R :=
  if Rgeb prev 95 then prev else prev + random * 20.

(** The ticks of the interval, one value of [Math.random()] each, until the
    interval is cleared. *)
Fixpoint loadingTicks (randoms : list R) (prev : R) : R :=
  match randoms with
  | [] => prev
  | random :: rest =>
      if Rgeb prev 95 then prev else loadingTicks rest (loadingTick random prev)
  end.

(** The effect "update orbit from hand position": it runs with the values
    [isTracking] and [handPosition] returned by [useHandGesture]. *)
Definition handOrbitEffect (isTracking : bool) (handPosition : option (R * R))
           (s : State) : State :=
  match handPosition with
  | Some hp =>
      if isTracking && TreeState_eqb (treeState s) galaxy
      then setOrbitRotation ((snd hp - 0.5) * PI * 0.5, (fst hp - 0.5) * PI * 2) s
      else s
  | None => s
  end.

End Index.

(** ** Completions *)

(** A JavaScript evaluation either completes normally or throws.  The only
    exception the modelled code can raise is the [TypeError] of reading a
    property of [undefined] (an array read out of range gives [undefined]). *)
Inductive Completion (A : Type) : Type :=
| Normal (a : A)
| Throw.

Arguments Normal {A} a.
Arguments Throw {A}.

Definition bind {A B : Type} (c : Completion A) (k : A -> Completion B) : Completion B :=
  match c with
  | Normal a => k a
  | Throw => Throw
  end.

Notation "x <- c ;; k" := (bind c (fun x => k))
  (at level 61, c at next level, right associativity).

(** [arr[i]] followed by a property read: throws when [arr[i]] is [undefined]. *)
Definition at_index {A : Type} (arr : list A) (i : nat) : Completion A :=
  match nth_error arr i with
  | Some a => Normal a
  | None => Throw
  end.

(** ** The hand input source (useHandGesture) *)

Module HandGesture.

(** One landmark of the detector: normalized coordinates. *)
Record Landmark : Type := mkLandmark { x : R; y : R; z : R }.

(** Modelled from the spec: [HandGestureState] of '@/types/christmas' is not
    among the sources; its fields are those of the initial [useState] value
    and of the [setState] calls of the hook. *)
Record HandGestureState : Type := mkHandGestureState {
  gesture : GestureType;
  handPosition : option (R * R);
  pinchDistance : R;
  isTracking : bool
}.

(** The result of [detectForVideo]: [landmarks] is absent or one landmark
    array per detected hand. *)
Record Results : Type := mkResults { landmarks : option (list (list Landmark)) }.

(** The mutable state of the hook: the React state cell [state] (here
    [current]) and the ref [lastGestureRef]. *)
Record Hook : Type := mkHook {
  current : HandGestureState;
  lastGestureRef : GestureType
}.

Definition initial : Hook :=
  mkHook (mkHandGestureState none None 1 false) none.

Definition calculateFingerDistance (landmarks : list Landmark) (finger1 finger2 : nat)
  : Completion R :=
  p1 <- at_index landmarks finger1 ;;
  p2 <- at_index landmarks finger2 ;;
  Normal (sqrt (Math_pow (x p1 - x p2) 2 +
                Math_pow (y p1 - y p2) 2 +
                Math_pow (z p1 - z p2) 2)).

(** [[a, b, c, d].filter(Boolean).length]. *)
Definition count_true (bs : list bool) : nat := List.length (filter (fun b => b) bs).

Definition detectGesture (landmarks : option (list Landmark)) : Completion GestureType :=
  match landmarks with
  | None => Normal none
  | Some landmarks =>
      if (List.length landmarks <? 21)%nat then Normal none else
      pinchDist <- calculateFingerDistance landmarks 4 8 ;;
      if Rltb pinchDist 0.06 then Normal pinch else
      l8 <- at_index landmarks 8 ;; l5 <- at_index landmarks 5 ;;
      let indexExtended := Rltb (y l8) (y l5) in
      l12 <- at_index landmarks 12 ;; l9 <- at_index landmarks 9 ;;
      let middleExtended := Rltb (y l12) (y l9) in
      l16 <- at_index landmarks 16 ;; l13 <- at_index landmarks 13 ;;
      let ringExtended := Rltb (y l16) (y l13) in
      l20 <- at_index landmarks 20 ;; l17 <- at_index landmarks 17 ;;
      let pinkyExtended := Rltb (y l20) (y l17) in
      let extendedCount :=
        count_true [indexExtended; middleExtended; ringExtended; pinkyExtended] in
      if (3 <=? extendedCount)%nat then Normal open else
      if (extendedCount <=? 1)%nat then Normal fist else
      Normal none
  end.

(** What one call of [processResults] leaves behind: the hook, the gestures
    passed to [onGestureChange] (oldest first) and how the call completed. *)
Record Outcome : Type := mkOutcome {
  hook : Hook;
  emitted : list GestureType;
  completion : Completion unit
}.

(** [processResults].  [state] is the binding of the React state that the
    closure captured when the effect ran; [h] holds the current state cell
    and the ref. *)
Definition processResults (state : HandGestureState) (results : Results) (h : Hook)
  : Outcome :=
  match landmarks results with
  | Some (landmarks :: _) =>
      match detectGesture (Some landmarks) with
      | Throw => mkOutcome h [] Throw
      | Normal detectedGesture =>
          let '(h1, calls) :=
            if GestureType_eqb detectedGesture (lastGestureRef h)
            then (h, [])
            else (mkHook (current h) detectedGesture, [detectedGesture]) in
          match
            (palmBase <- at_index landmarks 0 ;;
             middleFingerMcp <- at_index landmarks 9 ;;
             let centerX := (x palmBase + x middleFingerMcp) / 2 in
             let centerY := (y palmBase + y middleFingerMcp) / 2 in
             pinchDist <- calculateFingerDistance landmarks 4 8 ;;
             Normal (mkHandGestureState detectedGesture
                       (Some (1 - centerX, centerY)) pinchDist true))
          with
          | Normal st => mkOutcome (mkHook st (lastGestureRef h1)) calls (Normal tt)
          | Throw => mkOutcome h1 calls Throw
          end
      end
  | _ =>
      if isTracking state
      then
        let prev := current h in
        mkOutcome
          (mkHook (mkHandGestureState none (handPosition prev) (pinchDistance prev) false)
                  (lastGestureRef h))
          [] (Normal tt)
      else mkOutcome h [] (Normal tt)
  end.

(** The detection loop [detectFrame]: one [processResults] per video frame.
    An exception ends the loop, the next frame being requested only after
    [processResults] returns; the run stops there. *)
Fixpoint detectFrames (state : HandGestureState) (frames : list Results) (h : Hook)
  : Hook * list GestureType :=
  match frames with
  | [] => (h, [])
  | results :: rest =>
      let o := processResults state results h in
      match completion o with
      | Throw => (hook o, emitted o)
      | Normal _ =>
          let '(h', calls) := detectFrames state rest (hook o) in
          (h', emitted o ++ calls)
      end
  end.

End HandGesture.

(** ** The pointer input source (useMouseFallback) *)

Module Touch.
Record t : Type := mk { clientX : R; clientY : R }.
End Touch.

Module MouseFallback.

Record MouseEvent : Type := mkMouseEvent {
  button : Z;
  buttons : Z;
  clientX : R;
  clientY : R
}.

Record TouchEvent : Type := mkTouchEvent {
  touches : list Touch.t;
  cancelable : bool
}.

(** The mutable state of the hook: the React state cells [isDragging] and
    [simulatedGesture], and the refs.  Handlers are re-created on every render,
    so they read the current values of the cells. *)
Record Hook : Type := mkHook {
  isDragging : bool;
  simulatedGesture : GestureType;
  lastClickRef : Z;
  dragStartRef : R * R;
  rotationRef : R * R;
  isPinchingRef : bool;
  lastTouchRef : option (R * R);
  initialPinchDistRef : option R
}.

Definition initial : Hook :=
  mkHook false none 0 (0, 0) (0, 0) false None None.

Definition setIsDragging (v : bool) (h : Hook) : Hook :=
  mkHook v (simulatedGesture h) (lastClickRef h) (dragStartRef h) (rotationRef h)
         (isPinchingRef h) (lastTouchRef h) (initialPinchDistRef h).

Definition setSimulatedGesture (v : GestureType) (h : Hook) : Hook :=
  mkHook (isDragging h) v (lastClickRef h) (dragStartRef h) (rotationRef h)
         (isPinchingRef h) (lastTouchRef h) (initialPinchDistRef h).

Definition setLastClick (v : Z) (h : Hook) : Hook :=
  mkHook (isDragging h) (simulatedGesture h) v (dragStartRef h) (rotationRef h)
         (isPinchingRef h) (lastTouchRef h) (initialPinchDistRef h).

Definition setDragStart (v : R * R) (h : Hook) : Hook :=
  mkHook (isDragging h) (simulatedGesture h) (lastClickRef h) v (rotationRef h)
         (isPinchingRef h) (lastTouchRef h) (initialPinchDistRef h).

Definition setRotation (v : R * R) (h : Hook) : Hook :=
  mkHook (isDragging h) (simulatedGesture h) (lastClickRef h) (dragStartRef h) v
         (isPinchingRef h) (lastTouchRef h) (initialPinchDistRef h).

Definition setIsPinching (v : bool) (h : Hook) : Hook :=
  mkHook (isDragging h) (simulatedGesture h) (lastClickRef h) (dragStartRef h)
         (rotationRef h) v (lastTouchRef h) (initialPinchDistRef h).

Definition setLastTouch (v : option (R * R)) (h : Hook) : Hook :=
  mkHook (isDragging h) (simulatedGesture h) (lastClickRef h) (dragStartRef h)
         (rotationRef h) (isPinchingRef h) v (initialPinchDistRef h).

Definition setInitialPinchDist (v : option R) (h : Hook) : Hook :=
  mkHook (isDragging h) (simulatedGesture h) (lastClickRef h) (dragStartRef h)
         (rotationRef h) (isPinchingRef h) (lastTouchRef h) v.

(** [Math.hypot] of two numbers. *)
Definition Math_hypot (a b : R) : R := sqrt (a * a + b * b).

(** [handleMouseDown]; [now] is the value of [Date.now()]. *)
Definition handleMouseDown (enabled : bool) (currentState : TreeState)
           (now : Z) (e : MouseEvent) (h : Hook) : Hook * list Index.Call :=
  if negb enabled then (h, []) else
  if (buttons e =? 3)%Z then
    let '(h1, calls) :=
      if negb (isPinchingRef h)
      then (setIsPinching true (setSimulatedGesture pinch h), [Index.onGestureChange pinch])
      else (h, []) in
    (setLastClick 0 h1, calls)
  else
    let timeSinceLastClick := (now - lastClickRef h)%Z in
    if ((button e =? 0) && (timeSinceLastClick <? 300))%Z then
      let calls :=
        if negb (TreeState_eqb currentState focus)
        then [Index.onStateChange (if TreeState_eqb currentState tree then galaxy else tree)]
        else [Index.onStateChange galaxy] in
      (setLastClick 0 h, calls)
    else
      (setSimulatedGesture open
         (setDragStart (clientX e, clientY e)
            (setIsDragging true (setLastClick now h))), []).

Definition handleMouseMove (enabled : bool) (currentState : TreeState)
           (e : MouseEvent) (h : Hook) : Hook * list Index.Call :=
  if negb enabled then (h, []) else
  if (buttons e =? 3)%Z then
    (if negb (GestureType_eqb (simulatedGesture h) pinch)
     then setSimulatedGesture pinch h else h, [])
  else
    if isDragging h && (buttons e =? 1)%Z && negb (TreeState_eqb currentState focus) then
      let h1 := if negb (GestureType_eqb (simulatedGesture h) open)
                then setSimulatedGesture open h else h in
      let deltaX := (clientX e - fst (dragStartRef h1)) * 0.002 in
      let deltaY := (clientY e - snd (dragStartRef h1)) * 0.002 in
      let rotation := (fst (rotationRef h1) + deltaY, snd (rotationRef h1) + deltaX) in
      (setDragStart (clientX e, clientY e) (setRotation rotation h1),
       [Index.onOrbitChange rotation])
    else (h, []).

Definition handleMouseUp (e : MouseEvent) (h : Hook) : Hook * list Index.Call :=
  let h1 := if negb (buttons e =? 3)%Z then setIsPinching false h else h in
  if (buttons e =? 0)%Z then (setSimulatedGesture none (setIsDragging false h1), [])
  else if (buttons e =? 1)%Z then
    (setDragStart (clientX e, clientY e) (setSimulatedGesture open h1), [])
  else (h1, []).

Definition handleTouchStart (enabled : bool) (e : TouchEvent) (h : Hook)
  : Hook * list Index.Call :=
  if negb enabled then (h, []) else
  match touches e with
  | [touch] =>
      (setSimulatedGesture open
         (setLastTouch (Some (Touch.clientX touch, Touch.clientY touch)) h), [])
  | [p1; p2] =>
      let dist := Math_hypot (Touch.clientX p1 - Touch.clientX p2)
                             (Touch.clientY p1 - Touch.clientY p2) in
      (setSimulatedGesture pinch (setInitialPinchDist (Some dist) h), [])
  | _ => (h, [])
  end.

(** A ref holding a number or [null] is truthy when it holds a number other
    than zero. *)
Definition truthy (v : option R) : option R :=
  match v with
  | Some d => if Req_dec_T d 0 then None else Some d
  | None => None
  end.

Definition handleTouchMove (enabled : bool) (currentState : TreeState)
           (e : TouchEvent) (h : Hook) : Hook * list Index.Call :=
  if negb enabled then (h, []) else
  let '(h1, calls1) :=
    match touches e, lastTouchRef h with
    | [touch], Some lastTouch =>
        if negb (TreeState_eqb currentState focus) then
          let deltaX := (Touch.clientX touch - fst lastTouch) * 0.004 in
          let deltaY := (Touch.clientY touch - snd lastTouch) * 0.004 in
          let rotation := (fst (rotationRef h) + deltaY, snd (rotationRef h) + deltaX) in
          let h' := setLastTouch (Some (Touch.clientX touch, Touch.clientY touch))
                      (setRotation rotation h) in
          (if negb (GestureType_eqb (simulatedGesture h) open)
           then setSimulatedGesture open h' else h',
           [Index.onOrbitChange rotation])
        else (h, [])
    | _, _ => (h, [])
    end in
  match touches e, truthy (initialPinchDistRef h1) with
  | [p1; p2], Some initialPinchDist =>
      let currentDist := Math_hypot (Touch.clientX p1 - Touch.clientX p2)
                                    (Touch.clientY p1 - Touch.clientY p2) in
      let delta := Rabs (currentDist - initialPinchDist) in
      if Rgtb delta 15 then
        let '(h2, calls2) :=
          if negb (isPinchingRef h1)
          then (setInitialPinchDist (Some currentDist) (setIsPinching true h1),
                [Index.onGestureChange pinch])
          else (h1, []) in
        (if negb (GestureType_eqb (simulatedGesture h) pinch)
         then setSimulatedGesture pinch h2 else h2,
         calls1 ++ calls2)
      else (h1, calls1)
  | _, _ => (h1, calls1)
  end.

Definition handleTouchEnd (e : TouchEvent) (h : Hook) : Hook * list Index.Call :=
  match touches e with
  | [] =>
      (setIsPinching false
         (setInitialPinchDist None (setLastTouch None (setSimulatedGesture none h))), [])
  | [touch] =>
      (setIsPinching false
         (setLastTouch (Some (Touch.clientX touch, Touch.clientY touch))
            (setSimulatedGesture open h)), [])
  | _ => (h, [])
  end.

(** The events the hook listens to on [window]. *)
Inductive Event : Type :=
| mousedown (now : Z) (e : MouseEvent)
| mousemove (e : MouseEvent)
| mouseup (e : MouseEvent)
| touchstart (e : TouchEvent)
| touchmove (e : TouchEvent)
| touchend (e : TouchEvent).

Definition handle (enabled : bool) (currentState : TreeState) (ev : Event) (h : Hook)
  : Hook * list Index.Call :=
  match ev with
  | mousedown now e => handleMouseDown enabled currentState now e h
  | mousemove e => handleMouseMove enabled currentState e h
  | mouseup e => handleMouseUp e h
  | touchstart e => handleTouchStart enabled e h
  | touchmove e => handleTouchMove enabled currentState e h
  | touchend e => handleTouchEnd e h
  end.

End MouseFallback.

(** ** The page with its pointer input source *)

(** One pointer event on the page: the hook of [useMouseFallback] runs with
    [currentState] bound to the page's [treeState], and its calls go through
    the page's wiring.  The calls are returned as a log. *)
Definition pointerEvent (random : R) (enabled : bool) (ev : MouseFallback.Event)
           (p : Index.State * MouseFallback.Hook)
  : Index.State * MouseFallback.Hook * list Index.Call :=
  let '(h', calls) := MouseFallback.handle enabled (Index.treeState (fst p)) ev (snd p) in
  (Index.dispatchAll random calls (fst p), h', calls).

Fixpoint pointerEvents (random : R) (enabled : bool) (evs : list MouseFallback.Event)
         (p : Index.State * MouseFallback.Hook)
  : Index.State * MouseFallback.Hook * list Index.Call :=
  match evs with
  | [] => (fst p, snd p, [])
  | ev :: rest =>
      let '(s1, h1, calls1) := pointerEvent random enabled ev p in
      let '(s2, h2, calls2) := pointerEvents random enabled rest (s1, h1) in
      (s2, h2, calls1 ++ calls2)
  end.

(** ** The camera controller (Scene.tsx) *)

Module Scene.

(** [THREE.Vector3]. *)
Record Vector3 : Type := mkVector3 { x : R; y : R; z : R }.

(** The props of [CameraController] ([onStarFocused] is modelled by the log
    of its calls). *)
Record Props : Type := mkProps {
  state : TreeState;
  orbitRotation : R * R;
  handPosition : option (R * R);
  zoom : R
}.

(** The camera object: its position and the point [lookAt] was last called
    with. *)
Record Camera : Type := mkCamera { position : Vector3; lookAt : Vector3 }.

(** The refs of [CameraController] and the camera they drive. *)
Record Refs : Type := mkRefs {
  targetRef : Vector3;
  positionRef : Vector3;
  ribbonTimeRef : R;
  prevStateRef : TreeState;
  transitionDelayRef : R;
  isAtStarRef : bool;
  hasInitializedRef : bool;
  velocityRef : R;
  targetVelocityRef : R;
  smoothZoomRef : R;
  camera : Camera
}.

(** The refs at mount ([prevStateRef] starts as the state of the first
    render) with the camera of the [Canvas], at [0, 2, 12] and looking at the
    origin. *)
Definition initial (state : TreeState) : Refs :=
  mkRefs (mkVector3 0 0 0) (mkVector3 0 2 12) 0 state 0 false false 0 0.15 0
         (mkCamera (mkVector3 0 2 12) (mkVector3 0 0 0)).

Definition setTarget (v : Vector3) (c : Refs) : Refs :=
  mkRefs v (positionRef c) (ribbonTimeRef c) (prevStateRef c) (transitionDelayRef c)
         (isAtStarRef c) (hasInitializedRef c) (velocityRef c) (targetVelocityRef c)
         (smoothZoomRef c) (camera c).

Definition setPosition (v : Vector3) (c : Refs) : Refs :=
  mkRefs (targetRef c) v (ribbonTimeRef c) (prevStateRef c) (transitionDelayRef c)
         (isAtStarRef c) (hasInitializedRef c) (velocityRef c) (targetVelocityRef c)
         (smoothZoomRef c) (camera c).

Definition setRibbonTime (v : R) (c : Refs) : Refs :=
  mkRefs (targetRef c) (positionRef c) v (prevStateRef c) (transitionDelayRef c)
         (isAtStarRef c) (hasInitializedRef c) (velocityRef c) (targetVelocityRef c)
         (smoothZoomRef c) (camera c).

Definition setPrevState (v : TreeState) (c : Refs) : Refs :=
  mkRefs (targetRef c) (positionRef c) (ribbonTimeRef c) v (transitionDelayRef c)
         (isAtStarRef c) (hasInitializedRef c) (velocityRef c) (targetVelocityRef c)
         (smoothZoomRef c) (camera c).

Definition setTransitionDelay (v : R) (c : Refs) : Refs :=
  mkRefs (targetRef c) (positionRef c) (ribbonTimeRef c) (prevStateRef c) v
         (isAtStarRef c) (hasInitializedRef c) (velocityRef c) (targetVelocityRef c)
         (smoothZoomRef c) (camera c).

Definition setIsAtStar (v : bool) (c : Refs) : Refs :=
  mkRefs (targetRef c) (positionRef c) (ribbonTimeRef c) (prevStateRef c)
         (transitionDelayRef c) v (hasInitializedRef c) (velocityRef c)
         (targetVelocityRef c) (smoothZoomRef c) (camera c).

Definition setHasInitialized (v : bool) (c : Refs) : Refs :=
  mkRefs (targetRef c) (positionRef c) (ribbonTimeRef c) (prevStateRef c)
         (transitionDelayRef c) (isAtStarRef c) v (velocityRef c)
         (targetVelocityRef c) (smoothZoomRef c) (camera c).

Definition setVelocity (v : R) (c : Refs) : Refs :=
  mkRefs (targetRef c) (positionRef c) (ribbonTimeRef c) (prevStateRef c)
         (transitionDelayRef c) (isAtStarRef c) (hasInitializedRef c) v
         (targetVelocityRef c) (smoothZoomRef c) (camera c).

Definition setTargetVelocity (v : R) (c : Refs) : Refs :=
  mkRefs (targetRef c) (positionRef c) (ribbonTimeRef c) (prevStateRef c)
         (transitionDelayRef c) (isAtStarRef c) (hasInitializedRef c) (velocityRef c)
         v (smoothZoomRef c) (camera c).

Definition setSmoothZoom (v : R) (c : Refs) : Refs :=
  mkRefs (targetRef c) (positionRef c) (ribbonTimeRef c) (prevStateRef c)
         (transitionDelayRef c) (isAtStarRef c) (hasInitializedRef c) (velocityRef c)
         (targetVelocityRef c) v (camera c).

Definition setCamera (v : Camera) (c : Refs) : Refs :=
  mkRefs (targetRef c) (positionRef c) (ribbonTimeRef c) (prevStateRef c)
         (transitionDelayRef c) (isAtStarRef c) (hasInitializedRef c) (velocityRef c)
         (targetVelocityRef c) (smoothZoomRef c) v.

(** The constants of the ribbon. *)
Definition height : R := 7.
Definition maxRadius : R := 3.0.

(** The point of the ribbon at parameter [t] (the body of the loop of
    [findNearestRibbonT] up to [ribbonZ]). *)
Definition ribbonPoint (t : R) : Vector3 :=
  let ribbonY := t * height - height / 2 + 0.3 in
  let layerRadius := maxRadius * (1 - t * 0.88) + 0.15 in
  let angle := t * PI * 6 in
  let ribbonX := cos angle * layerRadius in
  let ribbonZ := sin angle * layerRadius in
  mkVector3 ribbonX ribbonY ribbonZ.

(** [distance < minDistance], where [None] is [Infinity]. *)
Definition below (distance : R) (minDistance : option R) : bool :=
  match minDistance with
  | None => true
  | Some m => Rltb distance m
  end.

(** The loop [for (let t = 0; t <= 1; t += 0.02)] of [findNearestRibbonT],
    started at [t] with the current [nearestT] and [minDistance]; [fuel]
    bounds the number of evaluations of the loop condition.  The loop
    variable [t] is the binary64 number of the code: [t <= 1] and
    [t += 0.02] are the comparison and the rounded addition of binary64. *)
Fixpoint ribbonLoop (fuel : nat) (cameraPos : Vector3) (t : PrimFloat.float)
         (nearestT : R) (minDistance : option R) : option R :=
  match fuel with
  | O => None
  | S fuel' =>
      if PrimFloat.leb t 1%float then
        let p := ribbonPoint (realOf t) in
        let distance :=
          sqrt (Math_pow (x cameraPos - x p) 2 +
                Math_pow (y cameraPos - y p) 2 +
                Math_pow (z cameraPos - z p) 2) in
        if below distance minDistance
        then ribbonLoop fuel' cameraPos (t + 0.02)%float (realOf t) (Some distance)
        else ribbonLoop fuel' cameraPos (t + 0.02)%float nearestT minDistance
      else Some nearestT
  end.

(** The loop condition is evaluated 51 times: it holds 50 times. *)
Definition ribbonFuel : nat := 51.

Definition findNearestRibbonT (cameraPos : Vector3) : R :=
  match ribbonLoop ribbonFuel cameraPos 0%float 0 None with
  | Some nearestT => nearestT
  | None => 0
  end.

(** The frame callback, block by block.  Each block returns the refs and
    the arguments of the calls of [onStarFocused] it made. *)

(** [smoothZoomRef.current += (zoom - smoothZoomRef.current) * 5 * delta]. *)
Definition zoomBlock (p : Props) (delta : R) (c : Refs) : Refs :=
  setSmoothZoom (smoothZoomRef c + (zoom p - smoothZoomRef c) * 5 * delta) c.

(** The two state-change tests and [prevStateRef.current = state]. *)
Definition stateChangeBlock (p : Props) (c : Refs) : Refs * list bool :=
  let '(c1, calls1) :=
    if TreeState_eqb (state p) tree && negb (TreeState_eqb (prevStateRef c) tree) then
      let nearestT := findNearestRibbonT (position (camera c)) in
      (setHasInitialized true
         (setVelocity 0.05
            (setIsAtStar false
               (setRibbonTime nearestT
                  (setTransitionDelay 2.0 c)))), [false])
    else (c, []) in
  let '(c2, calls2) :=
    if negb (TreeState_eqb (state p) tree) && TreeState_eqb (prevStateRef c1) tree
    then (setIsAtStar false c1, [false])
    else (c1, []) in
  (setPrevState (state p) c2, calls1 ++ calls2).

(** [if (transitionDelayRef.current > 0) transitionDelayRef.current -= delta]. *)
Definition delayBlock (delta : R) (c : Refs) : Refs :=
  if Rgtb (transitionDelayRef c) 0
  then setTransitionDelay (transitionDelayRef c - delta) c
  else c.

(** The per-frame targets [targetX], [targetY], [targetZ] and [lookAtY]. *)
Record Targets : Type := mkTargets {
  targetX : R; targetY : R; targetZ : R; lookAtY : R
}.

(** The climbing branch: [state === 'tree'], delay elapsed, star not reached. *)
Definition climbBlock (delta : R) (c : Refs) : Refs * Targets * list bool :=
  let t := ribbonTimeRef c in
  let easeFactor := sin (t * PI) in
  let baseVelocity := 0.05 in
  let maxVelocity := 0.12 in
  let c1 := setTargetVelocity (baseVelocity + easeFactor * (maxVelocity - baseVelocity)) c in
  let acceleration := 2.5 in
  let c2 := setVelocity
              (velocityRef c1 + (targetVelocityRef c1 - velocityRef c1) * acceleration * delta)
              c1 in
  let c3 := setRibbonTime (ribbonTimeRef c2 + velocityRef c2 * delta) c2 in
  let '(c4, calls) :=
    if Rgeb (ribbonTimeRef c3) 1
    then (setRibbonTime 1 (setIsAtStar true c3), [true])
    else (c3, []) in
  let tClamped := Rmin (ribbonTimeRef c4) 1 in
  let ribbonY := tClamped * height - height / 2 + 0.3 in
  let layerRadius := maxRadius * (1 - tClamped * 0.88) + 0.15 in
  let angle := tClamped * PI * 6 in
  let cameraDistance := (5 + layerRadius * 1.5) + (smoothZoomRef c4 * 0.5) in
  let cameraAngle := angle + PI * 0.3 in
  (c4,
   mkTargets (cos cameraAngle * cameraDistance) (ribbonY + 1.5)
             (sin cameraAngle * cameraDistance) ribbonY,
   calls).

(** The computation of the targets, with the climb when it applies. *)
Definition targetBlock (p : Props) (delta : R) (c : Refs) : Refs * Targets * list bool :=
  let baseDistance := if TreeState_eqb (state p) tree then 12 else 18 in
  let baseDistance := Rmax 4 (Rmin 35 (baseDistance + smoothZoomRef c)) in
  if TreeState_eqb (state p) tree && Rleb (transitionDelayRef c) 0 then
    if negb (isAtStarRef c) then climbBlock delta c
    else
      let starY := 4.4 in
      (c, mkTargets 0 (starY + 1) (6 + smoothZoomRef c) starY, [])
  else
    match handPosition p with
    | Some hand =>
        if TreeState_eqb (state p) galaxy then
          (c, mkTargets ((fst hand - 0.5) * 20) ((0.5 - snd hand) * 10 + 2)
                        (cos (snd (orbitRotation p)) * baseDistance) 0, [])
        else
          (c, mkTargets (sin (snd (orbitRotation p)) * baseDistance)
                        (sin (fst (orbitRotation p)) * 5 + 2)
                        (cos (snd (orbitRotation p)) * baseDistance) 0, [])
    | None =>
        (c, mkTargets (sin (snd (orbitRotation p)) * baseDistance)
                      (sin (fst (orbitRotation p)) * 5 + 2)
                      (cos (snd (orbitRotation p)) * baseDistance) 0, [])
    end.

(** The smoothing of position and look-at target and the update of the
    camera. *)
Definition smoothBlock (delta : R) (tg : Targets) (c : Refs) : Refs :=
  let smoothFactor := 1 - exp (-2.5 * delta) in
  let pos := positionRef c in
  let pos' := mkVector3 (x pos + (targetX tg - x pos) * smoothFactor)
                        (y pos + (targetY tg - y pos) * smoothFactor)
                        (z pos + (targetZ tg - z pos) * smoothFactor) in
  let tgt := targetRef c in
  let tgt' := mkVector3 (x tgt) (y tgt + (lookAtY tg - y tgt) * smoothFactor) (z tgt) in
  setCamera (mkCamera pos' tgt') (setTarget tgt' (setPosition pos' c)).

(** The callback given to [useFrame], called with the frame's [delta]. *)
Definition useFrame (p : Props) (delta : R) (c : Refs) : Refs * list bool :=
  let c1 := zoomBlock p delta c in
  let '(c2, calls2) := stateChangeBlock p c1 in
  let c3 := delayBlock delta c2 in
  let '(c4, tg, calls4) := targetBlock p delta c3 in
  (smoothBlock delta tg c4, calls2 ++ calls4).

(** Successive frames under the same props. *)
Fixpoint frames (p : Props) (deltas : list R) (c : Refs) : Refs * list bool :=
  match deltas with
  | [] => (c, [])
  | delta :: rest =>
      let '(c1, calls1) := useFrame p delta c in
      let '(c2, calls2) := frames p rest c1 in
      (c2, calls1 ++ calls2)
  end.

End Scene.

(** ** The page with its hand input source and its scene *)

(** A run of gestures through [handleGestureChange], each with the value
    [Math.random()] would return on that call. *)
Definition gestures (gs : list (R * GestureType)) (s : Index.State) : Index.State :=
  fold_left (fun acc rg => Index.handleGestureChange (fst rg) (snd rg) acc) gs s.

(** One video frame on the page: [processResults] runs, its calls of
    [onGestureChange] go to [handleGestureChange], and after the render the
    orbit effect sees the published tracking flag and hand position. *)
Definition handFrame (random : R) (state : HandGesture.HandGestureState)
           (results : HandGesture.Results) (p : Index.State * HandGesture.Hook)
  : Index.State * HandGesture.Hook :=
  let o := HandGesture.processResults state results (snd p) in
  let s1 := fold_left (fun acc g => Index.handleGestureChange random g acc)
                      (HandGesture.emitted o) (fst p) in
  let published := HandGesture.current (HandGesture.hook o) in
  (Index.handOrbitEffect (HandGesture.isTracking published)
     (HandGesture.handPosition published) s1,
   HandGesture.hook o).

(** The props [Index] gives to the scene, which hands them to
    [CameraController]: the hand position only while tracking, and a zoom of
    0. *)
Definition sceneProps (s : Index.State) (hand : HandGesture.HandGestureState)
  : Scene.Props :=
  Scene.mkProps (Index.treeState s) (Index.orbitRotation s)
    (if HandGesture.isTracking hand then HandGesture.handPosition hand else None) 0.

(** Successive frames of the camera controller, each with its props and its
    frame time. *)
Fixpoint runFrames (steps : list (Scene.Props * R)) (c : Scene.Refs)
  : Scene.Refs * list bool :=
  match steps with
  | [] => (c, [])
  | (p, delta) :: rest =>
      let '(c1, calls1) := Scene.useFrame p delta c in
      let '(c2, calls2) := runFrames rest c1 in
      (c2, calls1 ++ calls2)
  end.

(** The text overlay is shown while [isStarFocused] holds: a state cell of
    [Index] that [setIsStarFocused] sets to the argument of every call of
    [onStarFocused], passed on by [handleStarFocused]. *)
Definition starFocused (calls : list bool) (isStarFocused : bool) : bool :=
  fold_left (fun _ focused => focused) calls isStarFocused.

(** * Vocabulary of the statements *)

(** ** Gestures and hand frames *)

(** The landmark at index [i] of a snapshot. *)
Definition landmark (lm : list HandGesture.Landmark) (i : nat) : HandGesture.Landmark :=
  nth i lm (HandGesture.mkLandmark 0 0 0).

(** Euclidean distance of two landmarks in three dimensions. *)
Definition distance3 (p q : HandGesture.Landmark) : R :=
  sqrt (Rsqr (HandGesture.x p - HandGesture.x q) +
        Rsqr (HandGesture.y p - HandGesture.y q) +
        Rsqr (HandGesture.z p - HandGesture.z q)).

(** The four non-thumb fingers with the indices of their tip and of their
    proximal joint. *)
Inductive Finger : Set := indexFinger | middleFinger | ringFinger | pinkyFinger.

Definition tip (f : Finger) : nat :=
  match f with indexFinger => 8 | middleFinger => 12 | ringFinger => 16 | pinkyFinger => 20 end%nat.

Definition joint (f : Finger) : nat :=
  match f with indexFinger => 5 | middleFinger => 9 | ringFinger => 13 | pinkyFinger => 17 end%nat.

(** A finger is extended when its tip is above its joint (smaller [y]). *)
Definition extendedb (lm : list HandGesture.Landmark) (f : Finger) : bool :=
  Rltb (HandGesture.y (landmark lm (tip f))) (HandGesture.y (landmark lm (joint f))).

Definition extendedFingers (lm : list HandGesture.Landmark) : nat :=
  List.length (filter (extendedb lm) [indexFinger; middleFinger; ringFinger; pinkyFinger]).

(** A hand with every landmark at the origin, and one with the thumb tip
    moved away from the index tip. *)
Definition closedHand : list HandGesture.Landmark :=
  repeat (HandGesture.mkLandmark 0 0 0) 21.

Definition thumbAway : list HandGesture.Landmark :=
  repeat (HandGesture.mkLandmark 0 0 0) 4 ++
  HandGesture.mkLandmark 1 0 0 :: repeat (HandGesture.mkLandmark 0 0 0) 16.

(** A frame in which a hand with at least 21 landmarks is seen and classified
    as [g]. *)
Definition classifiedAs (results : HandGesture.Results) (g : GestureType) : Prop :=
  exists (lm : list HandGesture.Landmark) (others : list (list HandGesture.Landmark)),
    HandGesture.landmarks results = Some (lm :: others) /\
    (21 <= List.length lm)%nat /\
    HandGesture.detectGesture (Some lm) = Normal g.

(** A frame in which no hand is seen. *)
Definition noHand (results : HandGesture.Results) : Prop :=
  HandGesture.landmarks results = None \/ HandGesture.landmarks results = Some [].

(** The samples of [gs] that differ from the sample before them, [prev]
    standing before the first one. *)
Definition changes (prev : GestureType) (gs : list GestureType) : list GestureType :=
  map snd (filter (fun pg => negb (GestureType_eqb (snd pg) (fst pg)))
                  (combine (prev :: gs) gs)).

(** A hook that is tracking a fist. *)
Definition trackingFist : HandGesture.Hook :=
  HandGesture.mkHook (HandGesture.mkHandGestureState fist (Some (1 / 2, 1 / 2)) 1 true) fist.

(** The page after an [open] gesture. *)
Definition inGalaxy : Index.State :=
  Index.mkState galaxy (Index.photos Index.initial) None (0, 0).

(** ** Pointer events *)

(** The state a double click leads to. *)
Definition toggled (st : TreeState) : TreeState :=
  match st with
  | tree => galaxy
  | galaxy => tree
  | focus => galaxy
  end.

Definition isGestureCall (c : Index.Call) : bool :=
  match c with
  | Index.onGestureChange _ => true
  | _ => false
  end.

Definition isStateCall (c : Index.Call) : bool :=
  match c with
  | Index.onStateChange _ => true
  | _ => false
  end.

(** The events that can come between the two presses of a double click:
    releases of the mouse, and starts and ends of touches. *)
Definition passive (ev : MouseFallback.Event) : bool :=
  match ev with
  | MouseFallback.mouseup _ | MouseFallback.touchstart _ | MouseFallback.touchend _ => true
  | _ => false
  end.

(** A press and a release of the primary button alone, and a tap of one
    finger. *)
Definition primaryDown : MouseFallback.MouseEvent := MouseFallback.mkMouseEvent 0 1 100 100.
Definition primaryUp : MouseFallback.MouseEvent := MouseFallback.mkMouseEvent 0 0 100 100.
Definition fingerDown : MouseFallback.TouchEvent :=
  MouseFallback.mkTouchEvent [Touch.mk 100 100] true.
Definition fingerUp : MouseFallback.TouchEvent := MouseFallback.mkTouchEvent [] true.

(** The page looking at the photo of index 3. *)
Definition focusedOnThird : Index.State :=
  Index.mkState focus (Index.photos Index.initial) (Some 3%Z) (0, 0).

(** ** Camera frames and the ribbon *)

(** The props of a frame in state [tree], [galaxy] or [focus] with no hand,
    no orbit rotation and no zoom. *)
Definition plainProps (st : TreeState) : Scene.Props := Scene.mkProps st (0, 0) None 0.

(** The camera shows what the refs hold (so it is after every frame). *)
Definition cameraInSync (c : Scene.Refs) : Prop :=
  Scene.camera c = Scene.mkCamera (Scene.positionRef c) (Scene.targetRef c).

(** The refs of a controller that was in [galaxy] on the frame before. *)
Definition fromGalaxy : Scene.Refs := Scene.initial galaxy.

(** The controller is in state [tree] with the transition delay elapsed. *)
Definition delayElapsed (c : Scene.Refs) : Prop :=
  Scene.prevStateRef c = tree /\ Scene.transitionDelayRef c <= 0.

(** Progress parameter in [0, 1], and equal to 1 once the star is reached;
    velocity not negative. *)
Definition wellFormed (c : Scene.Refs) : Prop :=
  0 <= Scene.velocityRef c /\
  0 <= Scene.ribbonTimeRef c <= 1 /\
  (Scene.isAtStarRef c = true -> Scene.ribbonTimeRef c = 1).

(** A frame time for which the velocity filter does not overshoot:
    [2.5 * delta <= 1]. *)
Definition shortFrame (delta : R) : Prop := 0 <= delta <= 0.4.

(** The [k]-th value of the loop variable [t] of [findNearestRibbonT]. *)
Fixpoint loopValue (k : nat) : PrimFloat.float :=
  match k with
  | O => 0%float
  | S k' => (loopValue k' + 0.02)%float
  end.

(** The same value as a real number. *)
Definition sample (k : nat) : R := realOf (loopValue k).

(** The test, on the mantissa and the exponent, that the [k]-th value of
    the loop variable is within [10^-15] of [k * 0.02]. *)
Definition nearGrid (k : nat) : bool :=
  match FloatOps.Prim2SF (loopValue k) with
  | SpecFloat.S754_zero _ => (k =? 0)%nat
  | SpecFloat.S754_finite false m e =>
      (e <? 0)%Z &&
      (Z.abs (50 * 10 ^ 15 * Z.pos m - Z.of_nat k * 10 ^ 15 * 2 ^ (- e))
       <=? 50 * 2 ^ (- e))%Z
  | _ => false
  end.

(** Euclidean distance of two points. *)
Definition distanceTo (a b : Scene.Vector3) : R :=
  sqrt (Rsqr (Scene.x a - Scene.x b) + Rsqr (Scene.y a - Scene.y b) +
        Rsqr (Scene.z a - Scene.z b)).

(** Squared distance of two points, and the radius of the ribbon at [t]. *)
Definition distance2 (a b : Scene.Vector3) : R :=
  Rsqr (Scene.x a - Scene.x b) + Rsqr (Scene.y a - Scene.y b) +
  Rsqr (Scene.z a - Scene.z b).

Definition layerRadius (t : R) : R := 3.15 - 2.64 * t.

(** ** Calls of the camera controller *)

(** In the calls of [onStarFocused], [true] never follows [true]; [prev] is
    the value before the first call. *)
Fixpoint noRepeatedTrue (prev : bool) (calls : list bool) : bool :=
  match calls with
  | [] => true
  | focused :: rest => negb (prev && focused) && noRepeatedTrue focused rest
  end.

(** The time a run of frames takes. *)
Definition total (deltas : list R) : R := fold_right Rplus 0 deltas.

(** ** Moving and mirroring a hand *)

(** A landmark moved by [(dx, dy, dz)], and mirrored left to right in the
    normalized image. *)
Definition translate (dx dy dz : R) (l : HandGesture.Landmark) : HandGesture.Landmark :=
  HandGesture.mkLandmark (HandGesture.x l + dx) (HandGesture.y l + dy) (HandGesture.z l + dz).

Definition mirror (l : HandGesture.Landmark) : HandGesture.Landmark :=
  HandGesture.mkLandmark (1 - HandGesture.x l) (HandGesture.y l) (HandGesture.z l).

(** ** Runs of pointer events *)

(** A mouse event with both buttons held, and a press. *)
Definition chord (ev : MouseFallback.Event) : bool :=
  match ev with
  | MouseFallback.mousedown _ e | MouseFallback.mousemove e | MouseFallback.mouseup e =>
      (MouseFallback.buttons e =? 3)%Z
  | _ => false
  end.

Definition isPress (ev : MouseFallback.Event) : bool :=
  match ev with
  | MouseFallback.mousedown _ _ => true
  | _ => false
  end.

(** A touch move of two fingers, the only event other than a press that
    can call [onGestureChange]. *)
Definition pinchMove (ev : MouseFallback.Event) : bool :=
  match ev with
  | MouseFallback.touchmove e => (List.length (MouseFallback.touches e) =? 2)%nat
  | _ => false
  end.

(** A move of one finger at [t]. *)
Definition fingerMove (t : Touch.t) : MouseFallback.Event :=
  MouseFallback.touchmove (MouseFallback.mkTouchEvent [t] true).

(** The two-finger pinch cannot fire: it has fired since the fingers went
    down, or the reference distance is absent or zero. *)
Definition latched (h : MouseFallback.Hook) : Prop :=
  MouseFallback.isPinchingRef h = true \/
  MouseFallback.truthy (MouseFallback.initialPinchDistRef h) = None.

(** The distance of two touches. *)
Definition spread (p1 p2 : Touch.t) : R :=
  MouseFallback.Math_hypot (Touch.clientX p1 - Touch.clientX p2)
                           (Touch.clientY p1 - Touch.clientY p2).

(** A pointer move that is not a move of two fingers. *)
Definition plainMove (ev : MouseFallback.Event) : bool :=
  match ev with
  | MouseFallback.mousemove _ => true
  | MouseFallback.touchmove e => negb (List.length (MouseFallback.touches e) =? 2)%nat
  | _ => false
  end.

(** ** The page *)

(** A photo is focused exactly in state [focus]; its index is at least 0
    and below 12, and below the number of photos when the page has a
    photo. *)
Definition consistent (s : Index.State) : Prop :=
  match Index.focusedPhotoIndex s with
  | Some i =>
      Index.treeState s = focus /\
      (0 <= i < 12)%Z /\
      (Index.photos s <> [] -> (i < Z.of_nat (List.length (Index.photos s)))%Z)
  | None => Index.treeState s <> focus
  end.

(** A value [Math.random()] can return. *)
Definition unitRandom (r : R) : Prop := 0 <= r < 1.

(** * Theorems *)

(** ** Numbers *)

Lemma Rltb_true (a b : R) : Rltb a b = true <-> a < b.
Proof. unfold Rltb. destruct (Rlt_dec a b); split; intros; try easy. Qed.

Lemma Rltb_false (a b : R) : Rltb a b = false <-> b <= a.
Proof.
  unfold Rltb. destruct (Rlt_dec a b); split; intros; try easy; lra.
Qed.

Lemma Rleb_true (a b : R) : Rleb a b = true <-> a <= b.
Proof. unfold Rleb. destruct (Rle_dec a b); split; intros; try easy. Qed.

Lemma Rleb_false (a b : R) : Rleb a b = false <-> b < a.
Proof.
  unfold Rleb. destruct (Rle_dec a b); split; intros; try easy; lra.
Qed.

Lemma Math_floor_bounds (a : R) : IZR (Math_floor a) <= a < IZR (Math_floor a) + 1.
Proof.
  unfold Math_floor. destruct (base_Int_part a) as [H1 H2]. lra.
Qed.

(** ** Theorems: the application state machine *)

Lemma randomIndex_range (random : R) (n : Z) :
  0 <= random < 1 -> (0 < n)%Z ->
  (0 <= Math_floor (random * IZR n) < n)%Z.
Proof.
  intros [H0 H1] Hn.
  pose proof (Math_floor_bounds (random * IZR n)) as [Hlo Hhi].
  assert (Hn' : 0 < IZR n) by (apply IZR_lt; exact Hn).
  split.
  - apply Z.lt_succ_r. apply lt_IZR. unfold Z.succ. rewrite plus_IZR.
    assert (0 <= random * IZR n) by (apply Rmult_le_pos; lra). simpl. lra.
  - apply lt_IZR.
    assert (random * IZR n < IZR n) by nra. lra.
Qed.

Lemma photoCount_pos (l : list string) : (0 < Index.photoCount l)%Z.
Proof.
  unfold Index.photoCount.
  destruct (0 <? Z.of_nat (List.length l))%Z eqn:E; [apply Z.ltb_lt in E|]; lia.
Qed.

(** C1. The application state machine follows the transition table on every
    (state, gesture) pair: [fist] gives [tree] and [open] gives [galaxy], both
    clearing the focused photo, from every state; [pinch] in [galaxy] gives
    [focus] with a photo index in [0, min(photoCount, 12)), which is the
    index of a loaded photo when there is one ([photoCount] is the number of
    photos, or 12 when none is loaded); [pinch] in [focus] gives [galaxy]
    with the selection cleared; [pinch] in [tree] and [none] in any state
    change nothing. *)
Theorem handleGestureChange_table (random : R) (s : Index.State) :
  0 <= random < 1 ->
  (Index.handleGestureChange random fist s
     = Index.mkState tree (Index.photos s) None (Index.orbitRotation s)) /\
  (Index.handleGestureChange random open s
     = Index.mkState galaxy (Index.photos s) None (Index.orbitRotation s)) /\
  (Index.treeState s = galaxy ->
     exists i : Z,
       Index.handleGestureChange random pinch s
         = Index.mkState focus (Index.photos s) (Some i) (Index.orbitRotation s) /\
       (0 <= i < Z.min (Index.photoCount (Index.photos s)) 12)%Z /\
       (Index.photos s <> [] -> (i < Z.of_nat (List.length (Index.photos s)))%Z)) /\
  (Index.treeState s = focus ->
     Index.handleGestureChange random pinch s
       = Index.mkState galaxy (Index.photos s) None (Index.orbitRotation s)) /\
  (Index.treeState s = tree -> Index.handleGestureChange random pinch s = s) /\
  (Index.handleGestureChange random none s = s).
Proof.
  intros Hr. destruct s as [ts ph fi orb]. cbn.
  repeat split; try reflexivity.
  - intros ->. cbn. eexists. split; [reflexivity|].
    assert (Hi : (0 <= Math_floor (random * IZR (Z.min (Index.photoCount ph) 12))
                  < Z.min (Index.photoCount ph) 12)%Z).
    { apply randomIndex_range; [exact Hr|]. pose proof (photoCount_pos ph). lia. }
    split; [exact Hi|]. intros Hne.
    assert (Hc : Index.photoCount ph = Z.of_nat (List.length ph)).
    { unfold Index.photoCount. destruct ph; [congruence|]. reflexivity. }
    lia.
  - intros ->. reflexivity.
  - intros ->. reflexivity.
Qed.

Lemma handleGestureChange_table_witness :
  Index.handleGestureChange (1 / 2) open Index.initial
    = Index.mkState galaxy (Index.photos Index.initial) None (0, 0) /\
  (exists i : Z,
     Index.handleGestureChange (1 / 2) pinch inGalaxy
       = Index.mkState focus (Index.photos Index.initial) (Some i) (0, 0) /\
     (0 <= i < 12)%Z) /\
  Index.handleGestureChange (1 / 2) none Index.initial = Index.initial.
Proof.
  assert (H : 0 <= 1 / 2 < 1) by lra.
  destruct (handleGestureChange_table (1 / 2) Index.initial H)
    as (_ & Hopen & _ & _ & _ & Hnone).
  destruct (handleGestureChange_table (1 / 2) inGalaxy H)
    as (_ & _ & Hpinch & _).
  split; [exact Hopen|]. split; [|exact Hnone].
  destruct (Hpinch eq_refl) as (i & Hi & Hrange & _). exists i. split; [exact Hi|].
  cbn in Hrange. lia.
Defined.

(** ** Theorems: the gesture classifier *)

Lemma at_index_landmark (lm : list HandGesture.Landmark) (i : nat) :
  (i < List.length lm)%nat -> at_index lm i = Normal (landmark lm i).
Proof.
  intros H. unfold at_index, landmark.
  rewrite (nth_error_nth' lm (HandGesture.mkLandmark 0 0 0) H). reflexivity.
Qed.

Lemma calculateFingerDistance_full (lm : list HandGesture.Landmark) (i j : nat) :
  (i < List.length lm)%nat -> (j < List.length lm)%nat ->
  HandGesture.calculateFingerDistance lm i j
    = Normal (distance3 (landmark lm i) (landmark lm j)).
Proof.
  intros Hi Hj. unfold HandGesture.calculateFingerDistance.
  rewrite (at_index_landmark lm i Hi), (at_index_landmark lm j Hj). cbn [bind].
  unfold distance3, Math_pow, Rsqr. do 2 f_equal. ring.
Qed.

Lemma length_ltb_21 (lm : list HandGesture.Landmark) :
  (21 <= List.length lm)%nat -> (List.length lm <? 21)%nat = false.
Proof. intros H. apply Nat.ltb_ge. exact H. Qed.

(** The classifier on a full snapshot, as one equation. *)
Lemma detectGesture_full (lm : list HandGesture.Landmark) :
  (21 <= List.length lm)%nat ->
  HandGesture.detectGesture (Some lm)
    = Normal (if Rltb (distance3 (landmark lm 4) (landmark lm 8)) 0.06 then pinch
              else if (3 <=? extendedFingers lm)%nat then open
              else if (extendedFingers lm <=? 1)%nat then fist
              else none).
Proof.
  intros H. unfold HandGesture.detectGesture.
  rewrite (length_ltb_21 lm H).
  rewrite calculateFingerDistance_full by lia. cbn [bind].
  destruct (Rltb _ 0.06); [reflexivity|].
  rewrite !at_index_landmark by lia. cbn [bind].
  unfold extendedFingers, extendedb, tip, joint, HandGesture.count_true. cbn [filter].
  destruct (Rltb (HandGesture.y (landmark lm 8)) _),
           (Rltb (HandGesture.y (landmark lm 12)) _),
           (Rltb (HandGesture.y (landmark lm 16)) _),
           (Rltb (HandGesture.y (landmark lm 20)) _); reflexivity.
Qed.

(** C2. An absent snapshot or one with fewer than 21 points is classified
    [none], by a normal completion (nothing is thrown); a snapshot with at
    least 21 points whose thumb tip (4) and index tip (8) are closer than 0.06
    is classified [pinch], whatever the other landmarks are. *)
Theorem detectGesture_none_or_pinch :
  HandGesture.detectGesture None = Normal none /\
  (forall lm : list HandGesture.Landmark,
     (List.length lm < 21)%nat -> HandGesture.detectGesture (Some lm) = Normal none) /\
  (forall lm : list HandGesture.Landmark,
     (21 <= List.length lm)%nat ->
     distance3 (landmark lm 4) (landmark lm 8) < 0.06 ->
     HandGesture.detectGesture (Some lm) = Normal pinch).
Proof.
  split; [reflexivity|]. split.
  - intros lm H. unfold HandGesture.detectGesture.
    apply Nat.ltb_lt in H. rewrite H. reflexivity.
  - intros lm H Hd. rewrite detectGesture_full by exact H.
    apply Rltb_true in Hd. rewrite Hd. reflexivity.
Qed.

Lemma distance3_closedHand : distance3 (landmark closedHand 4) (landmark closedHand 8) = 0.
Proof.
  unfold distance3. cbn. unfold Rsqr.
  replace ((0 - 0) * (0 - 0) + (0 - 0) * (0 - 0) + (0 - 0) * (0 - 0)) with 0 by ring.
  apply sqrt_0.
Qed.

Lemma distance3_thumbAway : distance3 (landmark thumbAway 4) (landmark thumbAway 8) = 1.
Proof.
  unfold distance3. cbn. unfold Rsqr.
  replace ((1 - 0) * (1 - 0) + (0 - 0) * (0 - 0) + (0 - 0) * (0 - 0)) with 1 by ring.
  apply sqrt_1.
Qed.

Lemma detectGesture_closedHand :
  HandGesture.detectGesture (Some closedHand) = Normal pinch.
Proof.
  rewrite detectGesture_full by (simpl; lia). rewrite distance3_closedHand.
  assert (E : Rltb 0 0.06 = true) by (apply Rltb_true; lra). rewrite E. reflexivity.
Qed.

Lemma detectGesture_none_or_pinch_witness :
  HandGesture.detectGesture (Some []) = Normal none /\
  HandGesture.detectGesture (Some closedHand) = Normal pinch.
Proof.
  destruct detectGesture_none_or_pinch as [_ [Hshort Hpinch]]. split.
  - apply Hshort. simpl. lia.
  - apply Hpinch.
    + simpl. lia.
    + rewrite distance3_closedHand. lra.
Defined.

(** C3. On a snapshot with at least 21 points whose thumb-index distance is
    at least 0.06, the classifier counts the fingers among index, middle,
    ring and pinky whose tip has a smaller vertical coordinate than the
    proximal joint, and answers [open] for a count of 3 or more, [fist] for a
    count of 1 or less and [none] otherwise. *)
Theorem detectGesture_by_extended_count (lm : list HandGesture.Landmark) :
  (21 <= List.length lm)%nat ->
  0.06 <= distance3 (landmark lm 4) (landmark lm 8) ->
  ((3 <= extendedFingers lm)%nat -> HandGesture.detectGesture (Some lm) = Normal open) /\
  ((extendedFingers lm <= 1)%nat -> HandGesture.detectGesture (Some lm) = Normal fist) /\
  ((extendedFingers lm = 2)%nat -> HandGesture.detectGesture (Some lm) = Normal none).
Proof.
  intros H Hd. rewrite detectGesture_full by exact H.
  apply Rltb_false in Hd. rewrite Hd.
  repeat split; intros Hc.
  - apply Nat.leb_le in Hc. rewrite Hc. reflexivity.
  - destruct (3 <=? extendedFingers lm)%nat eqn:E3; [apply Nat.leb_le in E3; lia|].
    apply Nat.leb_le in Hc. rewrite Hc. reflexivity.
  - rewrite Hc. reflexivity.
Qed.

Lemma extendedFingers_thumbAway : extendedFingers thumbAway = 0%nat.
Proof.
  unfold extendedFingers, extendedb. cbn.
  assert (E : Rltb 0 0 = false) by (apply Rltb_false; lra).
  rewrite E. reflexivity.
Qed.

Lemma detectGesture_by_extended_count_witness :
  HandGesture.detectGesture (Some thumbAway) = Normal fist.
Proof.
  assert (H21 : (21 <= List.length thumbAway)%nat) by (simpl; lia).
  assert (Hd : 0.06 <= distance3 (landmark thumbAway 4) (landmark thumbAway 8))
    by (rewrite distance3_thumbAway; lra).
  destruct (detectGesture_by_extended_count thumbAway H21 Hd) as [_ [Hfist _]].
  apply Hfist. rewrite extendedFingers_thumbAway. lia.
Defined.

(** ** Theorems: the hand input source *)

Lemma GestureType_eqb_refl (g : GestureType) : GestureType_eqb g g = true.
Proof. unfold GestureType_eqb. destruct (GestureType_eq_dec g g); congruence. Qed.

Lemma GestureType_eqb_neq (a b : GestureType) : a <> b -> GestureType_eqb a b = false.
Proof. intros H. unfold GestureType_eqb. destruct (GestureType_eq_dec a b); congruence. Qed.

(** One frame with a classified hand: the register takes the classified
    value, and the callback is called exactly when the value is new. *)
Lemma processResults_hand (state : HandGesture.HandGestureState)
      (results : HandGesture.Results) (h : HandGesture.Hook) (g : GestureType) :
  classifiedAs results g ->
  let o := HandGesture.processResults state results h in
  HandGesture.completion o = Normal tt /\
  HandGesture.lastGestureRef (HandGesture.hook o) = g /\
  HandGesture.emitted o
    = (if GestureType_eqb g (HandGesture.lastGestureRef h) then [] else [g]) /\
  HandGesture.isTracking (HandGesture.current (HandGesture.hook o)) = true /\
  HandGesture.gesture (HandGesture.current (HandGesture.hook o)) = g.
Proof.
  intros (lm & others & Hl & Hlen & Hg). unfold HandGesture.processResults.
  rewrite Hl, Hg.
  rewrite !at_index_landmark by lia. cbn [bind].
  rewrite calculateFingerDistance_full by lia. cbn [bind].
  destruct (GestureType_eq_dec g (HandGesture.lastGestureRef h)) as [E|E].
  - rewrite E, GestureType_eqb_refl. cbn. auto.
  - rewrite (GestureType_eqb_neq _ _ E). cbn. auto.
Qed.

Lemma last_cons_default {A : Type} (l : list A) (a d : A) :
  last (a :: l) d = last l a.
Proof.
  revert a d. induction l as [|b l IH]; intros a d; [reflexivity|].
  change (last (b :: l) d = last (b :: l) a). rewrite (IH b d), (IH b a). reflexivity.
Qed.

Lemma detectFrames_changes (state : HandGesture.HandGestureState)
      (frames : list HandGesture.Results) (gs : list GestureType) :
  Forall2 classifiedAs frames gs ->
  forall h : HandGesture.Hook,
    snd (HandGesture.detectFrames state frames h)
      = changes (HandGesture.lastGestureRef h) gs /\
    HandGesture.lastGestureRef (fst (HandGesture.detectFrames state frames h))
      = last gs (HandGesture.lastGestureRef h).
Proof.
  induction 1 as [|r g frames gs Hr _ IH]; intros h.
  - split; reflexivity.
  - destruct (processResults_hand state r h g Hr) as (Hc & Hlast & Hem & _).
    cbn [HandGesture.detectFrames]. rewrite Hc.
    specialize (IH (HandGesture.hook (HandGesture.processResults state r h))).
    destruct (HandGesture.detectFrames state frames _) as [h' calls].
    cbn [fst snd] in *. destruct IH as [IHc IHl]. rewrite Hlast in IHc, IHl.
    split.
    + rewrite Hem, IHc. unfold changes. cbn [combine filter fst snd].
      destruct (GestureType_eqb g (HandGesture.lastGestureRef h)); reflexivity.
    + rewrite IHl. symmetry. apply last_cons_default.
Qed.

(** C4. Gesture-change events are edge-triggered.  On a frame with a
    classified hand the callback is called (with the classified value) if and
    only if that value differs from the one-slot register, and the register
    then holds the classified value; over any sequence of classified frames
    the calls are exactly the samples that differ from the sample before
    them; the same gesture classified twice in a row, being new, is emitted
    exactly once; and [none] is emitted like any other value. *)
Theorem gesture_change_edge_triggered (state : HandGesture.HandGestureState)
        (h : HandGesture.Hook) :
  (forall results g,
     classifiedAs results g ->
     let o := HandGesture.processResults state results h in
     (HandGesture.emitted o = [g] <-> g <> HandGesture.lastGestureRef h) /\
     (HandGesture.emitted o = [] <-> g = HandGesture.lastGestureRef h) /\
     HandGesture.lastGestureRef (HandGesture.hook o) = g) /\
  (forall frames gs,
     Forall2 classifiedAs frames gs ->
     snd (HandGesture.detectFrames state frames h)
       = changes (HandGesture.lastGestureRef h) gs /\
     HandGesture.lastGestureRef (fst (HandGesture.detectFrames state frames h))
       = last gs (HandGesture.lastGestureRef h)) /\
  (forall r1 r2 g,
     classifiedAs r1 g -> classifiedAs r2 g ->
     g <> HandGesture.lastGestureRef h ->
     snd (HandGesture.detectFrames state [r1; r2] h) = [g]) /\
  (forall results,
     classifiedAs results none ->
     HandGesture.lastGestureRef h <> none ->
     HandGesture.emitted (HandGesture.processResults state results h) = [none]).
Proof.
  split; [|split; [|split]].
  - intros results g Hr o.
    destruct (processResults_hand state results h g Hr) as (_ & Hlast & Hem & _).
    fold o in Hlast, Hem. rewrite Hem. unfold GestureType_eqb.
    destruct (GestureType_eq_dec g (HandGesture.lastGestureRef h)) as [E|E];
      repeat split; intros; try assumption; try reflexivity;
      try discriminate; try contradiction.
  - intros frames gs Hf. apply detectFrames_changes. exact Hf.
  - intros r1 r2 g H1 H2 Hne.
    destruct (detectFrames_changes state [r1; r2] [g; g]) with (h := h) as [Hc _].
    + repeat constructor; assumption.
    + rewrite Hc. unfold changes. cbn [combine filter fst snd map].
      rewrite (GestureType_eqb_neq _ _ Hne), GestureType_eqb_refl. reflexivity.
  - intros results Hr Hne.
    destruct (processResults_hand state results h none Hr) as (_ & _ & Hem & _).
    rewrite Hem. rewrite GestureType_eqb_neq by congruence. reflexivity.
Qed.

Lemma classifiedAs_closedHand :
  classifiedAs (HandGesture.mkResults (Some [closedHand])) pinch.
Proof.
  exists closedHand, []. split; [reflexivity|]. split; [simpl; lia|].
  exact detectGesture_closedHand.
Qed.

Lemma gesture_change_edge_triggered_witness :
  snd (HandGesture.detectFrames (HandGesture.current HandGesture.initial)
         [HandGesture.mkResults (Some [closedHand]);
          HandGesture.mkResults (Some [closedHand])]
         HandGesture.initial) = [pinch].
Proof.
  destruct (gesture_change_edge_triggered
              (HandGesture.current HandGesture.initial) HandGesture.initial)
    as (_ & _ & Htwice & _).
  apply Htwice.
  - exact classifiedAs_closedHand.
  - exact classifiedAs_closedHand.
  - simpl. discriminate.
Defined.

(** The claim that losing the hand emits a [none] edge fails: with a fist in
    the register and the hook tracking, a frame without a hand publishes
    [isTracking = false] but calls the gesture callback with nothing and
    keeps [fist] in the register. *)
Lemma hand_lost_emits_no_edge :
  let o := HandGesture.processResults (HandGesture.current trackingFist)
             (HandGesture.mkResults None) trackingFist in
  HandGesture.isTracking (HandGesture.current trackingFist) = true /\
  HandGesture.lastGestureRef trackingFist <> none /\
  HandGesture.isTracking (HandGesture.current (HandGesture.hook o)) = false /\
  HandGesture.emitted o <> [none] /\
  HandGesture.emitted o = [] /\
  HandGesture.lastGestureRef (HandGesture.hook o) = fist.
Proof.
  cbn. repeat split; try reflexivity; discriminate.
Qed.

(** The guard of the no-hand branch reads the state captured by the closure:
    with the state of the first render captured, a hook that is tracking
    stays tracking when the hand is lost. *)
Lemma hand_lost_stale_closure :
  HandGesture.hook
    (HandGesture.processResults (HandGesture.current HandGesture.initial)
       (HandGesture.mkResults None) trackingFist) = trackingFist.
Proof. reflexivity. Qed.

(** C5 (amended). On a frame without a hand the gesture callback is not
    called and the register keeps its value; when the tracking flag read by
    the handler is set, the published state gets [isTracking = false] and
    gesture [none], hand position and pinch distance being kept. *)
Theorem processResults_no_hand (state : HandGesture.HandGestureState)
        (results : HandGesture.Results) (h : HandGesture.Hook) :
  noHand results ->
  let o := HandGesture.processResults state results h in
  HandGesture.completion o = Normal tt /\
  HandGesture.emitted o = [] /\
  HandGesture.lastGestureRef (HandGesture.hook o) = HandGesture.lastGestureRef h /\
  (HandGesture.isTracking state = true ->
   HandGesture.current (HandGesture.hook o)
     = HandGesture.mkHandGestureState none
         (HandGesture.handPosition (HandGesture.current h))
         (HandGesture.pinchDistance (HandGesture.current h)) false).
Proof.
  intros Hn o. subst o. unfold HandGesture.processResults.
  destruct Hn as [-> | ->]; destruct (HandGesture.isTracking state); cbn;
    repeat split; try reflexivity; discriminate.
Qed.

Lemma processResults_no_hand_witness :
  HandGesture.current
    (HandGesture.hook
       (HandGesture.processResults (HandGesture.current trackingFist)
          (HandGesture.mkResults (Some [])) trackingFist))
  = HandGesture.mkHandGestureState none (Some (1 / 2, 1 / 2)) 1 false.
Proof.
  assert (Hn : noHand (HandGesture.mkResults (Some []))) by (right; reflexivity).
  destruct (processResults_no_hand (HandGesture.current trackingFist)
              (HandGesture.mkResults (Some [])) trackingFist Hn) as (_ & _ & _ & Hpub).
  apply Hpub. reflexivity.
Defined.

(** ** Theorems: the pointer input source *)

Lemma handleMouseDown_second (currentState : TreeState) (now : Z)
      (e : MouseFallback.MouseEvent) (h : MouseFallback.Hook) :
  MouseFallback.button e = 0%Z -> MouseFallback.buttons e <> 3%Z ->
  (now - MouseFallback.lastClickRef h < 300)%Z ->
  MouseFallback.handleMouseDown true currentState now e h
    = (MouseFallback.setLastClick 0 h, [Index.onStateChange (toggled currentState)]).
Proof.
  intros Hb Hbs Ht. unfold MouseFallback.handleMouseDown. cbn [negb].
  apply Z.eqb_neq in Hbs. rewrite Hbs.
  rewrite Hb. apply Z.ltb_lt in Ht. rewrite Ht. cbn [Z.eqb andb].
  destruct currentState; reflexivity.
Qed.

Lemma handleMouseDown_first (currentState : TreeState) (now : Z)
      (e : MouseFallback.MouseEvent) (h : MouseFallback.Hook) :
  MouseFallback.buttons e <> 3%Z ->
  ~ (MouseFallback.button e = 0%Z /\ (now - MouseFallback.lastClickRef h < 300)%Z) ->
  snd (MouseFallback.handleMouseDown true currentState now e h) = [] /\
  MouseFallback.lastClickRef (fst (MouseFallback.handleMouseDown true currentState now e h))
    = now.
Proof.
  intros Hbs Hn. unfold MouseFallback.handleMouseDown. cbn [negb].
  apply Z.eqb_neq in Hbs. rewrite Hbs.
  destruct ((MouseFallback.button e =? 0)%Z && (now - MouseFallback.lastClickRef h <? 300)%Z)
    eqn:E.
  - apply andb_true_iff in E. destruct E as [E1 E2].
    apply Z.eqb_eq in E1. apply Z.ltb_lt in E2. tauto.
  - split; reflexivity.
Qed.

(** Releases of the mouse and starts and ends of touches call nothing and
    keep the time of the last click. *)
Lemma passive_event_quiet (enabled : bool) (currentState : TreeState)
      (ev : MouseFallback.Event) (h : MouseFallback.Hook) :
  passive ev = true ->
  snd (MouseFallback.handle enabled currentState ev h) = [] /\
  MouseFallback.lastClickRef (fst (MouseFallback.handle enabled currentState ev h))
    = MouseFallback.lastClickRef h.
Proof.
  destruct ev as [now e|e|e|e|e|e]; cbn [passive MouseFallback.handle];
    try discriminate; intros _.
  - unfold MouseFallback.handleMouseUp.
    destruct (MouseFallback.buttons e =? 3)%Z, (MouseFallback.buttons e =? 0)%Z,
             (MouseFallback.buttons e =? 1)%Z; split; reflexivity.
  - unfold MouseFallback.handleTouchStart.
    destruct enabled; cbn [negb]; [|split; reflexivity].
    destruct (MouseFallback.touches e) as [|a [|b [|c l]]]; split; reflexivity.
  - unfold MouseFallback.handleTouchEnd.
    destruct (MouseFallback.touches e) as [|a [|b l]]; split; reflexivity.
Qed.

Lemma pointerEvent_eq (random : R) (enabled : bool) (ev : MouseFallback.Event)
      (s : Index.State) (h : MouseFallback.Hook) :
  pointerEvent random enabled ev (s, h)
    = (Index.dispatchAll random
         (snd (MouseFallback.handle enabled (Index.treeState s) ev h)) s,
       fst (MouseFallback.handle enabled (Index.treeState s) ev h),
       snd (MouseFallback.handle enabled (Index.treeState s) ev h)).
Proof.
  unfold pointerEvent. cbn [fst snd].
  destruct (MouseFallback.handle enabled (Index.treeState s) ev h). reflexivity.
Qed.

Lemma pointerEvents_cons (random : R) (enabled : bool) (ev : MouseFallback.Event)
      (evs : list MouseFallback.Event) (s : Index.State) (h : MouseFallback.Hook) :
  pointerEvents random enabled (ev :: evs) (s, h)
    = (let r := MouseFallback.handle enabled (Index.treeState s) ev h in
       let rest := pointerEvents random enabled evs
                     (Index.dispatchAll random (snd r) s, fst r) in
       (fst (fst rest), snd (fst rest), snd r ++ snd rest)).
Proof.
  cbn [pointerEvents]. rewrite pointerEvent_eq. cbv zeta.
  destruct (pointerEvents random enabled evs _) as [[s2 h2] calls2]. reflexivity.
Qed.

(** A press that starts a click, passive events, and a press of the primary
    button within 300 ms of the first: the only call made is [onStateChange]
    with the toggled state. *)
Lemma mouse_double_click (random : R) (between : list MouseFallback.Event)
      (now1 now2 : Z) (e1 e2 : MouseFallback.MouseEvent) :
  forallb passive between = true ->
  MouseFallback.button e2 = 0%Z -> MouseFallback.buttons e2 <> 3%Z ->
  (now2 - now1 < 300)%Z ->
  forall (s : Index.State) (h : MouseFallback.Hook),
    MouseFallback.buttons e1 <> 3%Z ->
    ~ (MouseFallback.button e1 = 0%Z /\ (now1 - MouseFallback.lastClickRef h < 300)%Z) ->
    exists h' : MouseFallback.Hook,
      pointerEvents random true
        (MouseFallback.mousedown now1 e1 :: between ++ [MouseFallback.mousedown now2 e2])
        (s, h)
      = (Index.setTreeState (toggled (Index.treeState s)) s, h',
         [Index.onStateChange (toggled (Index.treeState s))]).
Proof.
  intros Hpass Hb2 Hbs2 Ht s h Hbs1 Hn1.
  destruct (handleMouseDown_first (Index.treeState s) now1 e1 h Hbs1 Hn1) as [Hc1 Hl1].
  rewrite pointerEvents_cons. cbv zeta. cbn [MouseFallback.handle].
  rewrite Hc1. cbn [Index.dispatchAll fold_left app].
  set (h1 := fst (MouseFallback.handleMouseDown true (Index.treeState s) now1 e1 h)) in *.
  clearbody h1. clear Hc1 Hbs1 Hn1 h.
  revert h1 Hl1. induction between as [|ev between IH]; intros h1 Hl1.
  - cbn [app]. rewrite pointerEvents_cons. cbv zeta. cbn [MouseFallback.handle].
    rewrite (handleMouseDown_second (Index.treeState s) now2 e2 h1 Hb2 Hbs2)
      by (rewrite Hl1; exact Ht).
    cbn. eexists. reflexivity.
  - cbn [forallb] in Hpass. apply andb_true_iff in Hpass. destruct Hpass as [Hev Hrest].
    cbn [app]. rewrite pointerEvents_cons. cbv zeta.
    destruct (passive_event_quiet true (Index.treeState s) ev h1 Hev) as [Hc Hl].
    rewrite Hc. cbn [Index.dispatchAll fold_left app].
    apply (IH Hrest). rewrite Hl. exact Hl1.
Qed.

(** An event other than a press keeps the time of the last click and never
    calls [onStateChange]; unless it is a move of two fingers it does not
    call [onGestureChange] either. *)
Lemma not_press_event (currentState : TreeState) (ev : MouseFallback.Event)
      (h : MouseFallback.Hook) :
  isPress ev = false ->
  let r := MouseFallback.handle true currentState ev h in
  MouseFallback.lastClickRef (fst r) = MouseFallback.lastClickRef h /\
  existsb isStateCall (snd r) = false /\
  (pinchMove ev = false -> existsb isGestureCall (snd r) = false).
Proof.
  intros Hp. cbv zeta.
  destruct ev as [now e|e|e|e|e|e]; cbn [isPress] in Hp; try discriminate;
    cbn [MouseFallback.handle pinchMove].
  - unfold MouseFallback.handleMouseMove. cbn [negb].
    destruct (MouseFallback.buttons e =? 3)%Z.
    + destruct (negb (GestureType_eqb (MouseFallback.simulatedGesture h) pinch));
        repeat split; reflexivity.
    + destruct (MouseFallback.isDragging h && (MouseFallback.buttons e =? 1)%Z
                && negb (TreeState_eqb currentState focus));
        [destruct (negb (GestureType_eqb (MouseFallback.simulatedGesture h) open))|];
        repeat split; reflexivity.
  - unfold MouseFallback.handleMouseUp.
    destruct (MouseFallback.buttons e =? 3)%Z, (MouseFallback.buttons e =? 0)%Z,
             (MouseFallback.buttons e =? 1)%Z; repeat split; reflexivity.
  - unfold MouseFallback.handleTouchStart. cbn [negb].
    destruct (MouseFallback.touches e) as [|a [|b [|c l]]]; repeat split; reflexivity.
  - unfold MouseFallback.handleTouchMove. cbn [negb].
    destruct (MouseFallback.touches e) as [|a [|b [|c l]]].
    + destruct (MouseFallback.lastTouchRef h); repeat split; reflexivity.
    + destruct (MouseFallback.lastTouchRef h);
        [destruct (negb (TreeState_eqb currentState focus));
         [destruct (negb (GestureType_eqb (MouseFallback.simulatedGesture h) open))|]|];
        repeat split; reflexivity.
    + assert (Hlast : forall o : option (R * R),
                 match o with
                 | Some _ => (h, @nil Index.Call)
                 | None => (h, [])
                 end = (h, [])) by (intros [q|]; reflexivity).
      destruct (MouseFallback.lastTouchRef h);
        (destruct (MouseFallback.truthy (MouseFallback.initialPinchDistRef h));
         [|split; [reflexivity|]; split; [reflexivity | discriminate]]);
        (match goal with
         | |- context [if Rgtb ?a 15 then _ else _] => destruct (Rgtb a 15)
         end;
         [|split; [reflexivity|]; split; [reflexivity | discriminate]]);
        destruct (negb (MouseFallback.isPinchingRef h));
        destruct (negb (GestureType_eqb (MouseFallback.simulatedGesture h) pinch));
        (split; [reflexivity|]; split; [reflexivity | discriminate]).
    + destruct (MouseFallback.lastTouchRef h); repeat split; reflexivity.
  - unfold MouseFallback.handleTouchEnd.
    destruct (MouseFallback.touches e) as [|a [|b l]]; repeat split; reflexivity.
Qed.

(** Calls that are neither [onStateChange] nor [onGestureChange] leave the
    state and the focused photo of the page as they are. *)
Lemma dispatchAll_orbit_only (random : R) (calls : list Index.Call) (s : Index.State) :
  existsb isStateCall calls = false -> existsb isGestureCall calls = false ->
  Index.treeState (Index.dispatchAll random calls s) = Index.treeState s /\
  Index.focusedPhotoIndex (Index.dispatchAll random calls s) = Index.focusedPhotoIndex s.
Proof.
  revert s. induction calls as [|c calls IH]; intros s Hs Hg; [split; reflexivity|].
  cbn [existsb] in Hs, Hg. apply orb_false_elim in Hs. apply orb_false_elim in Hg.
  destruct Hs as [Hs1 Hs2]. destruct Hg as [Hg1 Hg2].
  destruct c as [st|rotation|g]; cbn in Hs1, Hg1; try discriminate.
  unfold Index.dispatchAll. cbn [fold_left Index.dispatch].
  destruct (IH (Index.setOrbitRotation rotation s) Hs2 Hg2) as [I1 I2].
  unfold Index.dispatchAll in I1, I2. rewrite I1, I2. split; reflexivity.
Qed.

(** A run of events without a press keeps the time of the last click;
    without a move of two fingers it also calls neither [onStateChange] nor
    [onGestureChange] and keeps the state and the focused photo. *)
Lemma no_press_run (random : R) (between : list MouseFallback.Event) :
  existsb isPress between = false ->
  forall (s : Index.State) (h : MouseFallback.Hook),
    let r := pointerEvents random true between (s, h) in
    MouseFallback.lastClickRef (snd (fst r)) = MouseFallback.lastClickRef h /\
    existsb isStateCall (snd r) = false /\
    (existsb pinchMove between = false ->
     existsb isGestureCall (snd r) = false /\
     Index.treeState (fst (fst r)) = Index.treeState s /\
     Index.focusedPhotoIndex (fst (fst r)) = Index.focusedPhotoIndex s).
Proof.
  induction between as [|ev between IH]; intros Hp s h; cbv zeta.
  - cbn. split; [reflexivity|]. split; [reflexivity|]. intros _. repeat split.
  - cbn [existsb] in Hp. apply orb_false_elim in Hp. destruct Hp as [Hev Hrest].
    rewrite pointerEvents_cons. cbv zeta. cbn [fst snd].
    destruct (not_press_event (Index.treeState s) ev h Hev) as (El & Es & Eg).
    cbv zeta in El, Es, Eg.
    set (r1 := MouseFallback.handle true (Index.treeState s) ev h) in *.
    set (s1 := Index.dispatchAll random (snd r1) s).
    destruct (IH Hrest s1 (fst r1)) as (Il & Is & Ig). cbv zeta in Il, Is, Ig.
    split; [rewrite Il; exact El|].
    split; [rewrite existsb_app, Es, Is; reflexivity|].
    intros Hm. cbn [existsb] in Hm. apply orb_false_elim in Hm. destruct Hm as [Hm1 Hm2].
    destruct (Ig Hm2) as (Ig1 & Ig2 & Ig3).
    destruct (dispatchAll_orbit_only random (snd r1) s Es (Eg Hm1)) as [D1 D2].
    fold s1 in D1, D2.
    split; [rewrite existsb_app, (Eg Hm1), Ig1; reflexivity|].
    split; congruence.
Qed.

(** A run of events followed by one more event. *)
Lemma pointerEvents_snoc (random : R) (enabled : bool) (evs : list MouseFallback.Event)
      (ev : MouseFallback.Event) :
  forall (s : Index.State) (h : MouseFallback.Hook),
    pointerEvents random enabled (evs ++ [ev]) (s, h)
    = (let before := pointerEvents random enabled evs (s, h) in
       let after := pointerEvent random enabled ev (fst (fst before), snd (fst before)) in
       (fst (fst after), snd (fst after), snd before ++ snd after)).
Proof.
  induction evs as [|e evs IH]; intros s h; cbv zeta.
  - cbn [app]. rewrite pointerEvents_cons. cbv zeta.
    cbn [pointerEvents fst snd]. rewrite pointerEvent_eq. cbn [fst snd app].
    rewrite app_nil_r. reflexivity.
  - cbn [app]. rewrite !pointerEvents_cons. cbv zeta. cbn [fst snd].
    rewrite IH. cbv zeta. cbn [fst snd]. rewrite app_assoc. reflexivity.
Qed.

(** C9. With the pointer source enabled, a double click sets the
    application state directly.  After a press that starts a click and any
    events other than presses (releases, mouse moves, and the touch events of
    a tap or a drag), a press of the primary button less than 300 ms after
    the first press makes exactly one call, [onStateChange] with the state
    toggled from the one the page is in: [tree] becomes [galaxy], [galaxy]
    becomes [tree] and [focus] becomes [galaxy].  No gesture event is
    emitted by it, the rest of the page stays as it is, and the time of the
    last click is cleared, so a third press starts a new click.  Unless a
    move of two fingers came in between, the events between the two presses
    emit no gesture event either and the state toggled is the one the page
    had at the first press.  A double tap takes the same path: the hook has
    no handler of its own for it, and the mouse presses delivered for the
    taps are the presses of this theorem, the touch events of the taps being
    among the events between them. *)
Theorem double_click_toggles_state (random : R) (s : Index.State)
        (h : MouseFallback.Hook) (now1 now2 : Z) (e1 e2 : MouseFallback.MouseEvent)
        (between : list MouseFallback.Event) :
  MouseFallback.buttons e1 <> 3%Z ->
  ~ (MouseFallback.button e1 = 0%Z /\ (now1 - MouseFallback.lastClickRef h < 300)%Z) ->
  existsb isPress between = false ->
  MouseFallback.button e2 = 0%Z -> MouseFallback.buttons e2 <> 3%Z ->
  (now2 - now1 < 300)%Z ->
  let before := pointerEvents random true (MouseFallback.mousedown now1 e1 :: between)
                  (s, h) in
  let s1 := fst (fst before) in
  let after := pointerEvent random true (MouseFallback.mousedown now2 e2)
                 (s1, snd (fst before)) in
  let s' := fst (fst after) in
  snd after = [Index.onStateChange (toggled (Index.treeState s1))] /\
  existsb isGestureCall (snd after) = false /\
  s' = Index.setTreeState (toggled (Index.treeState s1)) s1 /\
  (Index.treeState s1 = tree -> Index.treeState s' = galaxy) /\
  (Index.treeState s1 = galaxy -> Index.treeState s' = tree) /\
  (Index.treeState s1 = focus -> Index.treeState s' = galaxy) /\
  MouseFallback.lastClickRef (snd (fst after)) = 0%Z /\
  pointerEvents random true
    (MouseFallback.mousedown now1 e1 :: between ++ [MouseFallback.mousedown now2 e2])
    (s, h)
  = (s', snd (fst after), snd before ++ snd after) /\
  (existsb pinchMove between = false ->
   existsb isGestureCall (snd before) = false /\
   existsb isStateCall (snd before) = false /\
   Index.treeState s1 = Index.treeState s /\
   Index.focusedPhotoIndex s' = Index.focusedPhotoIndex s).
Proof.
  intros Hbs1 Hn1 Hpress Hb2 Hbs2 Ht. cbv zeta.
  assert (Hrun : pointerEvents random true
                   (MouseFallback.mousedown now1 e1
                      :: between ++ [MouseFallback.mousedown now2 e2]) (s, h)
                 = (let before := pointerEvents random true
                                    (MouseFallback.mousedown now1 e1 :: between) (s, h) in
                    let after := pointerEvent random true (MouseFallback.mousedown now2 e2)
                                   (fst (fst before), snd (fst before)) in
                    (fst (fst after), snd (fst after), snd before ++ snd after)))
    by (rewrite app_comm_cons; apply pointerEvents_snoc).
  cbv zeta in Hrun. rewrite Hrun. clear Hrun.
  destruct (handleMouseDown_first (Index.treeState s) now1 e1 h Hbs1 Hn1) as [Hc1 Hl1].
  assert (Ebefore : pointerEvents random true (MouseFallback.mousedown now1 e1 :: between)
                      (s, h)
                    = pointerEvents random true between
                        (s, fst (MouseFallback.handleMouseDown true (Index.treeState s)
                                   now1 e1 h))).
  { rewrite pointerEvents_cons. cbv zeta. cbn [MouseFallback.handle].
    rewrite Hc1. change (Index.dispatchAll random [] s) with s. cbn [app].
    destruct (pointerEvents random true between _) as [[s2 h2] calls2]. reflexivity. }
  rewrite Ebefore.
  set (h0 := fst (MouseFallback.handleMouseDown true (Index.treeState s) now1 e1 h)) in *.
  destruct (no_press_run random between Hpress s h0) as (Kl & Ks & Kg).
  cbv zeta in Kl, Ks, Kg.
  set (before := pointerEvents random true between (s, h0)) in *.
  set (s1 := fst (fst before)). set (h1 := snd (fst before)) in *.
  assert (Hsecond : MouseFallback.handleMouseDown true (Index.treeState s1) now2 e2 h1
                    = (MouseFallback.setLastClick 0 h1,
                       [Index.onStateChange (toggled (Index.treeState s1))])).
  { apply handleMouseDown_second; [exact Hb2 | exact Hbs2 |].
    rewrite Kl, Hl1. exact Ht. }
  rewrite pointerEvent_eq. cbn [MouseFallback.handle fst snd]. rewrite Hsecond.
  cbn [fst snd]. unfold Index.dispatchAll. cbn [fold_left Index.dispatch].
  split; [reflexivity|]. split; [reflexivity|]. split; [reflexivity|].
  split; [intros E; cbn; rewrite E; reflexivity|].
  split; [intros E; cbn; rewrite E; reflexivity|].
  split; [intros E; cbn; rewrite E; reflexivity|].
  split; [reflexivity|]. split; [reflexivity|].
  intros Hm. destruct (Kg Hm) as (Kg1 & Kg2 & Kg3).
  split; [exact Kg1|]. split; [exact Ks|]. split; [exact Kg2 | exact Kg3].
Qed.

Lemma double_click_toggles_state_witness :
  let between := [MouseFallback.mouseup primaryUp; MouseFallback.touchstart fingerDown;
                  MouseFallback.touchend fingerUp; MouseFallback.mousemove primaryUp] in
  let before := pointerEvents (1 / 2) true
                  (MouseFallback.mousedown 1000 primaryDown :: between)
                  (Index.initial, MouseFallback.initial) in
  let after := pointerEvent (1 / 2) true (MouseFallback.mousedown 1200 primaryDown)
                 (fst (fst before), snd (fst before)) in
  Index.treeState (fst (fst after)) = galaxy /\
  snd after = [Index.onStateChange (toggled (Index.treeState (fst (fst before))))].
Proof.
  cbv zeta.
  destruct (double_click_toggles_state (1 / 2) Index.initial MouseFallback.initial
              1000 1200 primaryDown primaryDown
              [MouseFallback.mouseup primaryUp; MouseFallback.touchstart fingerDown;
               MouseFallback.touchend fingerUp; MouseFallback.mousemove primaryUp])
    as (Hc & _ & _ & Ht & _ & _ & _ & _ & Hq).
  - cbn. discriminate.
  - cbn. lia.
  - reflexivity.
  - reflexivity.
  - cbn. discriminate.
  - lia.
  - split; [|exact Hc]. apply Ht.
    destruct (Hq eq_refl) as (_ & _ & E & _). rewrite E. reflexivity.
Defined.

(** C10. When the double click happens in state [focus], only the state
    field changes (to [galaxy]): the focused-photo index, the photos and the
    orbit rotation are those of before, whereas a [pinch] in state [focus]
    also goes to [galaxy] but clears the focused-photo index. *)
Theorem double_click_in_focus_keeps_selection (random : R) (s : Index.State)
        (h : MouseFallback.Hook) (now1 now2 : Z) (e1 e2 : MouseFallback.MouseEvent)
        (between : list MouseFallback.Event) :
  Index.treeState s = focus ->
  MouseFallback.buttons e1 <> 3%Z ->
  ~ (MouseFallback.button e1 = 0%Z /\ (now1 - MouseFallback.lastClickRef h < 300)%Z) ->
  forallb passive between = true ->
  MouseFallback.button e2 = 0%Z -> MouseFallback.buttons e2 <> 3%Z ->
  (now2 - now1 < 300)%Z ->
  let '(s', _, _) :=
    pointerEvents random true
      (MouseFallback.mousedown now1 e1 :: between ++ [MouseFallback.mousedown now2 e2])
      (s, h) in
  s' = Index.mkState galaxy (Index.photos s) (Index.focusedPhotoIndex s)
         (Index.orbitRotation s) /\
  Index.focusedPhotoIndex s' = Index.focusedPhotoIndex s /\
  Index.handleGestureChange random pinch s
    = Index.mkState galaxy (Index.photos s) None (Index.orbitRotation s).
Proof.
  intros Hf Hbs1 Hn1 Hpass Hb2 Hbs2 Ht.
  destruct (mouse_double_click random between now1 now2 e1 e2 Hpass Hb2 Hbs2 Ht
              s h Hbs1 Hn1) as [h' E].
  rewrite E. destruct s as [ts ph fi orb]. cbn in Hf. subst ts. cbn.
  repeat split; reflexivity.
Qed.

Lemma double_click_in_focus_keeps_selection_witness :
  let '(s', _, _) :=
    pointerEvents (1 / 2) true
      [MouseFallback.mousedown 1000 primaryDown; MouseFallback.mouseup primaryUp;
       MouseFallback.mousedown 1200 primaryDown]
      (focusedOnThird, MouseFallback.initial) in
  Index.treeState s' = galaxy /\ Index.focusedPhotoIndex s' = Some 3%Z.
Proof.
  pose proof (double_click_in_focus_keeps_selection (1 / 2) focusedOnThird
                MouseFallback.initial 1000 1200 primaryDown primaryDown
                [MouseFallback.mouseup primaryUp]) as T.
  cbn [app] in T.
  destruct (pointerEvents (1 / 2) true _ (focusedOnThird, MouseFallback.initial))
    as [[s' h'] calls].
  destruct T as (Hs & Hi & _).
  - reflexivity.
  - cbn. discriminate.
  - cbn. lia.
  - reflexivity.
  - reflexivity.
  - cbn. discriminate.
  - lia.
  - split; [rewrite Hs; reflexivity | rewrite Hi; reflexivity].
Defined.

(** ** Theorems: the camera controller on a frame without elapsed time *)

Lemma TreeState_eqb_refl (a : TreeState) : TreeState_eqb a a = true.
Proof. unfold TreeState_eqb. destruct (TreeState_eq_dec a a); congruence. Qed.

Lemma TreeState_eqb_eq (a b : TreeState) : TreeState_eqb a b = true <-> a = b.
Proof.
  unfold TreeState_eqb. destruct (TreeState_eq_dec a b); split; congruence.
Qed.

Lemma zoomBlock_zero (p : Scene.Props) (c : Scene.Refs) : Scene.zoomBlock p 0 c = c.
Proof.
  destruct c. unfold Scene.zoomBlock, Scene.setSmoothZoom. cbn. f_equal. ring.
Qed.

Lemma stateChangeBlock_same (p : Scene.Props) (c : Scene.Refs) :
  Scene.state p = Scene.prevStateRef c -> Scene.stateChangeBlock p c = (c, []).
Proof.
  destruct c as [tgt pos rt ps td st hi v tv sz cam]. cbn. intros E. subst ps.
  unfold Scene.stateChangeBlock. cbn.
  destruct (Scene.state p); reflexivity.
Qed.

Lemma delayBlock_zero (c : Scene.Refs) : Scene.delayBlock 0 c = c.
Proof.
  unfold Scene.delayBlock. destruct (Rgtb _ 0); [|reflexivity].
  destruct c. unfold Scene.setTransitionDelay. cbn. f_equal. ring.
Qed.

Lemma smoothBlock_zero (tg : Scene.Targets) (c : Scene.Refs) :
  Scene.smoothBlock 0 tg c
    = Scene.setCamera (Scene.mkCamera (Scene.positionRef c) (Scene.targetRef c)) c.
Proof.
  unfold Scene.smoothBlock.
  replace (-2.5 * 0) with 0 by ring. rewrite exp_0.
  destruct c as [tgt pos rt ps td st hi v tv sz cam].
  destruct tgt, pos. unfold Scene.setCamera, Scene.setTarget, Scene.setPosition. cbn.
  repeat f_equal; ring.
Qed.

Lemma climbBlock_zero (c : Scene.Refs) :
  Scene.ribbonTimeRef c < 1 ->
  exists tv tg, Scene.climbBlock 0 c = (Scene.setTargetVelocity tv c, tg, []).
Proof.
  intros Ht. unfold Scene.climbBlock.
  destruct c as [tgt pos rt ps td st hi v tv sz cam]. cbn in *.
  match goal with
  | |- context [Rgeb ?a 1] => replace a with rt by ring
  end.
  assert (E : Rgeb rt 1 = false) by (apply Rleb_false; exact Ht). rewrite E.
  match goal with
  | |- context [Scene.setVelocity ?a _] => replace a with v by ring
  end.
  eexists. eexists. reflexivity.
Qed.

Lemma targetBlock_zero (p : Scene.Props) (c : Scene.Refs) :
  (Scene.state p = tree -> Scene.transitionDelayRef c <= 0 ->
   Scene.isAtStarRef c = false -> Scene.ribbonTimeRef c < 1) ->
  exists tv tg, Scene.targetBlock p 0 c = (Scene.setTargetVelocity tv c, tg, []).
Proof.
  intros H. unfold Scene.targetBlock.
  assert (Hid : Scene.setTargetVelocity (Scene.targetVelocityRef c) c = c)
    by (destruct c; reflexivity).
  destruct (TreeState_eqb (Scene.state p) tree) eqn:Es;
    [destruct (Rleb (Scene.transitionDelayRef c) 0) eqn:Ed|]; cbn [andb].
  - destruct (Scene.isAtStarRef c) eqn:Ea; cbn [negb].
    + exists (Scene.targetVelocityRef c). rewrite Hid. eexists. reflexivity.
    + apply climbBlock_zero. apply H; [|apply Rleb_true; exact Ed|reflexivity].
      apply TreeState_eqb_eq. exact Es.
  - exists (Scene.targetVelocityRef c). rewrite Hid.
    destruct (Scene.handPosition p); [destruct (TreeState_eqb _ galaxy)|];
      eexists; reflexivity.
  - exists (Scene.targetVelocityRef c). rewrite Hid.
    destruct (Scene.handPosition p); [destruct (TreeState_eqb _ galaxy)|];
      eexists; reflexivity.
Qed.

Lemma sin_0_PI : sin (0 * PI) = 0.
Proof. rewrite Rmult_0_l. apply sin_0. Qed.

(** The claim fails for a negative frame time and for a frame that sees a
    new state: from the refs at mount in state [tree], a frame of -1 s moves
    the progress parameter from 0 to 0.125 (and makes the velocity negative);
    a frame of 0 s that sees [tree] after [galaxy] arms the delay. *)
Lemma negative_or_entering_frame_mutates :
  (Scene.ribbonTimeRef (Scene.initial tree) = 0 /\
   Scene.ribbonTimeRef (fst (Scene.useFrame (plainProps tree) (-1) (Scene.initial tree)))
     = 0.125 /\
   Scene.velocityRef (fst (Scene.useFrame (plainProps tree) (-1) (Scene.initial tree)))
     = -0.125) /\
  (Scene.transitionDelayRef fromGalaxy = 0 /\
   Scene.transitionDelayRef (fst (Scene.useFrame (plainProps tree) 0 fromGalaxy)) = 2).
Proof.
  split.
  - unfold Scene.useFrame, Scene.zoomBlock, Scene.stateChangeBlock, Scene.delayBlock.
    cbn.
    assert (E1 : Rgtb 0 0 = false) by (apply Rltb_false; lra). rewrite E1.
    unfold Scene.targetBlock. cbn.
    assert (E2 : Rleb 0 0 = true) by (apply Rleb_true; lra). rewrite E2. cbn.
    unfold Scene.climbBlock. cbn. rewrite sin_0_PI.
    match goal with
    | |- context [Rgeb ?a 1] =>
        assert (E3 : Rgeb a 1 = false) by (apply Rleb_false; lra); rewrite E3
    end.
    cbn. repeat split; lra.
  - unfold Scene.useFrame, Scene.zoomBlock, Scene.stateChangeBlock, Scene.delayBlock.
    cbn.
    assert (E1 : Rgtb 2.0 0 = true) by (apply Rltb_true; lra). rewrite E1. cbn.
    unfold Scene.targetBlock. cbn.
    assert (E2 : Rleb (2.0 - 0) 0 = false) by (apply Rleb_false; lra). rewrite E2.
    cbn. split; lra.
Qed.

(** C8 (amended). A frame with a frame time of zero that sees the same
    application state as the frame before (with the progress parameter below
    1 if the controller is climbing) calls nothing and leaves the progress
    parameter, velocity, delay, reached flag, smoothed zoom, position and
    look-at target as they were; the camera is put where the position ref is,
    looking at the target ref, which is where it was if it showed the refs
    before.  Only the scratch target velocity may be rewritten. *)
Theorem zero_delta_frame_is_noop (p : Scene.Props) (c : Scene.Refs) :
  Scene.state p = Scene.prevStateRef c ->
  (Scene.state p = tree -> Scene.transitionDelayRef c <= 0 ->
   Scene.isAtStarRef c = false -> Scene.ribbonTimeRef c < 1) ->
  exists tv : R,
    Scene.useFrame p 0 c
      = (Scene.setCamera (Scene.mkCamera (Scene.positionRef c) (Scene.targetRef c))
           (Scene.setTargetVelocity tv c), []) /\
    (cameraInSync c -> Scene.useFrame p 0 c = (Scene.setTargetVelocity tv c, [])).
Proof.
  intros Hs Ht. unfold Scene.useFrame.
  rewrite zoomBlock_zero, (stateChangeBlock_same p c Hs), delayBlock_zero.
  destruct (targetBlock_zero p c Ht) as (tv & tg & E). rewrite E.
  exists tv. rewrite smoothBlock_zero. split; [reflexivity|].
  unfold cameraInSync. intros Hc. destruct c; cbn in *. rewrite <- Hc. reflexivity.
Qed.

Lemma zero_delta_frame_is_noop_witness :
  exists tv : R,
    Scene.useFrame (plainProps galaxy) 0 fromGalaxy
      = (Scene.setTargetVelocity tv fromGalaxy, []).
Proof.
  destruct (zero_delta_frame_is_noop (plainProps galaxy) fromGalaxy) as (tv & _ & H).
  - reflexivity.
  - cbn. discriminate.
  - exists tv. apply H. reflexivity.
Defined.

(** ** Theorems: the climb *)

Lemma sin_ribbon_nonneg (t : R) : 0 <= t <= 1 -> 0 <= sin (t * PI).
Proof.
  intros [H0 H1]. pose proof PI_RGT_0 as Hpi. apply sin_ge_0; nra.
Qed.

(** One frame of the filter: with [2.5 * delta] in [0, 1] the new velocity
    lies between the old one and the target. *)
Lemma eased_velocity_nonneg (v tv delta : R) :
  0 <= v -> 0 <= tv -> shortFrame delta -> 0 <= v + (tv - v) * 2.5 * delta.
Proof.
  unfold shortFrame. intros Hv Htv [Hd0 Hd1].
  replace (v + (tv - v) * 2.5 * delta)
    with (v * (1 - 2.5 * delta) + tv * (2.5 * delta)) by ring.
  apply Rplus_le_le_0_compat; apply Rmult_le_pos; lra.
Qed.

(** The frame callback in state [tree] with the delay elapsed: the refs are
    [c] with delay [td], and [Hd] says [td <= 0]. *)
Ltac tree_frame td Hd :=
  unfold Scene.useFrame, Scene.zoomBlock, Scene.stateChangeBlock, Scene.delayBlock;
  cbn;
  let E1 := fresh "E" in
  assert (E1 : Rgtb td 0 = false) by (apply Rltb_false; exact Hd);
  rewrite E1;
  unfold Scene.targetBlock; cbn;
  let E2 := fresh "E" in
  assert (E2 : Rleb td 0 = true) by (apply Rleb_true; exact Hd);
  rewrite E2; cbn.

(** One frame while climbing. *)
Lemma climb_frame (p : Scene.Props) (delta : R) (c : Scene.Refs) :
  Scene.state p = tree -> delayElapsed c -> wellFormed c ->
  Scene.isAtStarRef c = false -> shortFrame delta ->
  let c' := fst (Scene.useFrame p delta c) in
  let calls := snd (Scene.useFrame p delta c) in
  delayElapsed c' /\ wellFormed c' /\
  Scene.ribbonTimeRef c <= Scene.ribbonTimeRef c' /\
  ((Scene.isAtStarRef c' = true /\ Scene.ribbonTimeRef c' = 1 /\ calls = [true]) \/
   (Scene.isAtStarRef c' = false /\ Scene.ribbonTimeRef c' < 1 /\ calls = [])).
Proof.
  intros Hs [Hp Hd] (Hv & Ht & _) Ha Hdelta.
  destruct p as [st orb hand zm]. cbn in Hs. subst st.
  destruct c as [tgt pos rt ps td at_ hi v tv sz cam]. cbn in Hp, Hd, Hv, Ht, Ha.
  subst ps at_.
  tree_frame td Hd.
  unfold Scene.climbBlock. cbn.
  pose proof (sin_ribbon_nonneg rt Ht) as Hsin.
  set (tv' := 0.05 + sin (rt * PI) * (0.12 - 0.05)).
  assert (Htv : 0 <= tv') by (unfold tv'; nra).
  pose proof (eased_velocity_nonneg v tv' delta Hv Htv Hdelta) as Hv'.
  set (v' := v + (tv' - v) * 2.5 * delta) in *.
  assert (Hstep : 0 <= v' * delta) by (apply Rmult_le_pos; [exact Hv'|apply Hdelta]).
  unfold delayElapsed, wellFormed.
  destruct (Rgeb (rt + v' * delta) 1) eqn:E3; cbn.
  - repeat split; try assumption; try lra. left. repeat split.
  - apply Rleb_false in E3.
    repeat split; try assumption; try lra; try discriminate.
    right. repeat split. exact E3.
Qed.

(** One frame at the star: nothing is called, the refs of the climb stay. *)
Lemma star_frame (p : Scene.Props) (delta : R) (c : Scene.Refs) :
  Scene.state p = tree -> delayElapsed c -> wellFormed c ->
  Scene.isAtStarRef c = true -> 0 <= delta ->
  let c' := fst (Scene.useFrame p delta c) in
  delayElapsed c' /\ wellFormed c' /\
  Scene.ribbonTimeRef c' = Scene.ribbonTimeRef c /\
  Scene.velocityRef c' = Scene.velocityRef c /\
  Scene.isAtStarRef c' = true /\
  snd (Scene.useFrame p delta c) = [].
Proof.
  intros Hs [Hp Hd] (Hv & Ht & H1) Ha Hdelta.
  destruct p as [st orb hand zm]. cbn in Hs. subst st.
  destruct c as [tgt pos rt ps td at_ hi v tv sz cam]. cbn in Hp, Hd, Hv, Ht, Ha, H1.
  subst ps at_.
  tree_frame td Hd.
  unfold delayElapsed, wellFormed. cbn. repeat split; try assumption; lra.
Qed.

Lemma frames_cons (p : Scene.Props) (delta : R) (deltas : list R) (c : Scene.Refs) :
  Scene.frames p (delta :: deltas) c
    = (fst (Scene.frames p deltas (fst (Scene.useFrame p delta c))),
       snd (Scene.useFrame p delta c)
         ++ snd (Scene.frames p deltas (fst (Scene.useFrame p delta c)))).
Proof.
  cbn [Scene.frames]. destruct (Scene.useFrame p delta c) as [c1 calls1].
  cbn [fst snd]. destruct (Scene.frames p deltas c1). reflexivity.
Qed.

Lemma star_frames (p : Scene.Props) (deltas : list R) :
  Scene.state p = tree -> Forall shortFrame deltas ->
  forall c : Scene.Refs,
    delayElapsed c -> wellFormed c -> Scene.isAtStarRef c = true ->
    let c' := fst (Scene.frames p deltas c) in
    wellFormed c' /\ Scene.ribbonTimeRef c' = Scene.ribbonTimeRef c /\
    Scene.isAtStarRef c' = true /\ snd (Scene.frames p deltas c) = [].
Proof.
  intros Hs Hf. induction Hf as [|delta deltas Hdelta _ IH]; intros c Hd Hw Ha.
  - cbn. auto.
  - rewrite frames_cons. cbn [fst snd].
    destruct (star_frame p delta c Hs Hd Hw Ha (proj1 Hdelta))
      as (Hd1 & Hw1 & Ht1 & _ & Ha1 & Hc1).
    destruct (IH _ Hd1 Hw1 Ha1) as (Hw2 & Ht2 & Ha2 & Hc2).
    rewrite Hc1, Hc2, Ht2, Ht1. auto.
Qed.

Lemma climb_frames (p : Scene.Props) (deltas : list R) :
  Scene.state p = tree -> Forall shortFrame deltas ->
  forall c : Scene.Refs,
    delayElapsed c -> wellFormed c -> Scene.isAtStarRef c = false ->
    let c' := fst (Scene.frames p deltas c) in
    let calls := snd (Scene.frames p deltas c) in
    wellFormed c' /\
    Scene.ribbonTimeRef c <= Scene.ribbonTimeRef c' /\
    ((Scene.isAtStarRef c' = true /\ Scene.ribbonTimeRef c' = 1 /\ calls = [true]) \/
     (Scene.isAtStarRef c' = false /\ calls = [])).
Proof.
  intros Hs Hf. induction Hf as [|delta deltas Hdelta Hrest IH]; intros c Hd Hw Ha.
  - cbn. split; [exact Hw|]. split; [lra|]. right. auto.
  - rewrite frames_cons. cbn [fst snd].
    destruct (climb_frame p delta c Hs Hd Hw Ha Hdelta) as (Hd1 & Hw1 & Hle1 & Hcase).
    destruct Hcase as [(Ha1 & Ht1 & Hc1) | (Ha1 & Ht1 & Hc1)].
    + destruct (star_frames p deltas Hs Hrest _ Hd1 Hw1 Ha1) as (Hw2 & Ht2 & Ha2 & Hc2).
      rewrite Hc1, Hc2. split; [exact Hw2|]. split; [lra|]. left.
      repeat split; [exact Ha2 | lra].
    + destruct (IH _ Hd1 Hw1 Ha1) as (Hw2 & Hle2 & Hcase2).
      rewrite Hc1. cbn [app]. split; [exact Hw2|]. split; [lra|]. exact Hcase2.
Qed.

(** An elapsed delay stays elapsed in state [tree], whatever the frame
    times. *)
Lemma tree_frame_keeps_delay (p : Scene.Props) (delta : R) (c : Scene.Refs) :
  Scene.state p = tree -> delayElapsed c ->
  delayElapsed (fst (Scene.useFrame p delta c)).
Proof.
  intros Hs [Hp Hd].
  destruct p as [st orb hand zm]. cbn in Hs. subst st.
  destruct c as [tgt pos rt ps td at_ hi v tv0 sz cam]. cbn in Hp, Hd. subst ps.
  tree_frame td Hd.
  destruct at_; cbn; [split; [reflexivity | exact Hd]|].
  unfold Scene.climbBlock. cbn.
  match goal with |- context [Rgeb ?a 1] => destruct (Rgeb a 1) end;
    split; cbn; try reflexivity; exact Hd.
Qed.

Lemma tree_frames_keep_delay (p : Scene.Props) (deltas : list R) (c : Scene.Refs) :
  Scene.state p = tree -> delayElapsed c ->
  delayElapsed (fst (Scene.frames p deltas c)).
Proof.
  intros Hs. revert c. induction deltas as [|delta deltas IH]; intros c Hd.
  - exact Hd.
  - rewrite frames_cons. cbn [fst]. apply IH.
    apply tree_frame_keeps_delay; assumption.
Qed.

(** The values a climbing frame computes when the star is not reached. *)
Lemma climb_frame_values (p : Scene.Props) (delta : R) (c : Scene.Refs) :
  Scene.state p = tree -> delayElapsed c -> Scene.isAtStarRef c = false ->
  let tv := 0.05 + sin (Scene.ribbonTimeRef c * PI) * (0.12 - 0.05) in
  let v' := Scene.velocityRef c + (tv - Scene.velocityRef c) * 2.5 * delta in
  let t' := Scene.ribbonTimeRef c + v' * delta in
  t' < 1 ->
  let c' := fst (Scene.useFrame p delta c) in
  delayElapsed c' /\ Scene.isAtStarRef c' = false /\
  Scene.velocityRef c' = v' /\ Scene.ribbonTimeRef c' = t'.
Proof.
  intros Hs [Hp Hd] Ha.
  destruct p as [st orb hand zm]. cbn in Hs. subst st.
  destruct c as [tgt pos rt ps td at_ hi v tv0 sz cam]. cbn in Hp, Hd, Ha.
  subst ps at_. cbn. intros Ht'.
  tree_frame td Hd.
  unfold Scene.climbBlock. cbn.
  match goal with
  | |- context [Rgeb ?a 1] =>
      assert (E3 : Rgeb a 1 = false) by (apply Rleb_false; exact Ht'); rewrite E3
  end.
  unfold delayElapsed. cbn. repeat split; assumption.
Qed.

(** The claim fails for long frames: from the refs at mount in state [tree],
    a frame of 1 s leaves the controller climbing at progress 0.125 with
    velocity 0.125, and a following frame of 20 s makes the velocity negative
    and takes the progress parameter below the value it had, and below 0. *)
Lemma long_frame_reverses_climb :
  let c1 := fst (Scene.useFrame (plainProps tree) 1 (Scene.initial tree)) in
  let c2 := fst (Scene.useFrame (plainProps tree) 20 c1) in
  (delayElapsed c1 /\ Scene.isAtStarRef c1 = false /\
   Scene.ribbonTimeRef c1 = 0.125 /\ Scene.velocityRef c1 = 0.125) /\
  Scene.velocityRef c2 < 0 /\
  Scene.ribbonTimeRef c2 < Scene.ribbonTimeRef c1 /\
  Scene.ribbonTimeRef c2 < 0.
Proof.
  cbv zeta.
  assert (H0 : delayElapsed (Scene.initial tree)) by (split; cbn; [reflexivity|lra]).
  pose proof (climb_frame_values (plainProps tree) 1 (Scene.initial tree)
                eq_refl H0 eq_refl) as F1.
  cbv zeta in F1. cbn [Scene.initial Scene.ribbonTimeRef Scene.velocityRef] in F1.
  rewrite sin_0_PI in F1.
  destruct F1 as (Hd1 & Ha1 & Hv1 & Ht1); [lra|].
  set (c1 := fst (Scene.useFrame (plainProps tree) 1 (Scene.initial tree))) in *.
  assert (Hv1' : Scene.velocityRef c1 = 0.125) by lra.
  assert (Ht1' : Scene.ribbonTimeRef c1 = 0.125) by lra.
  pose proof (climb_frame_values (plainProps tree) 20 c1 eq_refl Hd1 Ha1) as F2.
  cbv zeta in F2. rewrite Hv1', Ht1' in F2.
  pose proof (SIN_bound (0.125 * PI)) as [_ Hsin].
  destruct F2 as (_ & _ & Hv2 & Ht2); [lra|].
  repeat split; try assumption; try apply Hd1; lra.
Qed.

(** A lower bound [m] on velocity and target velocity is kept by a frame,
    and the progress parameter gains at least [m * delta] unless the star is
    reached. *)
Lemma climb_frame_gain (p : Scene.Props) (delta m : R) (c : Scene.Refs) :
  Scene.state p = tree -> delayElapsed c -> wellFormed c ->
  Scene.isAtStarRef c = false -> shortFrame delta ->
  0 <= m <= 0.05 -> m <= Scene.velocityRef c ->
  let c' := fst (Scene.useFrame p delta c) in
  m <= Scene.velocityRef c' /\
  (Scene.isAtStarRef c' = true \/
   Scene.ribbonTimeRef c + m * delta <= Scene.ribbonTimeRef c').
Proof.
  intros Hs Hd Hw Ha Hdelta Hm Hmv.
  pose proof (sin_ribbon_nonneg _ (proj1 (proj2 Hw))) as Hsin.
  set (tv := 0.05 + sin (Scene.ribbonTimeRef c * PI) * (0.12 - 0.05)).
  set (v' := Scene.velocityRef c + (tv - Scene.velocityRef c) * 2.5 * delta).
  assert (Htv : m <= tv) by (unfold tv; nra).
  assert (Hv' : m <= v').
  { unfold v'. destruct Hdelta as [Hd0 Hd1].
    replace (Scene.velocityRef c + (tv - Scene.velocityRef c) * 2.5 * delta)
      with (m + ((Scene.velocityRef c - m) * (1 - 2.5 * delta)
                 + (tv - m) * (2.5 * delta))) by ring.
    assert (0 <= (Scene.velocityRef c - m) * (1 - 2.5 * delta))
      by (apply Rmult_le_pos; lra).
    assert (0 <= (tv - m) * (2.5 * delta)) by (apply Rmult_le_pos; lra).
    lra. }
  destruct (Rlt_dec (Scene.ribbonTimeRef c + v' * delta) 1) as [Hlt|Hge].
  - destruct (climb_frame_values p delta c Hs Hd Ha Hlt) as (_ & _ & Ev & Et).
    cbv zeta. fold tv in Ev, Et. fold v' in Ev, Et. rewrite Ev, Et.
    split; [exact Hv'|]. right.
    assert (m * delta <= v' * delta)
      by (apply Rmult_le_compat_r; [apply Hdelta | exact Hv']).
    lra.
  - destruct (climb_frame p delta c Hs Hd Hw Ha Hdelta) as (_ & _ & _ & Hcase).
    cbv zeta.
    destruct p as [st orb hand zm]. cbn in Hs. subst st.
    destruct c as [tgt pos rt ps td at_ hi v tv0 sz cam].
    destruct Hd as [Hp Hd]. cbn in Hp, Hd, Ha, Hmv, v', tv, Hge. subst ps at_.
    tree_frame td Hd.
    unfold Scene.climbBlock. cbn. fold tv. fold v'.
    assert (E3 : Rgeb (rt + v' * delta) 1 = true) by (apply Rleb_true; lra).
    rewrite E3. cbn. split; [exact Hv'|]. left. reflexivity.
Qed.

(** With frames of a steady length and a positive velocity the climb
    reaches the star. *)
Lemma climb_reaches_star (p : Scene.Props) (d m : R) :
  Scene.state p = tree -> shortFrame d -> 0 < d -> 0 < m <= 0.05 ->
  forall (n : nat) (c : Scene.Refs),
    delayElapsed c -> wellFormed c -> Scene.isAtStarRef c = false ->
    m <= Scene.velocityRef c ->
    1 <= Scene.ribbonTimeRef c + INR (S n) * (m * d) ->
    Scene.isAtStarRef (fst (Scene.frames p (repeat d (S n)) c)) = true.
Proof.
  intros Hs Hd Hd0 Hm. induction n as [|n IH]; intros c Hde Hw Ha Hmv Hreach.
  - cbn [repeat]. rewrite frames_cons. cbn [Scene.frames fst].
    destruct (climb_frame_gain p d m c Hs Hde Hw Ha Hd) as [_ [H|H]];
      [lra | exact Hmv | exact H |].
    destruct (climb_frame p d c Hs Hde Hw Ha Hd) as (_ & _ & _ & Hcase).
    cbn [INR] in Hreach.
    destruct Hcase as [(H1 & _) | (_ & H1 & _)]; [exact H1 | lra].
  - change (repeat d (S (S n))) with (d :: repeat d (S n)).
    rewrite frames_cons. cbn [fst].
    destruct (climb_frame p d c Hs Hde Hw Ha Hd) as (Hde1 & Hw1 & _ & Hcase).
    destruct (climb_frame_gain p d m c Hs Hde Hw Ha Hd) as [Hmv1 Hgain];
      [lra | exact Hmv |].
    destruct (Scene.isAtStarRef (fst (Scene.useFrame p d c))) eqn:Ea1.
    + assert (Hf : Forall shortFrame (repeat d (S n)))
        by (apply Forall_forall; intros y Hy; apply repeat_spec in Hy; subst y; exact Hd).
      destruct (star_frames p (repeat d (S n)) Hs Hf _ Hde1 Hw1 Ea1) as (_ & _ & H & _).
      exact H.
    + apply IH; try assumption.
      destruct Hgain as [Hg|Hg]; [discriminate|].
      rewrite S_INR in Hreach. lra.
Qed.

(** C7 (amended). While the controller climbs in state [tree] (delay
    elapsed, star not reached) with velocity not negative, progress parameter
    in [0, 1] and every frame time in [0, 0.4] s: over any run of frames the
    velocity stays non-negative and the progress parameter stays in [0, 1]
    and is not below its start; the next frame never decreases it; the
    reached-star call is made at most once, on the frame that clamps the
    parameter to 1, where it then stays; and with frames of a steady length
    and a positive velocity the run does reach 1 and makes that call exactly
    once. *)
Theorem climb_is_monotone_and_clamped_once (p : Scene.Props) (deltas : list R)
        (c : Scene.Refs) :
  Scene.state p = tree -> delayElapsed c -> wellFormed c ->
  Scene.isAtStarRef c = false -> Forall shortFrame deltas ->
  let c' := fst (Scene.frames p deltas c) in
  let calls := snd (Scene.frames p deltas c) in
  0 <= Scene.velocityRef c' /\
  Scene.ribbonTimeRef c <= Scene.ribbonTimeRef c' /\
  0 <= Scene.ribbonTimeRef c' <= 1 /\
  ((Scene.isAtStarRef c' = true /\ Scene.ribbonTimeRef c' = 1 /\ calls = [true]) \/
   (Scene.isAtStarRef c' = false /\ calls = [])) /\
  (forall delta : R,
     shortFrame delta ->
     Scene.ribbonTimeRef c' <= Scene.ribbonTimeRef (fst (Scene.useFrame p delta c')) /\
     0 <= Scene.velocityRef (fst (Scene.useFrame p delta c'))) /\
  (forall (d m : R) (n : nat),
     shortFrame d -> 0 < d -> 0 < m <= 0.05 -> m <= Scene.velocityRef c ->
     1 <= Scene.ribbonTimeRef c + INR (S n) * (m * d) ->
     Scene.isAtStarRef (fst (Scene.frames p (repeat d (S n)) c)) = true /\
     Scene.ribbonTimeRef (fst (Scene.frames p (repeat d (S n)) c)) = 1 /\
     snd (Scene.frames p (repeat d (S n)) c) = [true]).
Proof.
  intros Hs Hd Hw Ha Hf.
  pose proof (tree_frames_keep_delay p deltas c Hs Hd) as Hd'.
  destruct (climb_frames p deltas Hs Hf c Hd Hw Ha) as (Hw' & Hle & Hcase).
  cbv zeta. split; [apply Hw'|]. split; [exact Hle|]. split; [apply Hw'|].
  split; [exact Hcase|]. split.
  - intros delta Hdelta.
    destruct (Scene.isAtStarRef (fst (Scene.frames p deltas c))) eqn:Ea'.
    + destruct (star_frame p delta _ Hs Hd' Hw' Ea' (proj1 Hdelta))
        as (_ & Hw2 & Ht2 & _).
      split; [lra | apply Hw2].
    + destruct (climb_frame p delta _ Hs Hd' Hw' Ea' Hdelta) as (_ & Hw2 & Hle2 & _).
      split; [exact Hle2 | apply Hw2].
  - intros d m n Hsd Hd0 Hm Hmv Hreach.
    pose proof (climb_reaches_star p d m Hs Hsd Hd0 Hm n c Hd Hw Ha Hmv Hreach) as Hstar.
    assert (Hfr : Forall shortFrame (repeat d (S n)))
      by (apply Forall_forall; intros y Hy; apply repeat_spec in Hy; subst y; exact Hsd).
    destruct (climb_frames p (repeat d (S n)) Hs Hfr c Hd Hw Ha) as (_ & _ & Hc).
    destruct Hc as [(H1 & H2 & H3) | (H1 & _)]; [auto | congruence].
Qed.

Lemma climb_is_monotone_and_clamped_once_witness :
  0 <= Scene.velocityRef
         (fst (Scene.frames (plainProps tree) [0.016; 0.016] (Scene.initial tree))) /\
  0 <= Scene.ribbonTimeRef
         (fst (Scene.frames (plainProps tree) [0.016; 0.016] (Scene.initial tree))) <= 1.
Proof.
  assert (Hd : delayElapsed (Scene.initial tree)) by (split; cbn; [reflexivity | lra]).
  assert (Hw : wellFormed (Scene.initial tree))
    by (repeat split; cbn; try lra; discriminate).
  assert (Hf : Forall shortFrame [0.016; 0.016])
    by (repeat constructor; unfold shortFrame; lra).
  destruct (climb_is_monotone_and_clamped_once (plainProps tree) [0.016; 0.016]
              (Scene.initial tree) eq_refl Hd Hw eq_refl Hf) as (Hv & _ & Ht & _).
  split; assumption.
Defined.

(** ** Theorems: the nearest point of the ribbon *)

Lemma ribbonLoop_step (fuel : nat) (cameraPos : Scene.Vector3) (t : PrimFloat.float)
      (nearestT : R) (minDistance : option R) :
  Scene.ribbonLoop (S fuel) cameraPos t nearestT minDistance
    = if PrimFloat.leb t 1%float then
        if Scene.below (distanceTo cameraPos (Scene.ribbonPoint (realOf t))) minDistance
        then Scene.ribbonLoop fuel cameraPos (t + 0.02)%float (realOf t)
               (Some (distanceTo cameraPos (Scene.ribbonPoint (realOf t))))
        else Scene.ribbonLoop fuel cameraPos (t + 0.02)%float nearestT minDistance
      else Some nearestT.
Proof.
  cbn [Scene.ribbonLoop]. cbv zeta.
  assert (E : sqrt (Math_pow (Scene.x cameraPos - Scene.x (Scene.ribbonPoint (realOf t))) 2 +
                    Math_pow (Scene.y cameraPos - Scene.y (Scene.ribbonPoint (realOf t))) 2 +
                    Math_pow (Scene.z cameraPos - Scene.z (Scene.ribbonPoint (realOf t))) 2)
              = distanceTo cameraPos (Scene.ribbonPoint (realOf t))).
  { unfold distanceTo, Math_pow, Rsqr. f_equal. ring. }
  rewrite E. reflexivity.
Qed.

(** The values of the loop variable, by computation on binary64 numbers:
    the loop condition holds for the first 50 values and fails for the next
    one, and each of the 50 values is within [10^-15] of a multiple of
    0.02. *)
Lemma loopValue_condition :
  forallb (fun k => PrimFloat.leb (loopValue k) 1%float) (seq 0 50) = true /\
  PrimFloat.leb (loopValue 50) 1%float = false.
Proof. split; vm_compute; reflexivity. Qed.

Lemma loopValue_leb (k : nat) :
  (k <= 49)%nat -> PrimFloat.leb (loopValue k) 1%float = true.
Proof.
  intros H. destruct loopValue_condition as [Hall _].
  rewrite forallb_forall in Hall. apply Hall. apply in_seq. lia.
Qed.

Lemma nearGrid_all : forallb nearGrid (seq 0 50) = true.
Proof. vm_compute. reflexivity. Qed.

Lemma Rabs_le_bounds (a b : R) : Rabs a <= b -> - b <= a <= b.
Proof. unfold Rabs. destruct (Rcase_abs a); lra. Qed.

Lemma realOf_finite (f : PrimFloat.float) (m : positive) (e : Z) :
  FloatOps.Prim2SF f = SpecFloat.S754_finite false m e -> (e < 0)%Z ->
  realOf f = IZR (Z.pos m) / IZR (2 ^ (- e)).
Proof.
  intros H He. unfold realOf. rewrite H. cbv zeta.
  rewrite (proj2 (Z.leb_gt 0 e) He). reflexivity.
Qed.

Lemma nearGrid_sound (k : nat) :
  nearGrid k = true -> Rabs (sample k - INR k * 0.02) <= 1e-15.
Proof.
  unfold nearGrid, sample.
  destruct (FloatOps.Prim2SF (loopValue k)) as [s|s| |s m e] eqn:E; try discriminate.
  - intros Hk. apply Nat.eqb_eq in Hk. subst k.
    unfold realOf. rewrite E. cbn [INR].
    replace (0 - 0 * 0.02) with 0 by ring. rewrite Rabs_R0. lra.
  - destruct s; [discriminate|]. intros H. apply andb_prop in H. destruct H as [He Hb].
    apply Z.ltb_lt in He. apply Z.leb_le in Hb.
    rewrite (realOf_finite _ m e E He).
    assert (Hp : (0 < 2 ^ (- e))%Z) by (apply Z.pow_pos_nonneg; lia).
    set (P := (2 ^ (- e))%Z) in *.
    apply IZR_le in Hb. apply IZR_lt in Hp.
    rewrite abs_IZR, minus_IZR, !mult_IZR in Hb.
    change (IZR (10 ^ 15)) with 1000000000000000 in Hb.
    rewrite <- INR_IZR_INZ in Hb.
    set (M := IZR (Z.pos m)) in *. set (Pr := IZR P) in *.
    apply Rabs_le_bounds in Hb. destruct Hb as [Hb1 Hb2].
    assert (Ex : M = M / Pr * Pr) by (field; lra).
    set (x := M / Pr) in *. rewrite Ex in Hb1, Hb2.
    apply Rabs_le. split.
    + apply (Rmult_le_reg_r Pr); [exact Hp|]. nra.
    + apply (Rmult_le_reg_r Pr); [exact Hp|]. nra.
Qed.

Lemma sample_near_grid (k : nat) :
  (k <= 49)%nat -> Rabs (sample k - INR k * 0.02) <= 1e-15.
Proof.
  intros H. apply nearGrid_sound. pose proof nearGrid_all as Hall.
  rewrite forallb_forall in Hall. apply Hall. apply in_seq. lia.
Qed.

Lemma sample_0 : sample 0 = 0.
Proof.
  unfold sample, realOf.
  assert (E : FloatOps.Prim2SF (loopValue 0) = SpecFloat.S754_zero false)
    by (vm_compute; reflexivity).
  rewrite E. reflexivity.
Qed.

Lemma INR_le_49 (k : nat) : (k <= 49)%nat -> 0 <= INR k <= 49.
Proof.
  intros H. split; [apply pos_INR|]. apply le_INR in H.
  assert (E49 : INR 49 = 49) by (rewrite INR_IZR_INZ; reflexivity).
  rewrite E49 in H. exact H.
Qed.

(** The 50 values lie in [0, 1): the value 1 is not among them. *)
Lemma sample_range (k : nat) : (k <= 49)%nat -> 0 <= sample k < 1.
Proof.
  intros H. destruct k as [|k]; [rewrite sample_0; lra|].
  pose proof (sample_near_grid (S k) H) as Hn. apply Rabs_le_bounds in Hn.
  pose proof (INR_le_49 (S k) H) as Hk.
  assert (H1 : 1 <= INR (S k)) by (rewrite S_INR; pose proof (pos_INR k); lra).
  lra.
Qed.


(** The state of the loop before the iteration for sample [i]: either
    nothing was seen, or [nearestT] is a sample seen so far that is nearest
    among them and [minDistance] is its distance. *)
Lemma ribbonLoop_argmin (cameraPos : Scene.Vector3) :
  forall (n i : nat) (nearestT : R) (minDistance : option R),
    (i + n = 50)%nat ->
    ((i = 0%nat /\ minDistance = None) \/
     (exists j : nat,
        (j < i)%nat /\ nearestT = sample j /\
        minDistance = Some (distanceTo cameraPos (Scene.ribbonPoint (sample j))) /\
        forall j' : nat,
          (j' < i)%nat ->
          distanceTo cameraPos (Scene.ribbonPoint (sample j))
            <= distanceTo cameraPos (Scene.ribbonPoint (sample j')))) ->
    exists k : nat,
      (k <= 49)%nat /\
      Scene.ribbonLoop (S n) cameraPos (loopValue i) nearestT minDistance
        = Some (sample k) /\
      forall j : nat,
        (j <= 49)%nat ->
        distanceTo cameraPos (Scene.ribbonPoint (sample k))
          <= distanceTo cameraPos (Scene.ribbonPoint (sample j)).
Proof.
  induction n as [|n IH]; intros i nearestT minDistance Hi Hinv.
  - assert (i = 50%nat) by lia. subst i.
    destruct Hinv as [[H _] | (j & Hj & Hn & _ & Hmin)]; [discriminate|].
    rewrite ribbonLoop_step. rewrite (proj2 loopValue_condition).
    exists j. split; [lia|]. split; [congruence|].
    intros j' Hj'. apply Hmin. lia.
  - rewrite ribbonLoop_step. rewrite (loopValue_leb i ltac:(lia)).
    change (loopValue i + 0.02)%float with (loopValue (S i)).
    fold (sample i).
    destruct Hinv as [[H0 HN] | (j & Hj & Hn & Hm & Hmin)].
    + subst i minDistance. cbn [Scene.below].
      apply IH; [lia|]. right. exists 0%nat. split; [lia|]. split; [reflexivity|].
      split; [reflexivity|]. intros j' Hj'. assert (j' = 0%nat) by lia. subst j'. lra.
    + subst minDistance. cbn [Scene.below].
      destruct (Rltb _ _) eqn:El.
      * apply Rltb_true in El. apply IH; [lia|]. right. exists i.
        split; [lia|]. split; [reflexivity|]. split; [reflexivity|].
        intros j' Hj'. destruct (Nat.eq_dec j' i) as [->|Hne]; [lra|].
        specialize (Hmin j' ltac:(lia)). lra.
      * apply Rltb_false in El. apply IH; [lia|]. right. exists j.
        split; [lia|]. split; [exact Hn|]. split; [reflexivity|].
        intros j' Hj'. destruct (Nat.eq_dec j' i) as [->|Hne]; [exact El|].
        apply Hmin. lia.
Qed.

(** The loop ends within its fuel, on a sample nearest to the camera. *)
Lemma findNearestRibbonT_argmin (cameraPos : Scene.Vector3) :
  exists k : nat,
    (k <= 49)%nat /\
    Scene.ribbonLoop Scene.ribbonFuel cameraPos 0%float 0 None = Some (sample k) /\
    Scene.findNearestRibbonT cameraPos = sample k /\
    forall j : nat,
      (j <= 49)%nat ->
      distanceTo cameraPos (Scene.ribbonPoint (sample k))
        <= distanceTo cameraPos (Scene.ribbonPoint (sample j)).
Proof.
  destruct (ribbonLoop_argmin cameraPos 50 0 0 None eq_refl) as (k & Hk & E & Hmin).
  - left. split; reflexivity.
  - change (loopValue 0) with 0%float in E.
    exists k. split; [exact Hk|]. split; [exact E|].
    split; [|exact Hmin]. unfold Scene.findNearestRibbonT.
    change Scene.ribbonFuel with 51%nat. rewrite E. reflexivity.
Qed.




(** The squared distance of two points of the ribbon: a height and radius
    part and the chord between the two angles. *)
Lemma distance2_ribbon (s t : R) :
  distance2 (Scene.ribbonPoint s) (Scene.ribbonPoint t)
    = 55.9696 * ((s - t) * (s - t))
      + 2 * (layerRadius s * layerRadius t) * (1 - cos (6 * PI * (s - t))).
Proof.
  unfold distance2, Scene.ribbonPoint, Scene.height, Scene.maxRadius, layerRadius, Rsqr.
  cbn [Scene.x Scene.y Scene.z].
  replace (6 * PI * (s - t)) with (s * PI * 6 - t * PI * 6) by ring.
  rewrite cos_minus.
  pose proof (sin2_cos2 (s * PI * 6)) as Hs. pose proof (sin2_cos2 (t * PI * 6)) as Ht.
  unfold Rsqr in Hs, Ht.
  set (ca := cos (s * PI * 6)) in *. set (sa := sin (s * PI * 6)) in *.
  set (cb := cos (t * PI * 6)) in *. set (sb := sin (t * PI * 6)) in *.
  set (rs := 3.0 * (1 - s * 0.88) + 0.15). set (rt := 3.0 * (1 - t * 0.88) + 0.15).
  replace ((ca * rs - cb * rt) * (ca * rs - cb * rt) +
           (s * 7 - 7 / 2 + 0.3 - (t * 7 - 7 / 2 + 0.3)) *
           (s * 7 - 7 / 2 + 0.3 - (t * 7 - 7 / 2 + 0.3)) +
           (sa * rs - sb * rt) * (sa * rs - sb * rt))
    with (rs * rs * (sa * sa + ca * ca) + rt * rt * (sb * sb + cb * cb)
          - 2 * rs * rt * (ca * cb + sa * sb) + 49 * ((s - t) * (s - t))) by ring.
  rewrite Hs, Ht. unfold rs, rt. clear.
  generalize (ca * cb + sa * sb). intros C. nra.
Qed.

Lemma distance2_nonneg (a b : Scene.Vector3) : 0 <= distance2 a b.
Proof.
  unfold distance2.
  pose proof (Rle_0_sqr (Scene.x a - Scene.x b)).
  pose proof (Rle_0_sqr (Scene.y a - Scene.y b)).
  pose proof (Rle_0_sqr (Scene.z a - Scene.z b)). lra.
Qed.









Lemma distanceTo_le_distance2 (a b c : Scene.Vector3) :
  distanceTo a b <= distanceTo a c -> distance2 a b <= distance2 a c.
Proof.
  unfold distanceTo. fold (distance2 a b). fold (distance2 a c).
  apply sqrt_le_0; apply distance2_nonneg.
Qed.



Lemma TreeState_eqb_neq (a b : TreeState) : a <> b -> TreeState_eqb a b = false.
Proof. intros H. unfold TreeState_eqb. destruct (TreeState_eq_dec a b); congruence. Qed.



(** * Further properties of the code *)

(** ** The camera controller: smoothing, zoom and targets *)

(** What the blocks before the smoothing leave alone: the two smoothed
    vectors, the smoothed zoom and the camera. *)
Lemma stateChangeBlock_keeps (p : Scene.Props) (c : Scene.Refs) :
  let c' := fst (Scene.stateChangeBlock p c) in
  Scene.targetRef c' = Scene.targetRef c /\
  Scene.positionRef c' = Scene.positionRef c /\
  Scene.smoothZoomRef c' = Scene.smoothZoomRef c /\
  Scene.camera c' = Scene.camera c /\
  Scene.prevStateRef c' = Scene.state p.
Proof.
  unfold Scene.stateChangeBlock.
  destruct (TreeState_eqb (Scene.state p) tree && negb (TreeState_eqb (Scene.prevStateRef c) tree));
    match goal with
    | |- context [if ?b then _ else _] => destruct b
    end; repeat split; reflexivity.
Qed.

Lemma delayBlock_keeps (delta : R) (c : Scene.Refs) :
  let c' := Scene.delayBlock delta c in
  Scene.targetRef c' = Scene.targetRef c /\
  Scene.positionRef c' = Scene.positionRef c /\
  Scene.smoothZoomRef c' = Scene.smoothZoomRef c /\
  Scene.camera c' = Scene.camera c /\
  Scene.prevStateRef c' = Scene.prevStateRef c.
Proof.
  unfold Scene.delayBlock. destruct (Rgtb (Scene.transitionDelayRef c) 0);
    repeat split; reflexivity.
Qed.

Lemma climbBlock_keeps (delta : R) (c : Scene.Refs) :
  let c' := fst (fst (Scene.climbBlock delta c)) in
  Scene.targetRef c' = Scene.targetRef c /\
  Scene.positionRef c' = Scene.positionRef c /\
  Scene.smoothZoomRef c' = Scene.smoothZoomRef c /\
  Scene.camera c' = Scene.camera c /\
  Scene.prevStateRef c' = Scene.prevStateRef c /\
  Scene.transitionDelayRef c' = Scene.transitionDelayRef c.
Proof.
  unfold Scene.climbBlock.
  match goal with
  | |- context [if ?b then _ else _] => destruct b
  end; repeat split; reflexivity.
Qed.

Lemma targetBlock_keeps (p : Scene.Props) (delta : R) (c : Scene.Refs) :
  let c' := fst (fst (Scene.targetBlock p delta c)) in
  Scene.targetRef c' = Scene.targetRef c /\
  Scene.positionRef c' = Scene.positionRef c /\
  Scene.smoothZoomRef c' = Scene.smoothZoomRef c /\
  Scene.camera c' = Scene.camera c /\
  Scene.prevStateRef c' = Scene.prevStateRef c /\
  Scene.transitionDelayRef c' = Scene.transitionDelayRef c.
Proof.
  unfold Scene.targetBlock.
  destruct (TreeState_eqb (Scene.state p) tree && Rleb (Scene.transitionDelayRef c) 0).
  - destruct (negb (Scene.isAtStarRef c)); [apply climbBlock_keeps|].
    repeat split; reflexivity.
  - destruct (Scene.handPosition p); [destruct (TreeState_eqb (Scene.state p) galaxy)|];
      repeat split; reflexivity.
Qed.

(** Every frame, split into the part before the smoothing and the smoothing. *)
Lemma useFrame_split (p : Scene.Props) (delta : R) (c : Scene.Refs) :
  exists (c4 : Scene.Refs) (tg : Scene.Targets) (calls : list bool),
    Scene.useFrame p delta c = (Scene.smoothBlock delta tg c4, calls) /\
    Scene.targetRef c4 = Scene.targetRef c /\
    Scene.positionRef c4 = Scene.positionRef c /\
    Scene.smoothZoomRef c4
      = Scene.smoothZoomRef c + (Scene.zoom p - Scene.smoothZoomRef c) * 5 * delta /\
    Scene.prevStateRef c4 = Scene.state p.
Proof.
  unfold Scene.useFrame.
  set (c1 := Scene.zoomBlock p delta c).
  pose proof (stateChangeBlock_keeps p c1) as K2.
  destruct (Scene.stateChangeBlock p c1) as [c2 calls2]. cbn [fst] in K2.
  pose proof (delayBlock_keeps delta c2) as K3.
  set (c3 := Scene.delayBlock delta c2) in *.
  pose proof (targetBlock_keeps p delta c3) as K4.
  destruct (Scene.targetBlock p delta c3) as [[c4 tg] calls4]. cbn [fst] in K4.
  exists c4, tg, (calls2 ++ calls4). split; [reflexivity|].
  destruct K2 as (A2 & B2 & C2 & _ & E2). destruct K3 as (A3 & B3 & C3 & _ & E3).
  destruct K4 as (A4 & B4 & C4 & _ & E4 & _).
  repeat split.
  - rewrite A4, A3, A2. reflexivity.
  - rewrite B4, B3, B2. reflexivity.
  - rewrite C4, C3, C2. reflexivity.
  - rewrite E4, E3, E2. reflexivity.
Qed.

(** The smoothing written out field by field. *)
Lemma smoothBlock_eq (delta : R) (tg : Scene.Targets) (c : Scene.Refs) :
  Scene.smoothBlock delta tg c
  = let k := 1 - exp (-2.5 * delta) in
    let pos' := Scene.mkVector3
                  (Scene.x (Scene.positionRef c)
                   + (Scene.targetX tg - Scene.x (Scene.positionRef c)) * k)
                  (Scene.y (Scene.positionRef c)
                   + (Scene.targetY tg - Scene.y (Scene.positionRef c)) * k)
                  (Scene.z (Scene.positionRef c)
                   + (Scene.targetZ tg - Scene.z (Scene.positionRef c)) * k) in
    let tgt' := Scene.mkVector3 (Scene.x (Scene.targetRef c))
                  (Scene.y (Scene.targetRef c)
                   + (Scene.lookAtY tg - Scene.y (Scene.targetRef c)) * k)
                  (Scene.z (Scene.targetRef c)) in
    Scene.mkRefs tgt' pos' (Scene.ribbonTimeRef c) (Scene.prevStateRef c)
      (Scene.transitionDelayRef c) (Scene.isAtStarRef c) (Scene.hasInitializedRef c)
      (Scene.velocityRef c) (Scene.targetVelocityRef c) (Scene.smoothZoomRef c)
      (Scene.mkCamera pos' tgt').
Proof. reflexivity. Qed.

(** The smoothing with the same targets composes: the two frame times add. *)
Lemma smoothBlock_compose (d1 d2 : R) (tg : Scene.Targets) (c : Scene.Refs) :
  Scene.smoothBlock d2 tg (Scene.smoothBlock d1 tg c) = Scene.smoothBlock (d1 + d2) tg c.
Proof.
  rewrite (smoothBlock_eq d1), (smoothBlock_eq d2), (smoothBlock_eq (d1 + d2)).
  replace (-2.5 * (d1 + d2)) with (-2.5 * d1 + -2.5 * d2) by lra.
  rewrite exp_plus. cbv zeta.
  cbn [Scene.positionRef Scene.targetRef Scene.x Scene.y Scene.z Scene.ribbonTimeRef
       Scene.prevStateRef Scene.transitionDelayRef Scene.isAtStarRef
       Scene.hasInitializedRef Scene.velocityRef Scene.targetVelocityRef
       Scene.smoothZoomRef].
  generalize (exp (-2.5 * d1)) (exp (-2.5 * d2)). intros e1 e2.
  assert (E : forall a b : R,
             a + (b - a) * (1 - e1) + (b - (a + (b - a) * (1 - e1))) * (1 - e2)
             = a + (b - a) * (1 - e1 * e2)) by (intros; ring).
  rewrite !E. reflexivity.
Qed.

Lemma exp_decay_range (delta : R) : 0 <= delta -> 0 < exp (-2.5 * delta) <= 1.
Proof.
  intros H. split; [apply exp_pos|].
  destruct (Req_dec delta 0) as [->|Hne].
  - replace (-2.5 * 0) with 0 by ring. rewrite exp_0. lra.
  - rewrite <- exp_0. left. apply exp_increasing. lra.
Qed.

Lemma zoomBlock_settled (p : Scene.Props) (delta : R) (c : Scene.Refs) :
  Scene.smoothZoomRef c = Scene.zoom p -> Scene.zoomBlock p delta c = c.
Proof.
  destruct c as [tgt pos rt ps td at_ hi v tv sz cam]. cbn. intros ->.
  unfold Scene.zoomBlock, Scene.setSmoothZoom. cbn. f_equal. ring.
Qed.

Lemma delayBlock_elapsed (delta : R) (c : Scene.Refs) :
  Scene.transitionDelayRef c <= 0 -> Scene.delayBlock delta c = c.
Proof.
  intros H. unfold Scene.delayBlock.
  assert (E : Rgtb (Scene.transitionDelayRef c) 0 = false) by (apply Rltb_false; exact H).
  rewrite E. reflexivity.
Qed.

(** Outside state [tree] the targets do not depend on the frame time, the
    refs stay and nothing is called. *)
Lemma targetBlock_outside_tree (p : Scene.Props) (delta : R) (c : Scene.Refs) :
  Scene.state p <> tree ->
  Scene.targetBlock p delta c = (c, snd (fst (Scene.targetBlock p 0 c)), []).
Proof.
  intros Hs. unfold Scene.targetBlock.
  rewrite (TreeState_eqb_neq _ _ Hs). cbn [andb].
  destruct (Scene.handPosition p); [destruct (TreeState_eqb (Scene.state p) galaxy)|];
    reflexivity.
Qed.

(** A frame in [galaxy] or [focus] with the state seen before, no delay
    pending and the zoom settled is the smoothing towards targets that do
    not depend on the frame time. *)
Lemma settled_frame (p : Scene.Props) (delta : R) (c : Scene.Refs) :
  Scene.state p <> tree -> Scene.prevStateRef c = Scene.state p ->
  Scene.transitionDelayRef c <= 0 -> Scene.smoothZoomRef c = Scene.zoom p ->
  Scene.useFrame p delta c
    = (Scene.smoothBlock delta (snd (fst (Scene.targetBlock p 0 c))) c, []).
Proof.
  intros Hs Hp Hd Hz. unfold Scene.useFrame.
  rewrite (zoomBlock_settled p delta c Hz).
  rewrite (stateChangeBlock_same p c (eq_sym Hp)).
  rewrite (delayBlock_elapsed delta c Hd).
  rewrite (targetBlock_outside_tree p delta c Hs). reflexivity.
Qed.

(** X1. In [galaxy] or [focus], with the state seen before, no delay pending
    and the zoom settled, the camera movement is frame-rate independent: a
    frame of [d1] followed by a frame of [d2] leaves the refs and the camera
    exactly where one frame of [d1 + d2] leaves them, and nothing is called.
    The distance of the position to its target, coordinate by coordinate, is
    multiplied by [exp (-2.5 * d1)], a factor in (0, 1] when [d1] is not
    negative: the position approaches the target and never passes it. *)
Theorem settled_frames_are_frame_rate_independent
        (p : Scene.Props) (d1 d2 : R) (c : Scene.Refs) :
  Scene.state p <> tree -> Scene.prevStateRef c = Scene.state p ->
  Scene.transitionDelayRef c <= 0 -> Scene.smoothZoomRef c = Scene.zoom p ->
  let c1 := fst (Scene.useFrame p d1 c) in
  let tg := snd (fst (Scene.targetBlock p d1 c)) in
  fst (Scene.useFrame p d2 c1) = fst (Scene.useFrame p (d1 + d2) c) /\
  snd (Scene.useFrame p d1 c) = [] /\
  Scene.targetX tg - Scene.x (Scene.positionRef c1)
    = exp (-2.5 * d1) * (Scene.targetX tg - Scene.x (Scene.positionRef c)) /\
  Scene.targetY tg - Scene.y (Scene.positionRef c1)
    = exp (-2.5 * d1) * (Scene.targetY tg - Scene.y (Scene.positionRef c)) /\
  Scene.targetZ tg - Scene.z (Scene.positionRef c1)
    = exp (-2.5 * d1) * (Scene.targetZ tg - Scene.z (Scene.positionRef c)) /\
  Scene.lookAtY tg - Scene.y (Scene.targetRef c1)
    = exp (-2.5 * d1) * (Scene.lookAtY tg - Scene.y (Scene.targetRef c)) /\
  Scene.camera c1 = Scene.mkCamera (Scene.positionRef c1) (Scene.targetRef c1) /\
  (0 <= d1 -> 0 < exp (-2.5 * d1) <= 1).
Proof.
  intros Hs Hp Hd Hz. cbv zeta.
  rewrite (settled_frame p d1 c Hs Hp Hd Hz), (settled_frame p (d1 + d2) c Hs Hp Hd Hz).
  rewrite (targetBlock_outside_tree p d1 c Hs). cbn [fst snd].
  set (tg := snd (fst (Scene.targetBlock p 0 c))).
  assert (Hsame : snd (fst (Scene.targetBlock p 0 (Scene.smoothBlock d1 tg c))) = tg).
  { unfold tg, Scene.targetBlock. rewrite (TreeState_eqb_neq _ _ Hs). cbn [andb].
    destruct (Scene.handPosition p); [destruct (TreeState_eqb (Scene.state p) galaxy)|];
      reflexivity. }
  rewrite settled_frame; try assumption.
  rewrite Hsame. cbn [fst]. split; [apply smoothBlock_compose|].
  split; [reflexivity|].
  rewrite (smoothBlock_eq d1). cbv zeta.
  cbn [Scene.positionRef Scene.targetRef Scene.camera Scene.x Scene.y Scene.z].
  split; [ring|]. split; [ring|]. split; [ring|]. split; [ring|].
  split; [reflexivity|]. apply exp_decay_range.
Qed.

Lemma settled_frames_are_frame_rate_independent_witness :
  fst (Scene.useFrame (plainProps galaxy) 2 (fst (Scene.useFrame (plainProps galaxy) 1 fromGalaxy)))
  = fst (Scene.useFrame (plainProps galaxy) (1 + 2) fromGalaxy).
Proof.
  apply (settled_frames_are_frame_rate_independent (plainProps galaxy) 1 2 fromGalaxy).
  - discriminate.
  - reflexivity.
  - cbn. lra.
  - reflexivity.
Defined.

Lemma baseDistance_range (b sz : R) : 4 <= Rmax 4 (Rmin 35 (b + sz)) <= 35.
Proof.
  unfold Rmax, Rmin.
  destruct (Rle_dec 35 (b + sz)); destruct (Rle_dec 4 _); lra.
Qed.

(** X2. Whenever the controller is not on the ribbon (the state is not
    [tree], or the transition delay is still running) and does not follow the
    hand, the position target lies on a circle around the tree axis whose
    radius is the base distance (12 in [tree], 18 otherwise) plus the smoothed
    zoom, clamped to [4, 35]: however large the zoom, the target is never
    nearer than 4 nor farther than 35 from the axis.  Its height stays in
    [-3, 7], the look-at height is 0, no ref is written and nothing is
    called. *)
Theorem orbit_target_on_clamped_circle (p : Scene.Props) (delta : R) (c : Scene.Refs) :
  Scene.state p <> tree \/ 0 < Scene.transitionDelayRef c ->
  Scene.handPosition p = None \/ Scene.state p <> galaxy ->
  let tg := snd (fst (Scene.targetBlock p delta c)) in
  let baseDistance :=
    Rmax 4 (Rmin 35 ((if TreeState_eqb (Scene.state p) tree then 12 else 18)
                     + Scene.smoothZoomRef c)) in
  Scene.targetX tg = sin (snd (Scene.orbitRotation p)) * baseDistance /\
  Scene.targetZ tg = cos (snd (Scene.orbitRotation p)) * baseDistance /\
  Scene.targetX tg * Scene.targetX tg + Scene.targetZ tg * Scene.targetZ tg
    = baseDistance * baseDistance /\
  4 <= baseDistance <= 35 /\
  -3 <= Scene.targetY tg <= 7 /\
  Scene.lookAtY tg = 0 /\
  fst (fst (Scene.targetBlock p delta c)) = c /\
  snd (Scene.targetBlock p delta c) = [].
Proof.
  intros Hmode Hhand. cbv zeta.
  set (bd := Rmax 4 (Rmin 35 _)).
  assert (Hbd : 4 <= bd <= 35) by apply baseDistance_range.
  assert (Hbranch : TreeState_eqb (Scene.state p) tree
                    && Rleb (Scene.transitionDelayRef c) 0 = false).
  { destruct Hmode as [Hs | Hd].
    - rewrite (TreeState_eqb_neq _ _ Hs). reflexivity.
    - rewrite (proj2 (Rleb_false _ _) Hd). apply andb_false_r. }
  assert (E : Scene.targetBlock p delta c
              = (c, Scene.mkTargets (sin (snd (Scene.orbitRotation p)) * bd)
                      (sin (fst (Scene.orbitRotation p)) * 5 + 2)
                      (cos (snd (Scene.orbitRotation p)) * bd) 0, [])).
  { unfold Scene.targetBlock. rewrite Hbranch. fold bd.
    destruct Hhand as [Hn | Hg].
    - rewrite Hn. reflexivity.
    - rewrite (TreeState_eqb_neq _ _ Hg). destruct (Scene.handPosition p); reflexivity. }
  rewrite E. cbn [fst snd Scene.targetX Scene.targetY Scene.targetZ Scene.lookAtY].
  pose proof (sin2_cos2 (snd (Scene.orbitRotation p))) as Hsc. unfold Rsqr in Hsc.
  pose proof (SIN_bound (fst (Scene.orbitRotation p))) as Hs.
  split; [reflexivity|]. split; [reflexivity|].
  split.
  { generalize dependent (sin (snd (Scene.orbitRotation p))).
    generalize (cos (snd (Scene.orbitRotation p))). intros co si _ Hsc.
    replace (si * bd * (si * bd) + co * bd * (co * bd))
      with ((si * si + co * co) * (bd * bd)) by ring.
    rewrite Hsc. ring. }
  split; [exact Hbd|]. split; [lra|]. repeat split; reflexivity.
Qed.

Lemma orbit_target_on_clamped_circle_witness :
  let tg := snd (fst (Scene.targetBlock (plainProps galaxy) 1
                        (Scene.setSmoothZoom 100 fromGalaxy))) in
  Scene.targetX tg * Scene.targetX tg + Scene.targetZ tg * Scene.targetZ tg
    = Rmax 4 (Rmin 35 (18 + 100)) * Rmax 4 (Rmin 35 (18 + 100)).
Proof.
  apply (orbit_target_on_clamped_circle (plainProps galaxy) 1
           (Scene.setSmoothZoom 100 fromGalaxy)).
  - left. discriminate.
  - left. reflexivity.
Defined.

(** ** The camera controller over a run of frames *)

Lemma runFrames_app (s1 s2 : list (Scene.Props * R)) (c : Scene.Refs) :
  runFrames (s1 ++ s2) c
  = (fst (runFrames s2 (fst (runFrames s1 c))),
     snd (runFrames s1 c) ++ snd (runFrames s2 (fst (runFrames s1 c)))).
Proof.
  revert c. induction s1 as [|[p delta] s1 IH]; intros c.
  - cbn. destruct (runFrames s2 c); reflexivity.
  - cbn [runFrames app]. destruct (Scene.useFrame p delta c) as [c1 calls1].
    rewrite IH. destruct (runFrames s1 c1) as [c2 calls2]. cbn [fst snd].
    rewrite app_assoc. reflexivity.
Qed.

(** What one frame does to the look-at target, the camera, the smoothed
    zoom and the remembered state, whatever the props and the frame time. *)
Lemma useFrame_shape (p : Scene.Props) (delta : R) (c : Scene.Refs) :
  let c' := fst (Scene.useFrame p delta c) in
  cameraInSync c' /\
  Scene.prevStateRef c' = Scene.state p /\
  Scene.x (Scene.targetRef c') = Scene.x (Scene.targetRef c) /\
  Scene.z (Scene.targetRef c') = Scene.z (Scene.targetRef c) /\
  Scene.smoothZoomRef c'
    = Scene.smoothZoomRef c + (Scene.zoom p - Scene.smoothZoomRef c) * 5 * delta.
Proof.
  destruct (useFrame_split p delta c) as (c4 & tg & calls & E & Ht & _ & Hz & Hp).
  cbv zeta. rewrite E. cbn [fst]. rewrite (smoothBlock_eq delta tg c4). cbv zeta.
  unfold cameraInSync.
  cbn [Scene.camera Scene.positionRef Scene.targetRef Scene.prevStateRef
       Scene.smoothZoomRef Scene.x Scene.z].
  rewrite Ht. repeat split; assumption.
Qed.

Lemma runFrames_axis (steps : list (Scene.Props * R)) (c : Scene.Refs) :
  Scene.x (Scene.targetRef (fst (runFrames steps c))) = Scene.x (Scene.targetRef c) /\
  Scene.z (Scene.targetRef (fst (runFrames steps c))) = Scene.z (Scene.targetRef c).
Proof.
  revert c. induction steps as [|[p delta] steps IH]; intros c.
  - split; reflexivity.
  - cbn [runFrames]. pose proof (useFrame_shape p delta c) as (_ & _ & Hx & Hz & _).
    destruct (Scene.useFrame p delta c) as [c1 calls1]. cbn [fst] in Hx, Hz.
    specialize (IH c1). destruct (runFrames steps c1) as [c2 calls2]. cbn [fst] in *.
    destruct IH as [IHx IHz]. split; congruence.
Qed.

(** X3. After any run of frames, whatever the props and the frame times
    (zero, negative and huge ones included), the camera shows exactly the
    position and the look-at target the refs hold, the remembered state is
    the state of the last frame, and the look-at target has kept its [x] and
    [z]: only its height moves.  From the mount state the camera therefore
    always looks at a point of the tree axis. *)
Theorem camera_looks_at_the_axis
        (steps : list (Scene.Props * R)) (p : Scene.Props) (delta : R) (c : Scene.Refs) :
  let c' := fst (runFrames (steps ++ [(p, delta)]) c) in
  cameraInSync c' /\
  Scene.prevStateRef c' = Scene.state p /\
  Scene.x (Scene.lookAt (Scene.camera c')) = Scene.x (Scene.targetRef c) /\
  Scene.z (Scene.lookAt (Scene.camera c')) = Scene.z (Scene.targetRef c) /\
  Scene.position (Scene.camera c') = Scene.positionRef c'.
Proof.
  cbv zeta. rewrite runFrames_app. cbn [fst].
  pose proof (runFrames_axis steps c) as [Ax Az].
  set (c0 := fst (runFrames steps c)) in *.
  cbn [runFrames].
  pose proof (useFrame_shape p delta c0) as (Hs & Hp & Hx & Hz & _).
  destruct (Scene.useFrame p delta c0) as [c1 calls1]. cbn [fst] in *.
  unfold cameraInSync in Hs. rewrite Hs. cbn [Scene.lookAt Scene.position].
  repeat split; congruence.
Qed.

Lemma runFrames_zoom_zero (steps : list (Scene.Props * R)) (c : Scene.Refs) :
  Forall (fun step => Scene.zoom (fst step) = 0) steps ->
  Scene.smoothZoomRef c = 0 ->
  Scene.smoothZoomRef (fst (runFrames steps c)) = 0.
Proof.
  intros Hall. revert c. induction Hall as [|[p delta] steps Hz _ IH]; intros c Hc.
  - exact Hc.
  - cbn [runFrames]. pose proof (useFrame_shape p delta c) as (_ & _ & _ & _ & Hsz).
    destruct (Scene.useFrame p delta c) as [c1 calls1]. cbn [fst] in *.
    specialize (IH c1). destruct (runFrames steps c1) as [c2 calls2]. cbn [fst] in *.
    apply IH. rewrite Hsz, Hz, Hc. ring.
Qed.

(** X4. The zoom is inert on the page.  One frame moves the smoothed zoom by
    [(zoom - smoothZoom) * 5 * delta], whatever the state; the page gives the
    scene a zoom of 0, so over any run of frames fed with the page's props,
    from the mount state, the smoothed zoom stays 0, and the camera distance
    of the orbit is the base distance: 12 in [tree], 18 otherwise. *)
Theorem page_zoom_is_inert
        (inputs : list (Index.State * HandGesture.HandGestureState * R))
        (s : Index.State) (hand : HandGesture.HandGestureState) (delta : R)
        (st0 : TreeState) :
  let steps := map (fun i => (sceneProps (fst (fst i)) (snd (fst i)), snd i)) inputs in
  let c := fst (runFrames steps (Scene.initial st0)) in
  Scene.smoothZoomRef c = 0 /\
  Scene.smoothZoomRef (fst (Scene.useFrame (sceneProps s hand) delta c)) = 0 /\
  (forall (p : Scene.Props) (d : R) (c0 : Scene.Refs),
      Scene.smoothZoomRef (fst (Scene.useFrame p d c0))
      = Scene.smoothZoomRef c0 + (Scene.zoom p - Scene.smoothZoomRef c0) * 5 * d) /\
  Rmax 4 (Rmin 35 ((if TreeState_eqb (Index.treeState s) tree then 12 else 18)
                   + Scene.smoothZoomRef c))
  = if TreeState_eqb (Index.treeState s) tree then 12 else 18.
Proof.
  cbv zeta.
  assert (Hc : Scene.smoothZoomRef
                 (fst (runFrames
                         (map (fun i => (sceneProps (fst (fst i)) (snd (fst i)), snd i))
                              inputs) (Scene.initial st0))) = 0).
  { apply runFrames_zoom_zero; [|reflexivity].
    apply Forall_forall. intros step Hin. apply in_map_iff in Hin.
    destruct Hin as (i & <- & _). reflexivity. }
  split; [exact Hc|]. split.
  { pose proof (useFrame_shape (sceneProps s hand) delta
                  (fst (runFrames
                          (map (fun i => (sceneProps (fst (fst i)) (snd (fst i)), snd i))
                               inputs) (Scene.initial st0)))) as (_ & _ & _ & _ & Hsz).
    cbv zeta in Hsz. rewrite Hsz, Hc. cbn [sceneProps Scene.zoom]. ring. }
  split.
  { intros p d c0. apply (useFrame_shape p d c0). }
  rewrite Hc.
  destruct (TreeState_eqb (Index.treeState s) tree);
    (rewrite Rmin_right by lra); (rewrite Rmax_right by lra); lra.
Qed.

(** ** The calls of [onStarFocused] *)

(** The calls a block makes, and what it does to [isAtStarRef]. *)
Lemma stateChangeBlock_calls (p : Scene.Props) (c : Scene.Refs) :
  let r := Scene.stateChangeBlock p c in
  (snd r = [] /\ Scene.isAtStarRef (fst r) = Scene.isAtStarRef c) \/
  (snd r = [false] /\ Scene.isAtStarRef (fst r) = false).
Proof.
  cbv zeta. unfold Scene.stateChangeBlock.
  destruct (TreeState_eqb (Scene.state p) tree) eqn:Es.
  - destruct (negb (TreeState_eqb (Scene.prevStateRef c) tree)).
    + right. split; reflexivity.
    + left. split; reflexivity.
  - cbn [andb negb]. destruct (TreeState_eqb (Scene.prevStateRef c) tree).
    + right. split; reflexivity.
    + left. split; reflexivity.
Qed.

Lemma climbBlock_calls (delta : R) (c : Scene.Refs) :
  let r := Scene.climbBlock delta c in
  (snd r = [] /\ Scene.isAtStarRef (fst (fst r)) = Scene.isAtStarRef c) \/
  (snd r = [true] /\ Scene.isAtStarRef (fst (fst r)) = true).
Proof.
  cbv zeta. unfold Scene.climbBlock.
  match goal with |- context [if ?b then _ else _] => destruct b end.
  - right. split; reflexivity.
  - left. split; reflexivity.
Qed.

Lemma targetBlock_calls (p : Scene.Props) (delta : R) (c : Scene.Refs) :
  let r := Scene.targetBlock p delta c in
  (snd r = [] /\ Scene.isAtStarRef (fst (fst r)) = Scene.isAtStarRef c) \/
  (snd r = [true] /\ Scene.isAtStarRef c = false /\
   Scene.isAtStarRef (fst (fst r)) = true).
Proof.
  cbv zeta. unfold Scene.targetBlock.
  destruct (TreeState_eqb (Scene.state p) tree && Rleb (Scene.transitionDelayRef c) 0).
  - destruct (Scene.isAtStarRef c) eqn:Ef; cbn [negb].
    + left. split; [reflexivity | exact Ef].
    + pose proof (climbBlock_calls delta c) as H. cbv zeta in H. rewrite Ef in H.
      destruct H as [[H1 H2] | [H1 H2]].
      * left. split; assumption.
      * right. repeat split; assumption.
  - left. destruct (Scene.handPosition p);
      [destruct (TreeState_eqb (Scene.state p) galaxy)|]; split; reflexivity.
Qed.

(** One frame calls [onStarFocused] with nothing, [false], [true] or [false]
    then [true]; [true] only when the flag was down or [false] was called
    first, and the flag follows the last call. *)
Lemma useFrame_calls (p : Scene.Props) (delta : R) (c : Scene.Refs) :
  let r := Scene.useFrame p delta c in
  (snd r = [] /\ Scene.isAtStarRef (fst r) = Scene.isAtStarRef c) \/
  (snd r = [false] /\ Scene.isAtStarRef (fst r) = false) \/
  (snd r = [true] /\ Scene.isAtStarRef c = false /\ Scene.isAtStarRef (fst r) = true) \/
  (snd r = [false; true] /\ Scene.isAtStarRef (fst r) = true).
Proof.
  cbv zeta. unfold Scene.useFrame.
  set (c1 := Scene.zoomBlock p delta c).
  assert (F1 : Scene.isAtStarRef c1 = Scene.isAtStarRef c) by reflexivity.
  pose proof (stateChangeBlock_calls p c1) as H2. cbv zeta in H2.
  destruct (Scene.stateChangeBlock p c1) as [c2 calls2]. cbn [fst snd] in H2.
  set (c3 := Scene.delayBlock delta c2).
  assert (F3 : Scene.isAtStarRef c3 = Scene.isAtStarRef c2).
  { unfold c3, Scene.delayBlock. destruct (Rgtb (Scene.transitionDelayRef c2) 0);
      reflexivity. }
  pose proof (targetBlock_calls p delta c3) as H4. cbv zeta in H4.
  destruct (Scene.targetBlock p delta c3) as [[c4 tg] calls4]. cbn [fst snd] in H4 |- *.
  assert (F5 : Scene.isAtStarRef (Scene.smoothBlock delta tg c4) = Scene.isAtStarRef c4)
    by reflexivity.
  rewrite F5.
  destruct H2 as [[-> G2] | [-> G2]]; destruct H4 as [[-> G4] | [-> [G4 G4']]];
    cbn [app].
  - left. split; [reflexivity | congruence].
  - right. right. left. repeat split; congruence.
  - right. left. split; [reflexivity | congruence].
  - right. right. right. split; [reflexivity | congruence].
Qed.

Lemma starFocused_app (calls1 calls2 : list bool) (b : bool) :
  starFocused (calls1 ++ calls2) b = starFocused calls2 (starFocused calls1 b).
Proof. unfold starFocused. apply fold_left_app. Qed.

Lemma noRepeatedTrue_app (calls1 calls2 : list bool) (b : bool) :
  noRepeatedTrue b (calls1 ++ calls2)
  = noRepeatedTrue b calls1 && noRepeatedTrue (starFocused calls1 b) calls2.
Proof.
  revert b. induction calls1 as [|f calls1 IH]; intros b.
  - reflexivity.
  - cbn [app noRepeatedTrue]. rewrite IH. unfold starFocused. cbn [fold_left].
    rewrite andb_assoc. reflexivity.
Qed.

(** X5. The text overlay of the page follows the camera controller.  Over
    any run of frames, whatever the props and the frame times, the value the
    page holds in [isStarFocused] after the calls of [onStarFocused] is the
    controller's flag [isAtStarRef] (both start as [false] at the mount),
    and [onStarFocused(true)] is never called twice without a call of
    [onStarFocused(false)] in between. *)
Theorem star_focus_follows_the_flag (steps : list (Scene.Props * R)) (c : Scene.Refs) :
  let c' := fst (runFrames steps c) in
  let calls := snd (runFrames steps c) in
  starFocused calls (Scene.isAtStarRef c) = Scene.isAtStarRef c' /\
  noRepeatedTrue (Scene.isAtStarRef c) calls = true.
Proof.
  cbv zeta. revert c. induction steps as [|[p delta] steps IH]; intros c.
  - split; reflexivity.
  - cbn [runFrames].
    pose proof (useFrame_calls p delta c) as H. cbv zeta in H.
    destruct (Scene.useFrame p delta c) as [c1 calls1]. cbn [fst snd] in H.
    specialize (IH c1). destruct (runFrames steps c1) as [c2 calls2].
    cbn [fst snd] in *. destruct IH as [IH1 IH2].
    rewrite starFocused_app, noRepeatedTrue_app.
    assert (G : starFocused calls1 (Scene.isAtStarRef c) = Scene.isAtStarRef c1 /\
                noRepeatedTrue (Scene.isAtStarRef c) calls1 = true).
    { destruct H as [[-> G] | [[-> G] | [[-> [G0 G]] | [-> G]]]].
      - split; [symmetry; exact G | reflexivity].
      - split; [symmetry; exact G |].
        cbn. rewrite andb_false_r. reflexivity.
      - split; [symmetry; exact G |]. rewrite G0. reflexivity.
      - split; [symmetry; exact G |].
        cbn. rewrite andb_false_r. reflexivity. }
    destruct G as [G1 G2]. rewrite G1, G2. split; [exact IH1 | exact IH2].
Qed.

(** ** The speed of the climb *)

(** One frame of the climb keeps the velocity in the range of its targets
    and advances by at most [0.12 * delta]. *)
Lemma climb_frame_speed (p : Scene.Props) (delta : R) (c : Scene.Refs) :
  Scene.state p = tree -> delayElapsed c -> wellFormed c ->
  Scene.isAtStarRef c = false -> shortFrame delta ->
  0.05 <= Scene.velocityRef c <= 0.12 ->
  let c' := fst (Scene.useFrame p delta c) in
  0.05 <= Scene.velocityRef c' <= 0.12 /\
  Scene.ribbonTimeRef c' <= Scene.ribbonTimeRef c + 0.12 * delta /\
  (Scene.isAtStarRef c' = true \/
   Scene.ribbonTimeRef c + 0.05 * delta <= Scene.ribbonTimeRef c').
Proof.
  intros Hs Hd Hw Ha Hdelta Hv.
  destruct (climb_frame_gain p delta 0.05 c Hs Hd Hw Ha Hdelta) as [Hlo Hgain];
    [lra | lra |].
  cbv zeta in Hlo, Hgain |- *.
  pose proof (sin_ribbon_nonneg _ (proj1 (proj2 Hw))) as Hsin.
  pose proof (SIN_bound (Scene.ribbonTimeRef c * PI)) as [_ Hsin1].
  set (tv := 0.05 + sin (Scene.ribbonTimeRef c * PI) * (0.12 - 0.05)).
  set (v' := Scene.velocityRef c + (tv - Scene.velocityRef c) * 2.5 * delta).
  assert (Htv : tv <= 0.12) by (unfold tv; nra).
  assert (Hv' : v' <= 0.12).
  { unfold v'. destruct Hdelta as [Hd0 Hd1].
    replace (Scene.velocityRef c + (tv - Scene.velocityRef c) * 2.5 * delta)
      with (0.12 - ((0.12 - Scene.velocityRef c) * (1 - 2.5 * delta)
                    + (0.12 - tv) * (2.5 * delta))) by ring.
    assert (0 <= (0.12 - Scene.velocityRef c) * (1 - 2.5 * delta))
      by (apply Rmult_le_pos; lra).
    assert (0 <= (0.12 - tv) * (2.5 * delta)) by (apply Rmult_le_pos; lra).
    lra. }
  assert (Hstep : v' * delta <= 0.12 * delta)
    by (apply Rmult_le_compat_r; [apply Hdelta | exact Hv']).
  destruct (Rlt_dec (Scene.ribbonTimeRef c + v' * delta) 1) as [Hlt|Hge].
  - destruct (climb_frame_values p delta c Hs Hd Ha Hlt) as (_ & _ & Ev & Et).
    cbv zeta in Ev, Et. fold tv in Ev, Et. fold v' in Ev, Et.
    rewrite Ev in Hlo |- *. rewrite Et in Hgain |- *.
    split; [split; [exact Hlo | exact Hv']|]. split; [lra | exact Hgain].
  - split; [|split; [|exact Hgain]].
    + split; [exact Hlo|].
      destruct p as [st orb hand zm]. cbn in Hs. subst st.
      destruct c as [tgt pos rt ps td at_ hi v tv0 sz cam].
      destruct Hd as [Hp Hd]. cbn in Hp, Hd, Ha, v', tv, Hge. subst ps at_.
      tree_frame td Hd.
      unfold Scene.climbBlock. cbn. fold tv. fold v'.
      assert (E3 : Rgeb (rt + v' * delta) 1 = true) by (apply Rleb_true; lra).
      rewrite E3. cbn. exact Hv'.
    + destruct (climb_frame p delta c Hs Hd Hw Ha Hdelta) as (_ & (_ & Ht' & _) & _).
      cbv zeta in Ht'. lra.
Qed.

(** At the star the velocity and the progress parameter stay. *)
Lemma star_frames_speed (p : Scene.Props) (deltas : list R) :
  Scene.state p = tree -> Forall shortFrame deltas ->
  forall c : Scene.Refs,
    delayElapsed c -> wellFormed c -> Scene.isAtStarRef c = true ->
    let c' := fst (Scene.frames p deltas c) in
    Scene.velocityRef c' = Scene.velocityRef c /\
    Scene.ribbonTimeRef c' = Scene.ribbonTimeRef c /\
    Scene.isAtStarRef c' = true.
Proof.
  intros Hs Hall. induction Hall as [|delta deltas Hdelta _ IH]; intros c Hd Hw Ha.
  - cbn. repeat split; try reflexivity. exact Ha.
  - cbv zeta. rewrite frames_cons. cbn [fst].
    destruct (star_frame p delta c Hs Hd Hw Ha (proj1 Hdelta))
      as (Hd1 & Hw1 & Et & Ev & Ha1 & _).
    cbv zeta in Hd1, Hw1, Et, Ev, Ha1.
    destruct (IH _ Hd1 Hw1 Ha1) as (Ev2 & Et2 & Ha2). cbv zeta in Ev2, Et2, Ha2.
    repeat split; congruence.
Qed.

Lemma total_nonneg (deltas : list R) : Forall shortFrame deltas -> 0 <= total deltas.
Proof.
  induction 1 as [|delta deltas [H0 _] _ IH]; cbn; [lra|].
  unfold total in IH. lra.
Qed.

(** X8. The climb has a speed limit.  Over a run of frames of at most 0.4 s
    each, climbing in [tree] with the delay elapsed and a velocity in
    [0.05, 0.12] (0.05 is the value set on entering [tree]), the velocity
    stays in [0.05, 0.12]; the progress parameter advances by at most 0.12
    times the time elapsed, and, until the star is reached, by at least 0.05
    times that time.  So the star is never reached before
    [(1 - t) / 0.12] seconds have passed: at least 8.3 s from the foot of the
    ribbon. *)
Theorem climb_speed_limits (p : Scene.Props) (deltas : list R) (c : Scene.Refs) :
  Scene.state p = tree -> Forall shortFrame deltas ->
  delayElapsed c -> wellFormed c -> Scene.isAtStarRef c = false ->
  0.05 <= Scene.velocityRef c <= 0.12 ->
  let c' := fst (Scene.frames p deltas c) in
  0.05 <= Scene.velocityRef c' <= 0.12 /\
  Scene.ribbonTimeRef c' <= Scene.ribbonTimeRef c + 0.12 * total deltas /\
  (Scene.isAtStarRef c' = true \/
   Scene.ribbonTimeRef c + 0.05 * total deltas <= Scene.ribbonTimeRef c') /\
  (Scene.isAtStarRef c' = true -> (1 - Scene.ribbonTimeRef c) / 0.12 <= total deltas).
Proof.
  intros Hs Hall. revert c.
  assert (Main : forall c : Scene.Refs,
             delayElapsed c -> wellFormed c -> Scene.isAtStarRef c = false ->
             0.05 <= Scene.velocityRef c <= 0.12 ->
             wellFormed (fst (Scene.frames p deltas c)) /\
             0.05 <= Scene.velocityRef (fst (Scene.frames p deltas c)) <= 0.12 /\
             Scene.ribbonTimeRef (fst (Scene.frames p deltas c))
               <= Scene.ribbonTimeRef c + 0.12 * total deltas /\
             (Scene.isAtStarRef (fst (Scene.frames p deltas c)) = true \/
              Scene.ribbonTimeRef c + 0.05 * total deltas
                <= Scene.ribbonTimeRef (fst (Scene.frames p deltas c)))).
  { induction Hall as [|delta deltas Hdelta Hrest IH]; intros c Hd Hw Ha Hv.
    - cbn. split; [exact Hw|]. split; [exact Hv|]. split; [lra | right; lra].
    - rewrite frames_cons. cbn [fst].
      change (total (delta :: deltas)) with (delta + total deltas).
      pose proof (total_nonneg deltas Hrest) as Hsum.
      destruct (climb_frame p delta c Hs Hd Hw Ha Hdelta) as (Hd1 & Hw1 & _ & _).
      destruct (climb_frame_speed p delta c Hs Hd Hw Ha Hdelta Hv)
        as (Hv1 & Hup1 & Hlo1).
      cbv zeta in Hd1, Hw1, Hv1, Hup1, Hlo1.
      set (c1 := fst (Scene.useFrame p delta c)) in *.
      destruct (Scene.isAtStarRef c1) eqn:Ea.
      + destruct (star_frames_speed p deltas Hs Hrest c1 Hd1 Hw1 Ea) as (Ev & Et & Ea2).
        destruct (star_frames p deltas Hs Hrest c1 Hd1 Hw1 Ea) as (Hw2 & _).
        cbv zeta in Ev, Et, Ea2, Hw2. rewrite Ev, Et.
        split; [exact Hw2|]. split; [exact Hv1|]. split; [lra | left; exact Ea2].
      + destruct (IH c1 Hd1 Hw1 Ea Hv1) as (Hw2 & Hv2 & Hup2 & Hlo2).
        split; [exact Hw2|]. split; [exact Hv2|]. split; [lra|].
        destruct Hlo2 as [Hl | Hl]; [left; exact Hl|].
        destruct Hlo1 as [Hl1 | Hl1]; [discriminate | right; lra]. }
  intros c Hd Hw Ha Hv. cbv zeta.
  destruct (Main c Hd Hw Ha Hv) as (Hw2 & Hv2 & Hup & Hlo).
  split; [exact Hv2|]. split; [exact Hup|]. split; [exact Hlo|].
  intros Hstar. destruct Hw2 as (_ & _ & H1). rewrite (H1 Hstar) in Hup.
  lra.
Qed.

Lemma climb_speed_limits_witness :
  0.05 <= Scene.velocityRef
            (fst (Scene.frames (plainProps tree) [0.4; 0.4]
                    (Scene.setVelocity 0.05 (Scene.initial tree)))) <= 0.12.
Proof.
  apply (climb_speed_limits (plainProps tree) [0.4; 0.4]
           (Scene.setVelocity 0.05 (Scene.initial tree))).
  - reflexivity.
  - repeat constructor; unfold shortFrame; lra.
  - split; [reflexivity | cbn; lra].
  - unfold wellFormed. cbn. repeat split; try lra; discriminate.
  - reflexivity.
  - cbn. lra.
Defined.

(** ** Outside the tree, and while the transition delay runs *)

(** One frame in [galaxy] or [focus]. *)
Lemma outside_frame (p : Scene.Props) (delta : R) (c : Scene.Refs) :
  Scene.state p <> tree ->
  let r := Scene.useFrame p delta c in
  Scene.ribbonTimeRef (fst r) = Scene.ribbonTimeRef c /\
  Scene.velocityRef (fst r) = Scene.velocityRef c /\
  Scene.prevStateRef (fst r) = Scene.state p /\
  snd r = (if TreeState_eqb (Scene.prevStateRef c) tree then [false] else []) /\
  Scene.isAtStarRef (fst r)
    = (if TreeState_eqb (Scene.prevStateRef c) tree then false else Scene.isAtStarRef c).
Proof.
  intros Hs. cbv zeta. unfold Scene.useFrame.
  set (c1 := Scene.zoomBlock p delta c).
  assert (E2 : Scene.stateChangeBlock p c1
               = (Scene.setPrevState (Scene.state p)
                    (if TreeState_eqb (Scene.prevStateRef c) tree
                     then Scene.setIsAtStar false c1 else c1),
                  if TreeState_eqb (Scene.prevStateRef c) tree then [false] else [])).
  { unfold Scene.stateChangeBlock. rewrite (TreeState_eqb_neq _ _ Hs). cbn [andb negb].
    change (Scene.prevStateRef c1) with (Scene.prevStateRef c).
    destruct (TreeState_eqb (Scene.prevStateRef c) tree); reflexivity. }
  rewrite E2.
  match goal with |- context [Scene.delayBlock delta ?c2] => set (c3 := Scene.delayBlock delta c2) end.
  rewrite (targetBlock_outside_tree p delta c3 Hs).
  cbn [fst snd]. rewrite app_nil_r.
  unfold c3, Scene.delayBlock.
  destruct (TreeState_eqb (Scene.prevStateRef c) tree);
    match goal with |- context [Rgtb ?a 0] => destruct (Rgtb a 0) end;
    repeat split; reflexivity.
Qed.

(** X6. Outside the tree the climb is frozen.  Over any run of frames whose
    state is never [tree], whatever the frame times and the other props, the
    progress parameter and the velocity keep their values, and
    [onStarFocused] is called once, with [false], on the first frame if the
    controller was in [tree] before, and never otherwise; after that call the
    flag [isAtStarRef] is down. *)
Theorem outside_tree_climb_is_frozen (steps : list (Scene.Props * R)) (c : Scene.Refs) :
  Forall (fun step => Scene.state (fst step) <> tree) steps ->
  let c' := fst (runFrames steps c) in
  let leaving := match steps with
                 | [] => false
                 | _ :: _ => TreeState_eqb (Scene.prevStateRef c) tree
                 end in
  Scene.ribbonTimeRef c' = Scene.ribbonTimeRef c /\
  Scene.velocityRef c' = Scene.velocityRef c /\
  snd (runFrames steps c) = (if leaving then [false] else []) /\
  Scene.isAtStarRef c' = (if leaving then false else Scene.isAtStarRef c).
Proof.
  intros Hall. cbv zeta. revert c.
  induction Hall as [|[p delta] steps Hs Hrest IH]; intros c.
  - cbn. repeat split; reflexivity.
  - cbn [fst] in Hs. cbn [runFrames].
    pose proof (outside_frame p delta c Hs) as (Et & Ev & Ep & Ec & Ea).
    cbv zeta in Et, Ev, Ep, Ec, Ea.
    destruct (Scene.useFrame p delta c) as [c1 calls1]. cbn [fst snd] in *.
    specialize (IH c1). destruct (runFrames steps c1) as [c2 calls2].
    cbn [fst snd] in *. destruct IH as (It & Iv & Ic & Ia).
    assert (Hn : TreeState_eqb (Scene.prevStateRef c1) tree = false)
      by (rewrite Ep; apply TreeState_eqb_neq; exact Hs).
    assert (Ic' : calls2 = []) by (rewrite Ic; destruct steps; [|rewrite Hn]; reflexivity).
    assert (Ia' : Scene.isAtStarRef c2 = Scene.isAtStarRef c1)
      by (rewrite Ia; destruct steps; [|rewrite Hn]; reflexivity).
    rewrite It, Iv, Ic', Ia', app_nil_r. repeat split; assumption.
Qed.

Lemma outside_tree_climb_is_frozen_witness :
  snd (runFrames [(plainProps galaxy, 1); (plainProps focus, 2)] (Scene.initial tree))
  = [false].
Proof.
  apply (outside_tree_climb_is_frozen
           [(plainProps galaxy, 1); (plainProps focus, 2)] (Scene.initial tree)).
  repeat constructor; discriminate.
Defined.

(** One frame in [tree] that ends with the transition delay still running. *)
Lemma waiting_frame (p : Scene.Props) (delta : R) (c : Scene.Refs) :
  Scene.state p = tree -> Scene.prevStateRef c = tree ->
  0 < Scene.transitionDelayRef c -> delta < Scene.transitionDelayRef c ->
  let r := Scene.useFrame p delta c in
  Scene.ribbonTimeRef (fst r) = Scene.ribbonTimeRef c /\
  Scene.velocityRef (fst r) = Scene.velocityRef c /\
  Scene.isAtStarRef (fst r) = Scene.isAtStarRef c /\
  Scene.prevStateRef (fst r) = tree /\
  Scene.transitionDelayRef (fst r) = Scene.transitionDelayRef c - delta /\
  snd r = [].
Proof.
  intros Hs Hp Hd Hlt.
  destruct p as [st orb hand zm]. cbn in Hs. subst st.
  destruct c as [tgt pos rt ps td at_ hi v tv sz cam]. cbn in Hp, Hd, Hlt. subst ps.
  cbv zeta.
  unfold Scene.useFrame, Scene.zoomBlock, Scene.stateChangeBlock, Scene.delayBlock. cbn.
  assert (E1 : Rgtb td 0 = true) by (apply Rltb_true; exact Hd).
  rewrite E1. unfold Scene.targetBlock. cbn.
  assert (E2 : Rleb (td - delta) 0 = false) by (apply Rleb_false; lra).
  rewrite E2. destruct hand; cbn; repeat split; reflexivity.
Qed.

(** The frame on which the transition delay expires. *)
Lemma expiry_frame (p : Scene.Props) (delta : R) (c : Scene.Refs) :
  Scene.state p = tree -> Scene.prevStateRef c = tree ->
  0 < Scene.transitionDelayRef c <= delta -> Scene.isAtStarRef c = false ->
  let tv := 0.05 + sin (Scene.ribbonTimeRef c * PI) * (0.12 - 0.05) in
  let v' := Scene.velocityRef c + (tv - Scene.velocityRef c) * 2.5 * delta in
  let t' := Scene.ribbonTimeRef c + v' * delta in
  t' < 1 ->
  let r := Scene.useFrame p delta c in
  Scene.velocityRef (fst r) = v' /\ Scene.ribbonTimeRef (fst r) = t' /\
  Scene.transitionDelayRef (fst r) = Scene.transitionDelayRef c - delta /\
  snd r = [].
Proof.
  intros Hs Hp [Hd Hle] Ha.
  destruct p as [st orb hand zm]. cbn in Hs. subst st.
  destruct c as [tgt pos rt ps td at_ hi v tv0 sz cam]. cbn in Hp, Hd, Hle, Ha.
  subst ps at_. cbn. intros Ht'.
  unfold Scene.useFrame, Scene.zoomBlock, Scene.stateChangeBlock, Scene.delayBlock. cbn.
  assert (E1 : Rgtb td 0 = true) by (apply Rltb_true; exact Hd).
  rewrite E1. unfold Scene.targetBlock. cbn.
  assert (E2 : Rleb (td - delta) 0 = true) by (apply Rleb_true; lra).
  rewrite E2. cbn. unfold Scene.climbBlock. cbn.
  match goal with
  | |- context [Rgeb ?a 1] =>
      assert (E3 : Rgeb a 1 = false) by (apply Rleb_false; exact Ht'); rewrite E3
  end.
  cbn. repeat split; reflexivity.
Qed.

(** X7. The transition delay holds the climb, and the frame on which it
    expires climbs for its whole frame time.  In [tree], with a delay
    running, a run of frames with frame times that are not negative and sum
    to less than the delay leaves the progress parameter, the velocity and
    the flag as they are and calls nothing; the delay has counted down by the
    time elapsed.  The next frame, if at least as long as what is left of the
    delay, already updates the velocity and the progress parameter with its
    full frame time [delta], not with what remains of it after the delay. *)
Theorem delay_holds_the_climb (p : Scene.Props) (deltas : list R) (delta : R)
        (c : Scene.Refs) :
  Scene.state p = tree -> Scene.prevStateRef c = tree ->
  Forall (fun d => 0 <= d) deltas -> total deltas < Scene.transitionDelayRef c ->
  let c1 := fst (Scene.frames p deltas c) in
  (Scene.ribbonTimeRef c1 = Scene.ribbonTimeRef c /\
   Scene.velocityRef c1 = Scene.velocityRef c /\
   Scene.isAtStarRef c1 = Scene.isAtStarRef c /\
   Scene.transitionDelayRef c1 = Scene.transitionDelayRef c - total deltas /\
   snd (Scene.frames p deltas c) = []) /\
  (Scene.transitionDelayRef c - total deltas <= delta ->
   Scene.isAtStarRef c = false ->
   let tv := 0.05 + sin (Scene.ribbonTimeRef c * PI) * (0.12 - 0.05) in
   let v' := Scene.velocityRef c + (tv - Scene.velocityRef c) * 2.5 * delta in
   let t' := Scene.ribbonTimeRef c + v' * delta in
   t' < 1 ->
   let c2 := fst (Scene.useFrame p delta c1) in
   Scene.velocityRef c2 = v' /\ Scene.ribbonTimeRef c2 = t' /\
   Scene.transitionDelayRef c2 <= 0 /\
   snd (Scene.useFrame p delta c1) = []).
Proof.
  intros Hs Hp Hall Hsum.
  assert (Main : Scene.ribbonTimeRef (fst (Scene.frames p deltas c)) = Scene.ribbonTimeRef c /\
                 Scene.velocityRef (fst (Scene.frames p deltas c)) = Scene.velocityRef c /\
                 Scene.isAtStarRef (fst (Scene.frames p deltas c)) = Scene.isAtStarRef c /\
                 Scene.prevStateRef (fst (Scene.frames p deltas c)) = tree /\
                 Scene.transitionDelayRef (fst (Scene.frames p deltas c))
                   = Scene.transitionDelayRef c - total deltas /\
                 snd (Scene.frames p deltas c) = []).
  { revert c Hp Hsum.
    induction Hall as [|d deltas Hd Hrest IH]; intros c Hp Hsum.
    - cbn. repeat split; try reflexivity; try assumption. lra.
    - change (total (d :: deltas)) with (d + total deltas) in *.
      assert (Hnn : 0 <= total deltas).
      { clear -Hrest. induction Hrest as [|x l Hx _ IHl]; cbn; [lra|].
        unfold total in IHl. lra. }
      rewrite frames_cons. cbn [fst snd].
      destruct (waiting_frame p d c Hs Hp) as (Et & Ev & Ea & Ep & Ed & Ec); [lra | lra |].
      cbv zeta in Et, Ev, Ea, Ep, Ed, Ec.
      destruct (IH (fst (Scene.useFrame p d c)) Ep) as (It & Iv & Ia & Ip & Id & Ic);
        [rewrite Ed; lra|].
      rewrite It, Iv, Ia, Id, Ic, Ec, Et, Ev, Ea, Ed.
      repeat split; try reflexivity; try assumption. lra. }
  destruct Main as (Mt & Mv & Ma & Mp & Md & Mc). cbv zeta.
  split; [repeat split; assumption|].
  intros Hle Ha Ht'.
  destruct (expiry_frame p delta (fst (Scene.frames p deltas c)) Hs Mp)
    as (Ev & Et & Ed & Ec).
  - rewrite Md. lra.
  - rewrite Ma. exact Ha.
  - rewrite Mt, Mv. exact Ht'.
  - cbv zeta in Ev, Et, Ed, Ec. rewrite Mt, Mv in Ev, Et.
    split; [exact Ev|]. split; [exact Et|]. split; [rewrite Ed, Md; lra | exact Ec].
Qed.

Lemma delay_holds_the_climb_witness :
  Scene.transitionDelayRef
    (fst (Scene.frames (plainProps tree) [0.5; 1]
            (Scene.setTransitionDelay 2 (Scene.initial tree))))
  = 2 - total [0.5; 1].
Proof.
  apply (delay_holds_the_climb (plainProps tree) [0.5; 1] 1
           (Scene.setTransitionDelay 2 (Scene.initial tree))).
  - reflexivity.
  - reflexivity.
  - repeat constructor; lra.
  - cbn. lra.
Defined.

(** ** The nearest ribbon point, at the samples *)

(** X9. The search is exact at its own samples: for a camera placed on the
    ribbon at one of the 50 values the loop variable takes (the binary64
    sums 0, 0.02, ..., 0.9800000000000005; the loop stops before 1),
    [findNearestRibbonT] returns that very value.  No other sample is at
    distance 0, since the height of the ribbon grows with [t]. *)
Theorem findNearestRibbonT_at_sample (k : nat) :
  (k <= 49)%nat ->
  Scene.findNearestRibbonT (Scene.ribbonPoint (sample k)) = sample k.
Proof.
  intros Hk.
  destruct (findNearestRibbonT_argmin (Scene.ribbonPoint (sample k)))
    as (j & Hj & _ & E & Hmin).
  rewrite E.
  pose proof (distanceTo_le_distance2 _ _ _ (Hmin k Hk)) as H.
  rewrite !distance2_ribbon in H.
  pose proof (sample_range k Hk) as Rk. pose proof (sample_range j Hj) as Rj.
  replace (sample k - sample k) with 0 in H by ring.
  replace (6 * PI * 0) with 0 in H by ring. rewrite cos_0 in H.
  pose proof (COS_bound (6 * PI * (sample k - sample j))) as [_ Hc].
  assert (Hr : 0 <= layerRadius (sample k) * layerRadius (sample j))
    by (apply Rmult_le_pos; unfold layerRadius; lra).
  assert (Hsq : (sample k - sample j) * (sample k - sample j) <= 0) by nra.
  nra.
Qed.

Lemma findNearestRibbonT_at_sample_witness :
  Scene.findNearestRibbonT (Scene.ribbonPoint (sample 25)) = sample 25.
Proof. apply (findNearestRibbonT_at_sample 25). lia. Defined.

(** * Further properties: the hand input source *)

Lemma at_index_throws {A : Type} (arr : list A) (i : nat) :
  (List.length arr <= i)%nat -> at_index arr i = Throw.
Proof.
  intros H. unfold at_index. rewrite (proj2 (nth_error_None arr i) H). reflexivity.
Qed.

(** [detectGesture] never throws: the test on the length comes before every
    read of a landmark. *)
Lemma detectGesture_normal (landmarks : option (list HandGesture.Landmark)) :
  exists g : GestureType, HandGesture.detectGesture landmarks = Normal g.
Proof.
  destruct landmarks as [lm|]; [|exists none; reflexivity].
  destruct (Nat.ltb (List.length lm) 21) eqn:E.
  - exists none. unfold HandGesture.detectGesture. rewrite E. reflexivity.
  - apply Nat.ltb_ge in E. rewrite (detectGesture_full lm E). eexists. reflexivity.
Qed.

Lemma detectGesture_short (lm : list HandGesture.Landmark) :
  (List.length lm < 21)%nat -> HandGesture.detectGesture (Some lm) = Normal none.
Proof.
  intros H. unfold HandGesture.detectGesture.
  rewrite (proj2 (Nat.ltb_lt _ _) H). reflexivity.
Qed.

(** A frame with a hand of at least ten landmarks: what is stored, published
    and emitted. *)
Lemma processResults_seen (state : HandGesture.HandGestureState)
      (lm : list HandGesture.Landmark) (others : list (list HandGesture.Landmark))
      (h : HandGesture.Hook) (g : GestureType) :
  (10 <= List.length lm)%nat ->
  HandGesture.detectGesture (Some lm) = Normal g ->
  HandGesture.processResults state (HandGesture.mkResults (Some (lm :: others))) h
  = HandGesture.mkOutcome
      (HandGesture.mkHook
         (HandGesture.mkHandGestureState g
            (Some (1 - (HandGesture.x (landmark lm 0) + HandGesture.x (landmark lm 9)) / 2,
                   (HandGesture.y (landmark lm 0) + HandGesture.y (landmark lm 9)) / 2))
            (distance3 (landmark lm 4) (landmark lm 8)) true)
         g)
      (if GestureType_eqb g (HandGesture.lastGestureRef h) then [] else [g])
      (Normal tt).
Proof.
  intros Hlen Hg. unfold HandGesture.processResults. cbn [HandGesture.landmarks].
  rewrite Hg.
  rewrite !at_index_landmark by lia. cbn [bind].
  rewrite calculateFingerDistance_full by lia. cbn [bind].
  destruct (GestureType_eq_dec g (HandGesture.lastGestureRef h)) as [E|E].
  - rewrite E, GestureType_eqb_refl. cbn. rewrite <- E. reflexivity.
  - rewrite (GestureType_eqb_neq _ _ E). reflexivity.
Qed.

(** A frame with a hand of fewer than ten landmarks: the register is
    written and the edge emitted, then reading landmark 0 or 9 throws. *)
Lemma processResults_short (state : HandGesture.HandGestureState)
      (lm : list HandGesture.Landmark) (others : list (list HandGesture.Landmark))
      (h : HandGesture.Hook) :
  (List.length lm < 10)%nat ->
  HandGesture.processResults state (HandGesture.mkResults (Some (lm :: others))) h
  = HandGesture.mkOutcome
      (HandGesture.mkHook (HandGesture.current h) none)
      (if GestureType_eqb none (HandGesture.lastGestureRef h) then [] else [none])
      Throw.
Proof.
  intros Hlen. unfold HandGesture.processResults. cbn [HandGesture.landmarks].
  rewrite detectGesture_short by lia.
  assert (E9 : at_index lm 9 = Throw) by (apply at_index_throws; lia).
  rewrite E9.
  destruct (at_index lm 0); cbn [bind];
    destruct (GestureType_eq_dec none (HandGesture.lastGestureRef h)) as [E|E].
  - rewrite <- E, GestureType_eqb_refl. destruct h as [cur lg]. cbn in E |- *.
    rewrite <- E. reflexivity.
  - rewrite (GestureType_eqb_neq _ _ E). reflexivity.
  - rewrite <- E, GestureType_eqb_refl. destruct h as [cur lg]. cbn in E |- *.
    rewrite <- E. reflexivity.
  - rewrite (GestureType_eqb_neq _ _ E). reflexivity.
Qed.

(** X10. Only a hand with fewer than ten landmarks makes [processResults]
    throw.  [detectGesture] itself never throws.  When the first hand of a
    frame has fewer than ten landmarks, the gesture [none] has already been
    stored in the register and emitted as an edge when reading landmark 0 or
    9 throws, and [processResults] has not written the published state; the
    detection loop stops there: the later frames are never looked at, so
    nothing more is emitted and the register keeps [none].  With ten to
    twenty landmarks the frame completes, tracking, with the gesture
    [none]. *)
Theorem processResults_throws_iff_short_hand
        (state : HandGesture.HandGestureState) (lm : list HandGesture.Landmark)
        (others : list (list HandGesture.Landmark)) (rest : list HandGesture.Results)
        (h : HandGesture.Hook) :
  let results := HandGesture.mkResults (Some (lm :: others)) in
  let o := HandGesture.processResults state results h in
  (exists g : GestureType, HandGesture.detectGesture (Some lm) = Normal g) /\
  (HandGesture.completion o = Throw <-> (List.length lm < 10)%nat) /\
  ((List.length lm < 10)%nat ->
   HandGesture.current (HandGesture.hook o) = HandGesture.current h /\
   HandGesture.lastGestureRef (HandGesture.hook o) = none /\
   HandGesture.emitted o
     = (if GestureType_eqb none (HandGesture.lastGestureRef h) then [] else [none]) /\
   snd (HandGesture.detectFrames state (results :: rest) h) = HandGesture.emitted o /\
   HandGesture.lastGestureRef (fst (HandGesture.detectFrames state (results :: rest) h))
     = none) /\
  ((10 <= List.length lm < 21)%nat ->
   HandGesture.gesture (HandGesture.current (HandGesture.hook o)) = none /\
   HandGesture.isTracking (HandGesture.current (HandGesture.hook o)) = true).
Proof.
  cbv zeta. split; [apply detectGesture_normal|].
  split; [|split].
  - split.
    + intros Hc. destruct (Nat.lt_ge_cases (List.length lm) 10) as [Hlt|Hge]; [exact Hlt|].
      destruct (detectGesture_normal (Some lm)) as [g Hg].
      rewrite (processResults_seen state lm others h g Hge Hg) in Hc. discriminate.
    + intros Hlt. rewrite (processResults_short state lm others h Hlt). reflexivity.
  - intros Hlt. cbn [HandGesture.detectFrames].
    rewrite (processResults_short state lm others h Hlt). cbn. repeat split; reflexivity.
  - intros [Hge Hlt].
    rewrite (processResults_seen state lm others h none Hge (detectGesture_short lm Hlt)).
    split; reflexivity.
Qed.

Lemma processResults_throws_iff_short_hand_witness :
  snd (HandGesture.detectFrames (HandGesture.current HandGesture.initial)
         [HandGesture.mkResults (Some [[HandGesture.mkLandmark 0 0 0]]);
          HandGesture.mkResults (Some [closedHand])] trackingFist)
  = [none].
Proof.
  destruct (processResults_throws_iff_short_hand
              (HandGesture.current HandGesture.initial) [HandGesture.mkLandmark 0 0 0] []
              [HandGesture.mkResults (Some [closedHand])] trackingFist)
    as (_ & _ & H & _).
  destruct H as (_ & _ & _ & H & _); [cbn; lia|].
  rewrite H. reflexivity.
Defined.

Lemma landmark_map (f : HandGesture.Landmark -> HandGesture.Landmark)
      (lm : list HandGesture.Landmark) (i : nat) :
  (i < List.length lm)%nat -> landmark (map f lm) i = f (landmark lm i).
Proof.
  intros H. unfold landmark.
  rewrite (nth_indep (map f lm) _ (f (HandGesture.mkLandmark 0 0 0)))
    by (rewrite length_map; exact H).
  apply map_nth.
Qed.

(** The classification depends on the landmarks through the distance of
    landmarks 4 and 8 and the differences of height of tips and joints. *)
Lemma detectGesture_map (f : HandGesture.Landmark -> HandGesture.Landmark)
      (lm : list HandGesture.Landmark) :
  (forall p q, distance3 (f p) (f q) = distance3 p q) ->
  (forall p q, Rltb (HandGesture.y (f p)) (HandGesture.y (f q))
               = Rltb (HandGesture.y p) (HandGesture.y q)) ->
  HandGesture.detectGesture (Some (map f lm)) = HandGesture.detectGesture (Some lm).
Proof.
  intros Hd Hy.
  destruct (Nat.lt_ge_cases (List.length lm) 21) as [Hlt|Hge].
  - rewrite !detectGesture_short by (rewrite ?length_map; exact Hlt). reflexivity.
  - rewrite !detectGesture_full by (rewrite ?length_map; exact Hge).
    assert (Hl : forall i, (i <= 20)%nat -> landmark (map f lm) i = f (landmark lm i))
      by (intros i Hi; apply landmark_map; lia).
    assert (He : extendedFingers (map f lm) = extendedFingers lm).
    { unfold extendedFingers. f_equal.
      assert (Hf : forall g, extendedb (map f lm) g = extendedb lm g).
      { intros g. unfold extendedb.
        rewrite !Hl by (destruct g; cbn; lia). apply Hy. }
      cbn [filter]. rewrite !Hf. reflexivity. }
    rewrite He, !Hl, Hd by lia. reflexivity.
Qed.

(** X11. The classification does not depend on where the hand is in the
    image nor on which way the image is mirrored: moving every landmark by
    the same vector, or mirroring every landmark left to right, leaves the
    result of [detectGesture] unchanged, for a landmark array of any
    length. *)
Theorem detectGesture_translation_and_mirror_invariant
        (lm : list HandGesture.Landmark) (dx dy dz : R) :
  HandGesture.detectGesture (Some (map (translate dx dy dz) lm))
    = HandGesture.detectGesture (Some lm) /\
  HandGesture.detectGesture (Some (map mirror lm)) = HandGesture.detectGesture (Some lm).
Proof.
  split; apply detectGesture_map; intros p q; unfold distance3, translate, mirror; cbn.
  - f_equal. unfold Rsqr. ring.
  - unfold Rltb.
    destruct (Rlt_dec (HandGesture.y p + dy) (HandGesture.y q + dy));
      destruct (Rlt_dec (HandGesture.y p) (HandGesture.y q)); try reflexivity; lra.
  - f_equal. unfold Rsqr. ring.
  - reflexivity.
Qed.

(** X12. What a frame with a full hand publishes.  For a first hand of at
    least 21 landmarks the frame completes and publishes, whatever the
    register and the state captured by the closure: the tracking flag set;
    the gesture, which is also left in the register; as hand position the
    middle of landmarks 0 and 9, mirrored left to right, which lies in the
    unit square when these two landmarks do; and as pinch distance the
    distance of landmarks 4 and 8.  The published gesture is [pinch] exactly
    when the published pinch distance is below 0.06. *)
Theorem published_state_of_a_hand
        (state : HandGesture.HandGestureState) (lm : list HandGesture.Landmark)
        (others : list (list HandGesture.Landmark)) (h : HandGesture.Hook) :
  (21 <= List.length lm)%nat ->
  let o := HandGesture.processResults state
             (HandGesture.mkResults (Some (lm :: others))) h in
  let st := HandGesture.current (HandGesture.hook o) in
  let cx := (HandGesture.x (landmark lm 0) + HandGesture.x (landmark lm 9)) / 2 in
  let cy := (HandGesture.y (landmark lm 0) + HandGesture.y (landmark lm 9)) / 2 in
  HandGesture.completion o = Normal tt /\
  HandGesture.isTracking st = true /\
  HandGesture.lastGestureRef (HandGesture.hook o) = HandGesture.gesture st /\
  HandGesture.handPosition st = Some (1 - cx, cy) /\
  HandGesture.pinchDistance st = distance3 (landmark lm 4) (landmark lm 8) /\
  (HandGesture.gesture st = pinch <-> HandGesture.pinchDistance st < 0.06) /\
  (0 <= HandGesture.x (landmark lm 0) <= 1 -> 0 <= HandGesture.x (landmark lm 9) <= 1 ->
   0 <= HandGesture.y (landmark lm 0) <= 1 -> 0 <= HandGesture.y (landmark lm 9) <= 1 ->
   0 <= 1 - cx <= 1 /\ 0 <= cy <= 1).
Proof.
  intros Hlen. cbv zeta.
  pose proof (detectGesture_full lm Hlen) as Hg.
  rewrite (processResults_seen state lm others h _ ltac:(lia) Hg).
  cbn [HandGesture.completion HandGesture.hook HandGesture.current
       HandGesture.isTracking HandGesture.lastGestureRef HandGesture.gesture
       HandGesture.handPosition HandGesture.pinchDistance].
  split; [reflexivity|]. split; [reflexivity|]. split; [reflexivity|].
  split; [reflexivity|]. split; [reflexivity|]. split.
  - destruct (Rltb (distance3 (landmark lm 4) (landmark lm 8)) 0.06) eqn:E.
    + apply Rltb_true in E. split; [intros _; exact E | reflexivity].
    + apply Rltb_false in E. split.
      * destruct (3 <=? extendedFingers lm)%nat; [discriminate|].
        destruct (extendedFingers lm <=? 1)%nat; discriminate.
      * intros Hlt. lra.
  - intros H0 H9 G0 G9. lra.
Qed.

Lemma published_state_of_a_hand_witness :
  HandGesture.handPosition
    (HandGesture.current
       (HandGesture.hook
          (HandGesture.processResults (HandGesture.current HandGesture.initial)
             (HandGesture.mkResults (Some [closedHand])) HandGesture.initial)))
  = Some (1 - (HandGesture.x (landmark closedHand 0)
               + HandGesture.x (landmark closedHand 9)) / 2,
          (HandGesture.y (landmark closedHand 0)
           + HandGesture.y (landmark closedHand 9)) / 2).
Proof.
  apply (published_state_of_a_hand (HandGesture.current HandGesture.initial)
           closedHand [] HandGesture.initial).
  cbn. lia.
Defined.

Lemma detectFrames_no_hand (state : HandGesture.HandGestureState)
      (frames : list HandGesture.Results) (h : HandGesture.Hook) :
  HandGesture.isTracking state = false -> Forall noHand frames ->
  HandGesture.detectFrames state frames h = (h, []).
Proof.
  intros Hs Hall. induction Hall as [|results frames Hn _ IH]; [reflexivity|].
  cbn [HandGesture.detectFrames].
  assert (E : HandGesture.processResults state results h
              = HandGesture.mkOutcome h [] (Normal tt)).
  { unfold HandGesture.processResults. destruct Hn as [-> | ->]; rewrite Hs; reflexivity. }
  rewrite E. cbn. rewrite IH. reflexivity.
Qed.

(** With the pointer source disabled no pointer event reaches the page. *)
Lemma pointerEvents_disabled (random : R) (evs : list MouseFallback.Event)
      (s : Index.State) (h : MouseFallback.Hook) :
  fst (fst (pointerEvents random false evs (s, h))) = s /\
  snd (pointerEvents random false evs (s, h)) = [].
Proof.
  revert s h. induction evs as [|ev evs IH]; intros s h; [split; reflexivity|].
  rewrite pointerEvents_cons.
  assert (E : snd (MouseFallback.handle false (Index.treeState s) ev h) = []).
  { destruct ev as [now e|e|e|e|e|e]; cbn [MouseFallback.handle].
    - reflexivity.
    - reflexivity.
    - unfold MouseFallback.handleMouseUp.
      destruct (MouseFallback.buttons e =? 0)%Z; [reflexivity|].
      destruct (MouseFallback.buttons e =? 1)%Z; reflexivity.
    - reflexivity.
    - reflexivity.
    - unfold MouseFallback.handleTouchEnd.
      destruct (MouseFallback.touches e) as [|t1 [|t2 l]]; reflexivity. }
  cbv zeta. rewrite E. unfold Index.dispatchAll at 1 2. cbn [fold_left app].
  destruct (IH s (fst (MouseFallback.handle false (Index.treeState s) ev h))) as [I1 I2].
  cbn [fst snd]. split; assumption.
Qed.

(** X13. A lost hand is never noticed.  The closure of [processResults]
    holds the state of the render in which the effect ran, in which the hook
    was not tracking, so on a frame without a hand the test
    [state.isTracking] fails and nothing is written.  After a frame with a
    hand, any number of frames without a hand leave the published state, the
    register and the calls as that frame left them: the hook goes on
    reporting [isTracking] with the last hand position, and the pointer
    source of the page, enabled only while the hook is not tracking, stays
    without effect on the page, whatever the pointer events. *)
Theorem lost_hand_is_never_noticed
        (state : HandGesture.HandGestureState) (lm : list HandGesture.Landmark)
        (others : list (list HandGesture.Landmark)) (frames : list HandGesture.Results)
        (h : HandGesture.Hook) (random : R) (evs : list MouseFallback.Event)
        (s : Index.State) (mh : MouseFallback.Hook) :
  HandGesture.isTracking state = false -> (10 <= List.length lm)%nat ->
  Forall noHand frames ->
  let hand := HandGesture.mkResults (Some (lm :: others)) in
  let o := HandGesture.processResults state hand h in
  let r := HandGesture.detectFrames state (hand :: frames) h in
  let enabled := negb (HandGesture.isTracking (HandGesture.current (fst r))) in
  fst r = HandGesture.hook o /\
  snd r = HandGesture.emitted o /\
  HandGesture.isTracking (HandGesture.current (fst r)) = true /\
  fst (fst (pointerEvents random enabled evs (s, mh))) = s /\
  snd (pointerEvents random enabled evs (s, mh)) = [].
Proof.
  intros Hs Hlen Hall. cbv zeta.
  destruct (detectGesture_normal (Some lm)) as [g Hg].
  cbn [HandGesture.detectFrames].
  rewrite (processResults_seen state lm others h g Hlen Hg).
  cbn [HandGesture.completion HandGesture.hook HandGesture.emitted].
  rewrite (detectFrames_no_hand state frames _ Hs Hall).
  cbn [fst snd HandGesture.current HandGesture.isTracking negb].
  rewrite app_nil_r.
  split; [reflexivity|]. split; [reflexivity|]. split; [reflexivity|].
  apply pointerEvents_disabled.
Qed.

Lemma lost_hand_is_never_noticed_witness :
  HandGesture.isTracking
    (HandGesture.current
       (fst (HandGesture.detectFrames (HandGesture.current HandGesture.initial)
               [HandGesture.mkResults (Some [closedHand]);
                HandGesture.mkResults None; HandGesture.mkResults (Some [])]
               HandGesture.initial))) = true.
Proof.
  apply (lost_hand_is_never_noticed (HandGesture.current HandGesture.initial)
           closedHand [] [HandGesture.mkResults None; HandGesture.mkResults (Some [])]
           HandGesture.initial 0 [] Index.initial MouseFallback.initial).
  - reflexivity.
  - cbn. lia.
  - apply Forall_cons; [left; reflexivity|].
    apply Forall_cons; [right; reflexivity | apply Forall_nil].
Defined.

(** X14. [calculateFingerDistance] is a distance on the landmarks of a
    hand: it does not depend on the order of the two indices, it throws
    exactly when one of them is outside the array, and otherwise returns a
    number that is not negative and is zero exactly when the two landmarks
    coincide. *)
Theorem calculateFingerDistance_is_a_distance
        (lm : list HandGesture.Landmark) (i j : nat) :
  HandGesture.calculateFingerDistance lm i j = HandGesture.calculateFingerDistance lm j i /\
  (HandGesture.calculateFingerDistance lm i j = Throw
   <-> (List.length lm <= i)%nat \/ (List.length lm <= j)%nat) /\
  (forall d : R,
      HandGesture.calculateFingerDistance lm i j = Normal d ->
      0 <= d /\ (d = 0 <-> landmark lm i = landmark lm j)).
Proof.
  destruct (Nat.lt_ge_cases i (List.length lm)) as [Hi|Hi];
    destruct (Nat.lt_ge_cases j (List.length lm)) as [Hj|Hj].
  - rewrite (calculateFingerDistance_full lm i j Hi Hj),
            (calculateFingerDistance_full lm j i Hj Hi).
    set (p := landmark lm i). set (q := landmark lm j).
    assert (Hsym : distance3 p q = distance3 q p)
      by (unfold distance3; f_equal; unfold Rsqr; ring).
    split; [rewrite Hsym; reflexivity|]. split.
    + split; [discriminate | lia].
    + intros d Hd. injection Hd as <-. split; [apply sqrt_pos|].
      split.
      * intros H0. unfold distance3 in H0.
        pose proof (Rle_0_sqr (HandGesture.x p - HandGesture.x q)) as Hx.
        pose proof (Rle_0_sqr (HandGesture.y p - HandGesture.y q)) as Hy.
        pose proof (Rle_0_sqr (HandGesture.z p - HandGesture.z q)) as Hz.
        apply sqrt_eq_0 in H0; [|lra].
        assert (Ex : Rsqr (HandGesture.x p - HandGesture.x q) = 0) by lra.
        assert (Ey : Rsqr (HandGesture.y p - HandGesture.y q) = 0) by lra.
        assert (Ez : Rsqr (HandGesture.z p - HandGesture.z q) = 0) by lra.
        apply Rsqr_0_uniq in Ex, Ey, Ez.
        destruct p as [px py pz], q as [qx qy qz]. cbn in Ex, Ey, Ez.
        f_equal; lra.
      * intros E. rewrite E. unfold distance3.
        replace (Rsqr (HandGesture.x q - HandGesture.x q) +
                 Rsqr (HandGesture.y q - HandGesture.y q) +
                 Rsqr (HandGesture.z q - HandGesture.z q)) with 0
          by (unfold Rsqr; ring).
        apply sqrt_0.
  - assert (E1 : HandGesture.calculateFingerDistance lm i j = Throw).
    { unfold HandGesture.calculateFingerDistance.
      rewrite (at_index_throws lm j Hj). destruct (at_index lm i); reflexivity. }
    assert (E2 : HandGesture.calculateFingerDistance lm j i = Throw).
    { unfold HandGesture.calculateFingerDistance.
      rewrite (at_index_throws lm j Hj). reflexivity. }
    rewrite E1, E2. split; [reflexivity|]. split; [split; [lia | reflexivity]|].
    intros d Hd. discriminate.
  - assert (E1 : HandGesture.calculateFingerDistance lm i j = Throw).
    { unfold HandGesture.calculateFingerDistance.
      rewrite (at_index_throws lm i Hi). reflexivity. }
    assert (E2 : HandGesture.calculateFingerDistance lm j i = Throw).
    { unfold HandGesture.calculateFingerDistance.
      rewrite (at_index_throws lm i Hi). destruct (at_index lm j); reflexivity. }
    rewrite E1, E2. split; [reflexivity|]. split; [split; [lia | reflexivity]|].
    intros d Hd. discriminate.
  - assert (E1 : HandGesture.calculateFingerDistance lm i j = Throw).
    { unfold HandGesture.calculateFingerDistance.
      rewrite (at_index_throws lm i Hi). reflexivity. }
    assert (E2 : HandGesture.calculateFingerDistance lm j i = Throw).
    { unfold HandGesture.calculateFingerDistance.
      rewrite (at_index_throws lm j Hj). reflexivity. }
    rewrite E1, E2. split; [reflexivity|]. split; [split; [lia | reflexivity]|].
    intros d Hd. discriminate.
Qed.

Lemma calculateFingerDistance_is_a_distance_witness :
  0 <= distance3 (landmark thumbAway 4) (landmark thumbAway 8).
Proof.
  destruct (calculateFingerDistance_is_a_distance thumbAway 4 8) as (_ & _ & H).
  apply (H (distance3 (landmark thumbAway 4) (landmark thumbAway 8))).
  apply calculateFingerDistance_full; cbn; lia.
Defined.

(** * Further properties: the pointer input source *)

Lemma chord_event (currentState : TreeState) (ev : MouseFallback.Event)
      (h : MouseFallback.Hook) :
  chord ev = true ->
  let r := MouseFallback.handle true currentState ev h in
  MouseFallback.isPinchingRef (fst r) = MouseFallback.isPinchingRef h || isPress ev /\
  snd r = (if negb (MouseFallback.isPinchingRef h) && isPress ev
           then [Index.onGestureChange pinch] else []) /\
  (isPress ev = true -> MouseFallback.lastClickRef (fst r) = 0%Z).
Proof.
  intros Hc. cbv zeta.
  destruct ev as [now e|e|e|e|e|e]; cbn [chord] in Hc; try discriminate;
    cbn [MouseFallback.handle isPress].
  - unfold MouseFallback.handleMouseDown. cbn [negb]. rewrite Hc.
    destruct (MouseFallback.isPinchingRef h) eqn:Ep; cbn [negb andb orb fst snd].
    + repeat split; try reflexivity. exact Ep.
    + repeat split; reflexivity.
  - unfold MouseFallback.handleMouseMove. cbn [negb]. rewrite Hc.
    rewrite orb_false_r, andb_false_r. cbn [fst snd].
    destruct (negb (GestureType_eqb (MouseFallback.simulatedGesture h) pinch));
      repeat split; try reflexivity; discriminate.
  - unfold MouseFallback.handleMouseUp. rewrite Hc. cbn [negb].
    apply Z.eqb_eq in Hc. rewrite Hc. cbn [Z.eqb Pos.eqb fst snd].
    rewrite orb_false_r, andb_false_r. repeat split; try reflexivity; discriminate.
Qed.

Lemma chord_run (random : R) (evs : list MouseFallback.Event) :
  forallb chord evs = true ->
  forall (s : Index.State) (h : MouseFallback.Hook),
    let r := pointerEvents random true evs (s, h) in
    MouseFallback.isPinchingRef (snd (fst r))
      = MouseFallback.isPinchingRef h || existsb isPress evs /\
    snd r = (if negb (MouseFallback.isPinchingRef h) && existsb isPress evs
             then [Index.onGestureChange pinch] else []).
Proof.
  induction evs as [|ev evs IH]; intros Hall s h.
  - cbn. rewrite orb_false_r, andb_false_r. split; reflexivity.
  - cbn [forallb] in Hall. apply andb_prop in Hall. destruct Hall as [Hc Hall].
    cbv zeta. rewrite pointerEvents_cons. cbv zeta. cbn [fst snd existsb].
    destruct (chord_event (Index.treeState s) ev h Hc) as (Ep & Ec & _).
    cbv zeta in Ep, Ec.
    set (r := MouseFallback.handle true (Index.treeState s) ev h) in *.
    destruct (IH Hall (Index.dispatchAll random (snd r) s) (fst r)) as [Ip Ic].
    cbv zeta in Ip, Ic. rewrite Ip, Ic, Ep, Ec.
    destruct (MouseFallback.isPinchingRef h), (isPress ev), (existsb isPress evs);
      split; reflexivity.
Qed.

(** X15. Holding both mouse buttons triggers one pinch.  Over any run of
    mouse events with both buttons held (presses, moves, and releases of a
    third button), starting with the pinch latch open, [onGestureChange] is
    called with [pinch] exactly once if the run contains a press, and never
    otherwise, and nothing else is called; the latch then stays closed until
    a release that leaves fewer than both buttons held opens it again.  A
    press with both buttons also clears the double-click timer. *)
Theorem chord_pinch_fires_once (random : R) (evs : list MouseFallback.Event)
        (s : Index.State) (h : MouseFallback.Hook) :
  forallb chord evs = true -> MouseFallback.isPinchingRef h = false ->
  let r := pointerEvents random true evs (s, h) in
  snd r = (if existsb isPress evs then [Index.onGestureChange pinch] else []) /\
  MouseFallback.isPinchingRef (snd (fst r)) = existsb isPress evs /\
  (forall (ev : MouseFallback.Event) (st : TreeState) (h0 : MouseFallback.Hook),
      chord ev = true -> isPress ev = true ->
      MouseFallback.lastClickRef (fst (MouseFallback.handle true st ev h0)) = 0%Z) /\
  (forall (e : MouseFallback.MouseEvent) (h0 : MouseFallback.Hook),
      MouseFallback.buttons e <> 3%Z ->
      MouseFallback.isPinchingRef (fst (MouseFallback.handleMouseUp e h0)) = false).
Proof.
  intros Hall Hp. cbv zeta.
  destruct (chord_run random evs Hall s h) as [Ep Ec]. cbv zeta in Ep, Ec.
  rewrite Hp in Ep, Ec. cbn [negb andb orb] in Ep, Ec.
  split; [exact Ec|]. split; [exact Ep|]. split.
  - intros ev st h0 Hc Hpress. apply (chord_event st ev h0 Hc). exact Hpress.
  - intros e h0 Hb. unfold MouseFallback.handleMouseUp.
    apply Z.eqb_neq in Hb. rewrite Hb. cbn [negb].
    destruct (MouseFallback.buttons e =? 0)%Z; [reflexivity|].
    destruct (MouseFallback.buttons e =? 1)%Z; reflexivity.
Qed.

Lemma chord_pinch_fires_once_witness :
  snd (pointerEvents 0 true
         [MouseFallback.mousedown 1000 (MouseFallback.mkMouseEvent 2 3 10 10);
          MouseFallback.mousemove (MouseFallback.mkMouseEvent 0 3 20 10);
          MouseFallback.mousedown 1200 (MouseFallback.mkMouseEvent 0 3 20 10)]
         (inGalaxy, MouseFallback.initial))
  = [Index.onGestureChange pinch].
Proof.
  apply (chord_pinch_fires_once 0
           [MouseFallback.mousedown 1000 (MouseFallback.mkMouseEvent 2 3 10 10);
            MouseFallback.mousemove (MouseFallback.mkMouseEvent 0 3 20 10);
            MouseFallback.mousedown 1200 (MouseFallback.mkMouseEvent 0 3 20 10)]
           inGalaxy MouseFallback.initial).
  - reflexivity.
  - reflexivity.
Defined.

(** One move of a drag with the primary button, outside [focus]. *)
Lemma drag_move (currentState : TreeState) (e : MouseFallback.MouseEvent)
      (h : MouseFallback.Hook) :
  MouseFallback.buttons e = 1%Z -> MouseFallback.isDragging h = true ->
  currentState <> focus ->
  let rotation :=
    (fst (MouseFallback.rotationRef h)
       + (MouseFallback.clientY e - snd (MouseFallback.dragStartRef h)) * 0.002,
     snd (MouseFallback.rotationRef h)
       + (MouseFallback.clientX e - fst (MouseFallback.dragStartRef h)) * 0.002) in
  let r := MouseFallback.handleMouseMove true currentState e h in
  snd r = [Index.onOrbitChange rotation] /\
  MouseFallback.rotationRef (fst r) = rotation /\
  MouseFallback.dragStartRef (fst r) = (MouseFallback.clientX e, MouseFallback.clientY e) /\
  MouseFallback.isDragging (fst r) = true.
Proof.
  intros Hb Hd Hs. cbv zeta. unfold MouseFallback.handleMouseMove.
  rewrite Hb, Hd, (TreeState_eqb_neq _ _ Hs). cbn [negb Z.eqb Pos.eqb andb].
  destruct (negb (GestureType_eqb (MouseFallback.simulatedGesture h) open));
    cbn; repeat split; try reflexivity; exact Hd.
Qed.

(** X16. A drag is path independent.  Over a run of mouse moves with the
    primary button held, while dragging and outside [focus], the rotation of
    the hook ends at its value before the run plus 0.002 times the
    displacement from the drag start to the last pointer position (the
    vertical displacement turning [x], the horizontal one [y]), whatever the
    positions in between and their number; the drag start ends at the last
    position, every move calls [onOrbitChange], the page's orbit rotation is
    the rotation of the hook, and the state and the focused photo stay. *)
Theorem mouse_drag_is_path_independent
        (random : R) (moves : list MouseFallback.MouseEvent)
        (last : MouseFallback.MouseEvent) (s : Index.State) (h : MouseFallback.Hook) :
  Forall (fun e => MouseFallback.buttons e = 1%Z) (moves ++ [last]) ->
  MouseFallback.isDragging h = true -> Index.treeState s <> focus ->
  let r := pointerEvents random true (map MouseFallback.mousemove (moves ++ [last])) (s, h) in
  MouseFallback.rotationRef (snd (fst r))
    = (fst (MouseFallback.rotationRef h)
         + (MouseFallback.clientY last - snd (MouseFallback.dragStartRef h)) * 0.002,
       snd (MouseFallback.rotationRef h)
         + (MouseFallback.clientX last - fst (MouseFallback.dragStartRef h)) * 0.002) /\
  MouseFallback.dragStartRef (snd (fst r))
    = (MouseFallback.clientX last, MouseFallback.clientY last) /\
  Index.orbitRotation (fst (fst r)) = MouseFallback.rotationRef (snd (fst r)) /\
  Index.treeState (fst (fst r)) = Index.treeState s /\
  Index.focusedPhotoIndex (fst (fst r)) = Index.focusedPhotoIndex s /\
  List.length (snd r) = S (List.length moves).
Proof.
  revert s h. induction moves as [|e moves IH]; intros s h Hall Hd Hs; cbv zeta.
  - cbn [app map]. rewrite pointerEvents_cons. cbv zeta.
    cbn [MouseFallback.handle pointerEvents fst snd].
    apply Forall_inv in Hall.
    destruct (drag_move (Index.treeState s) last h Hall Hd Hs) as (Ec & Er & Eds & _).
    cbv zeta in Ec, Er, Eds. rewrite Ec, Er, Eds. cbn. repeat split; reflexivity.
  - cbn [app map]. rewrite pointerEvents_cons. cbv zeta.
    cbn [MouseFallback.handle fst snd].
    pose proof (Forall_inv Hall) as He. apply Forall_inv_tail in Hall.
    destruct (drag_move (Index.treeState s) e h He Hd Hs) as (Ec & Er & Eds & Edr).
    cbv zeta in Ec, Er, Eds, Edr.
    set (r1 := MouseFallback.handleMouseMove true (Index.treeState s) e h) in *.
    set (s1 := Index.dispatchAll random (snd r1) s).
    assert (Es1 : s1 = Index.setOrbitRotation
                         (fst (MouseFallback.rotationRef h)
                            + (MouseFallback.clientY e
                               - snd (MouseFallback.dragStartRef h)) * 0.002,
                          snd (MouseFallback.rotationRef h)
                            + (MouseFallback.clientX e
                               - fst (MouseFallback.dragStartRef h)) * 0.002) s)
      by (unfold s1; rewrite Ec; reflexivity).
    assert (Hs1 : Index.treeState s1 <> focus) by (rewrite Es1; exact Hs).
    destruct (IH s1 (fst r1) Hall Edr Hs1) as (Ir & Ids & Io & It & If_ & Il).
    cbv zeta in Ir, Ids, Io, It, If_, Il.
    split; [rewrite Ir, Er, Eds; cbn [fst snd]; f_equal; ring|].
    split; [exact Ids|]. split; [exact Io|].
    split; [rewrite It, Es1; reflexivity|]. split; [rewrite If_, Es1; reflexivity|].
    rewrite Ec. cbn [app List.length]. rewrite Il. reflexivity.
Qed.

Lemma mouse_drag_is_path_independent_witness :
  Index.treeState
    (fst (fst (pointerEvents 0 true
                 (map MouseFallback.mousemove
                    ([MouseFallback.mkMouseEvent 0 1 150 100]
                       ++ [MouseFallback.mkMouseEvent 0 1 200 300]))
                 (Index.initial, MouseFallback.setIsDragging true MouseFallback.initial))))
  = Index.treeState Index.initial.
Proof.
  apply (mouse_drag_is_path_independent 0 [MouseFallback.mkMouseEvent 0 1 150 100]
           (MouseFallback.mkMouseEvent 0 1 200 300) Index.initial
           (MouseFallback.setIsDragging true MouseFallback.initial)).
  - repeat constructor.
  - reflexivity.
  - discriminate.
Defined.

(** One move of one finger, outside [focus], after the finger went down. *)
Lemma finger_move (currentState : TreeState) (t : Touch.t) (p0 : R * R)
      (h : MouseFallback.Hook) :
  MouseFallback.lastTouchRef h = Some p0 -> currentState <> focus ->
  let rotation :=
    (fst (MouseFallback.rotationRef h) + (Touch.clientY t - snd p0) * 0.004,
     snd (MouseFallback.rotationRef h) + (Touch.clientX t - fst p0) * 0.004) in
  let r := MouseFallback.handle true currentState (fingerMove t) h in
  snd r = [Index.onOrbitChange rotation] /\
  MouseFallback.rotationRef (fst r) = rotation /\
  MouseFallback.lastTouchRef (fst r) = Some (Touch.clientX t, Touch.clientY t).
Proof.
  intros Hl Hs. cbv zeta. unfold fingerMove. cbn [MouseFallback.handle].
  unfold MouseFallback.handleTouchMove. cbn [negb MouseFallback.touches].
  rewrite Hl, (TreeState_eqb_neq _ _ Hs). cbn [negb].
  destruct (negb (GestureType_eqb (MouseFallback.simulatedGesture h) open));
    cbn; repeat split; reflexivity.
Qed.

(** X17. A one-finger drag is path independent, with twice the sensitivity
    of the mouse.  Over a run of one-finger moves after the finger went
    down, outside [focus], the rotation of the hook ends at its value before
    the run plus 0.004 times the displacement from the position where the
    finger was last seen to its last position (vertical displacement turning
    [x], horizontal one [y]), whatever the positions in between; every move
    calls [onOrbitChange], the page's orbit rotation is the rotation of the
    hook, and the state and the focused photo stay. *)
Theorem touch_drag_is_path_independent
        (random : R) (trail : list Touch.t) (last : Touch.t) (p0 : R * R)
        (s : Index.State) (h : MouseFallback.Hook) :
  MouseFallback.lastTouchRef h = Some p0 -> Index.treeState s <> focus ->
  let r := pointerEvents random true (map fingerMove (trail ++ [last])) (s, h) in
  MouseFallback.rotationRef (snd (fst r))
    = (fst (MouseFallback.rotationRef h) + (Touch.clientY last - snd p0) * 0.004,
       snd (MouseFallback.rotationRef h) + (Touch.clientX last - fst p0) * 0.004) /\
  MouseFallback.lastTouchRef (snd (fst r))
    = Some (Touch.clientX last, Touch.clientY last) /\
  Index.orbitRotation (fst (fst r)) = MouseFallback.rotationRef (snd (fst r)) /\
  Index.treeState (fst (fst r)) = Index.treeState s /\
  Index.focusedPhotoIndex (fst (fst r)) = Index.focusedPhotoIndex s /\
  List.length (snd r) = S (List.length trail).
Proof.
  revert p0 s h. induction trail as [|t trail IH]; intros p0 s h Hl Hs; cbv zeta.
  - cbn [app map]. rewrite pointerEvents_cons. cbv zeta. cbn [pointerEvents fst snd].
    destruct (finger_move (Index.treeState s) last p0 h Hl Hs) as (Ec & Er & El).
    cbv zeta in Ec, Er, El. rewrite Ec, Er, El. cbn. repeat split; reflexivity.
  - cbn [app map]. rewrite pointerEvents_cons. cbv zeta. cbn [fst snd].
    destruct (finger_move (Index.treeState s) t p0 h Hl Hs) as (Ec & Er & El).
    cbv zeta in Ec, Er, El.
    set (r1 := MouseFallback.handle true (Index.treeState s) (fingerMove t) h) in *.
    set (s1 := Index.dispatchAll random (snd r1) s).
    assert (Es1 : s1 = Index.setOrbitRotation
                         (fst (MouseFallback.rotationRef h)
                            + (Touch.clientY t - snd p0) * 0.004,
                          snd (MouseFallback.rotationRef h)
                            + (Touch.clientX t - fst p0) * 0.004) s)
      by (unfold s1; rewrite Ec; reflexivity).
    assert (Hs1 : Index.treeState s1 <> focus) by (rewrite Es1; exact Hs).
    destruct (IH _ s1 (fst r1) El Hs1) as (Ir & Il & Io & It & If_ & In_).
    cbv zeta in Ir, Il, Io, It, If_, In_.
    split; [rewrite Ir, Er; cbn [fst snd]; f_equal; ring|].
    split; [exact Il|]. split; [exact Io|].
    split; [rewrite It, Es1; reflexivity|]. split; [rewrite If_, Es1; reflexivity|].
    rewrite Ec. cbn [app List.length]. rewrite In_. reflexivity.
Qed.

Lemma touch_drag_is_path_independent_witness :
  Index.treeState
    (fst (fst (pointerEvents 0 true
                 (map fingerMove ([Touch.mk 150 100] ++ [Touch.mk 200 300]))
                 (Index.initial,
                  MouseFallback.setLastTouch (Some (100, 100)) MouseFallback.initial))))
  = Index.treeState Index.initial.
Proof.
  apply (touch_drag_is_path_independent 0 [Touch.mk 150 100] (Touch.mk 200 300)
           (100, 100) Index.initial
           (MouseFallback.setLastTouch (Some (100, 100)) MouseFallback.initial)).
  - reflexivity.
  - discriminate.
Defined.

(** One touch move: the gesture calls it makes, and the latch. *)
Lemma touch_move_gesture_calls (currentState : TreeState)
      (e : MouseFallback.TouchEvent) (h : MouseFallback.Hook) :
  let r := MouseFallback.handleTouchMove true currentState e h in
  (latched h -> latched (fst r) /\ filter isGestureCall (snd r) = []) /\
  (filter isGestureCall (snd r) = [] \/
   (filter isGestureCall (snd r) = [Index.onGestureChange pinch] /\ latched (fst r))).
Proof.
  cbv zeta. unfold MouseFallback.handleTouchMove. cbn [negb].
  destruct (MouseFallback.touches e) as [|t1 [|t2 [|t3 l]]].
  - split; [intros H; split; [exact H | reflexivity] | left; reflexivity].
  - destruct (MouseFallback.lastTouchRef h) as [p0|];
      [destruct (negb (TreeState_eqb currentState focus))|];
      [destruct (negb (GestureType_eqb (MouseFallback.simulatedGesture h) open))| |];
      (split; [intros H; split; [exact H | reflexivity] | left; reflexivity]).
  - assert (E : forall o : option (R * R),
               match o with
               | Some _ => (h, @nil Index.Call)
               | None => (h, [])
               end = (h, [])) by (intros [p|]; reflexivity).
    destruct (MouseFallback.lastTouchRef h) as [p0|];
      (destruct (MouseFallback.truthy (MouseFallback.initialPinchDistRef h)) as [d0|] eqn:Et;
       [|split; [intros H; split; [exact H | reflexivity] | left; reflexivity]]);
      (match goal with |- context [if Rgtb ?a 15 then _ else _] => destruct (Rgtb a 15) end;
       [|split; [intros H; split; [exact H | reflexivity] | left; reflexivity]]);
      (destruct (MouseFallback.isPinchingRef h) eqn:Ep; cbn [negb];
       [destruct (negb (GestureType_eqb (MouseFallback.simulatedGesture h) pinch));
        (split; [intros _; split; [left; exact Ep | reflexivity] | left; reflexivity])
       |destruct (negb (GestureType_eqb (MouseFallback.simulatedGesture h) pinch));
        (split; [intros [H|H]; [congruence | rewrite H in Et; discriminate]
                |right; split; [reflexivity | left; reflexivity]])]).
  - destruct (MouseFallback.lastTouchRef h) as [p0|];
      (split; [intros H; split; [exact H | reflexivity] | left; reflexivity]).
Qed.

Lemma latched_run (random : R) (moves : list MouseFallback.TouchEvent) :
  forall (s : Index.State) (h : MouseFallback.Hook),
    latched h ->
    filter isGestureCall
      (snd (pointerEvents random true (map MouseFallback.touchmove moves) (s, h))) = [].
Proof.
  induction moves as [|e moves IH]; intros s h Hl; [reflexivity|].
  cbn [map]. rewrite pointerEvents_cons. cbv zeta. cbn [fst snd MouseFallback.handle].
  destruct (touch_move_gesture_calls (Index.treeState s) e h) as [A _].
  cbv zeta in A. destruct (A Hl) as [Hl1 Hc].
  rewrite filter_app, Hc. cbn [app]. apply IH. exact Hl1.
Qed.

(** X18. The two-finger pinch.  With the fingers [d0] apart when they went
    down ([d0] not zero) and the latch open, a move of two fingers calls
    [onGestureChange] with [pinch] exactly when their distance differs from
    [d0] by more than 15; the latch then closes and the distance becomes the
    new reference.  Over any run of touch moves at most one pinch is called,
    and none at all while the latch is closed or when the two fingers went
    down at the same point: a reference distance of zero counts as absent. *)
Theorem two_finger_pinch_fires_at_most_once
        (random : R) (moves : list MouseFallback.TouchEvent)
        (s : Index.State) (h : MouseFallback.Hook) :
  let r := pointerEvents random true (map MouseFallback.touchmove moves) (s, h) in
  (List.length (filter isGestureCall (snd r)) <= 1)%nat /\
  (latched h -> filter isGestureCall (snd r) = []) /\
  (forall (st : TreeState) (p1 p2 : Touch.t) (cancelable : bool) (d0 : R),
      MouseFallback.initialPinchDistRef h = Some d0 -> d0 <> 0 ->
      MouseFallback.isPinchingRef h = false ->
      let r1 := MouseFallback.handleTouchMove true st
                  (MouseFallback.mkTouchEvent [p1; p2] cancelable) h in
      (15 < Rabs (spread p1 p2 - d0) ->
       snd r1 = [Index.onGestureChange pinch] /\
       MouseFallback.isPinchingRef (fst r1) = true /\
       MouseFallback.initialPinchDistRef (fst r1) = Some (spread p1 p2)) /\
      (Rabs (spread p1 p2 - d0) <= 15 -> r1 = (h, []))) /\
  (forall (p : Touch.t) (cancelable : bool) (h0 : MouseFallback.Hook),
      latched (fst (MouseFallback.handleTouchStart true
                      (MouseFallback.mkTouchEvent [p; p] cancelable) h0))).
Proof.
  cbv zeta. split; [|split; [|split]].
  - revert s h. induction moves as [|e moves IH]; intros s h; [cbn; lia|].
    cbn [map]. rewrite pointerEvents_cons. cbv zeta. cbn [fst snd MouseFallback.handle].
    destruct (touch_move_gesture_calls (Index.treeState s) e h) as [_ B].
    cbv zeta in B. rewrite filter_app, length_app.
    destruct B as [-> | [-> Hl]].
    + cbn [List.length Nat.add]. apply IH.
    + rewrite (latched_run random moves _ _ Hl). cbn. lia.
  - intros Hl. apply latched_run. exact Hl.
  - intros st p1 p2 cancelable d0 Hi Hd0 Hp.
    unfold MouseFallback.handleTouchMove. cbn [negb MouseFallback.touches].
    assert (Et : MouseFallback.truthy (MouseFallback.initialPinchDistRef h) = Some d0).
    { rewrite Hi. unfold MouseFallback.truthy.
      destruct (Req_dec_T d0 0); [contradiction | reflexivity]. }
    unfold spread, Rgtb.
    destruct (MouseFallback.lastTouchRef h) as [p0|]; rewrite Et;
      (split; [intros Hgt | intros Hle]).
    + rewrite (proj2 (Rltb_true _ _) Hgt), Hp. cbn [negb].
      destruct (negb (GestureType_eqb (MouseFallback.simulatedGesture h) pinch));
        repeat split; reflexivity.
    + rewrite (proj2 (Rltb_false _ _) Hle). reflexivity.
    + rewrite (proj2 (Rltb_true _ _) Hgt), Hp. cbn [negb].
      destruct (negb (GestureType_eqb (MouseFallback.simulatedGesture h) pinch));
        repeat split; reflexivity.
    + rewrite (proj2 (Rltb_false _ _) Hle). reflexivity.
  - intros p cancelable h0. right.
    unfold MouseFallback.handleTouchStart. cbn.
    unfold MouseFallback.Math_hypot.
    replace ((Touch.clientX p - Touch.clientX p) * (Touch.clientX p - Touch.clientX p)
             + (Touch.clientY p - Touch.clientY p) * (Touch.clientY p - Touch.clientY p))
      with 0 by ring.
    rewrite sqrt_0. destruct (Req_dec_T 0 0); [reflexivity | contradiction].
Qed.

Lemma two_finger_pinch_fires_at_most_once_witness :
  filter isGestureCall
    (snd (pointerEvents 0 true
            (map MouseFallback.touchmove
               [MouseFallback.mkTouchEvent [Touch.mk 0 0; Touch.mk 100 0] true])
            (inGalaxy, MouseFallback.setIsPinching true MouseFallback.initial))) = [].
Proof.
  apply (two_finger_pinch_fires_at_most_once 0
           [MouseFallback.mkTouchEvent [Touch.mk 0 0; Touch.mk 100 0] true]
           inGalaxy (MouseFallback.setIsPinching true MouseFallback.initial)).
  left. reflexivity.
Defined.

(** X19. In [focus] the pointer cannot rotate the view.  Over any run of
    mouse moves (whatever the buttons held) and of touch moves other than
    moves of two fingers, while the page is in [focus], nothing is called,
    the page keeps its state, its focused photo and its orbit rotation, and
    the rotation of the hook does not move. *)
Theorem focus_locks_the_orbit (random : R) (evs : list MouseFallback.Event)
        (s : Index.State) (h : MouseFallback.Hook) :
  forallb plainMove evs = true -> Index.treeState s = focus ->
  let r := pointerEvents random true evs (s, h) in
  fst (fst r) = s /\ snd r = [] /\
  MouseFallback.rotationRef (snd (fst r)) = MouseFallback.rotationRef h.
Proof.
  intros Hall Hs. cbv zeta. revert h.
  induction evs as [|ev evs IH]; intros h; [repeat split; reflexivity|].
  cbn [forallb] in Hall. apply andb_prop in Hall. destruct Hall as [Hm Hall].
  rewrite pointerEvents_cons. cbv zeta.
  assert (E : snd (MouseFallback.handle true (Index.treeState s) ev h) = [] /\
              MouseFallback.rotationRef
                (fst (MouseFallback.handle true (Index.treeState s) ev h))
              = MouseFallback.rotationRef h).
  { rewrite Hs.
    destruct ev as [now e|e|e|e|e|e]; cbn [plainMove] in Hm; try discriminate;
      cbn [MouseFallback.handle].
    - unfold MouseFallback.handleMouseMove. cbn [negb].
      rewrite TreeState_eqb_refl. cbn [negb]. rewrite andb_false_r.
      destruct (MouseFallback.buttons e =? 3)%Z; [|split; reflexivity].
      destruct (negb (GestureType_eqb (MouseFallback.simulatedGesture h) pinch));
        split; reflexivity.
    - unfold MouseFallback.handleTouchMove. cbn [negb].
      rewrite TreeState_eqb_refl. cbn [negb].
      destruct (MouseFallback.touches e) as [|t1 [|t2 [|t3 l]]];
        try (cbn in Hm; discriminate);
        destruct (MouseFallback.lastTouchRef h); split; reflexivity. }
  destruct E as [Ec Er]. rewrite Ec. change (Index.dispatchAll random [] s) with s.
  cbn [app].
  destruct (IH Hall (fst (MouseFallback.handle true (Index.treeState s) ev h)))
    as (I1 & I2 & I3).
  cbn [fst snd].
  split; [exact I1|]. split; [exact I2|]. rewrite I3. exact Er.
Qed.

Lemma focus_locks_the_orbit_witness :
  snd (pointerEvents 0 true
         [MouseFallback.mousemove (MouseFallback.mkMouseEvent 0 1 300 200);
          fingerMove (Touch.mk 10 20)]
         (focusedOnThird, MouseFallback.setIsDragging true
                            (MouseFallback.setLastTouch (Some (0, 0)) MouseFallback.initial)))
  = [].
Proof.
  apply (focus_locks_the_orbit 0
           [MouseFallback.mousemove (MouseFallback.mkMouseEvent 0 1 300 200);
            fingerMove (Touch.mk 10 20)]
           focusedOnThird
           (MouseFallback.setIsDragging true
              (MouseFallback.setLastTouch (Some (0, 0)) MouseFallback.initial))).
  - reflexivity.
  - reflexivity.
Defined.

(** * Further properties: the page *)

Lemma handleGestureChange_consistent (random : R) (g : GestureType) (s : Index.State) :
  unitRandom random -> consistent s ->
  consistent (Index.handleGestureChange random g s) /\
  Index.photos (Index.handleGestureChange random g s) = Index.photos s /\
  Index.orbitRotation (Index.handleGestureChange random g s) = Index.orbitRotation s.
Proof.
  intros Hr Hc. unfold Index.handleGestureChange.
  destruct g.
  - split; [exact Hc | split; reflexivity].
  - split; [|split; reflexivity]. unfold consistent. cbn. discriminate.
  - split; [|split; reflexivity]. unfold consistent. cbn. discriminate.
  - destruct (TreeState_eqb (Index.treeState s) galaxy) eqn:Eg.
    + split; [|split; reflexivity]. unfold consistent. cbn. split; [reflexivity|].
      pose proof (photoCount_pos (Index.photos s)) as Hpos.
      pose proof (randomIndex_range random (Z.min (Index.photoCount (Index.photos s)) 12)
                    Hr ltac:(lia)) as Hi.
      split; [lia|]. intros Hne.
      assert (Hpc : Index.photoCount (Index.photos s)
                    = Z.of_nat (List.length (Index.photos s))).
      { unfold Index.photoCount. destruct (Index.photos s) as [|ph l]; [contradiction|].
        reflexivity. }
      lia.
    + destruct (TreeState_eqb (Index.treeState s) focus) eqn:Ef.
      * split; [|split; reflexivity]. unfold consistent. cbn. discriminate.
      * split; [exact Hc | split; reflexivity].
Qed.

(** X20. Gestures keep the page consistent.  Over any run of gestures
    through [handleGestureChange], with values of [Math.random()] in [0, 1),
    from a page on which a photo is focused exactly in state [focus]: after
    the run a photo is focused exactly when the state is [focus], its index
    is at least 0 and below 12, and below the number of photos when the page
    has at least one photo (with no photo the code takes 12 for the count,
    so the index is then only known to be below 12), and the list of photos
    and the orbit rotation are untouched. *)
Theorem gestures_keep_the_page_consistent (gs : list (R * GestureType)) (s : Index.State) :
  Forall (fun rg => unitRandom (fst rg)) gs -> consistent s ->
  consistent (gestures gs s) /\
  Index.photos (gestures gs s) = Index.photos s /\
  Index.orbitRotation (gestures gs s) = Index.orbitRotation s.
Proof.
  intros Hall. revert s. induction Hall as [|[random g] gs Hr _ IH]; intros s Hc.
  - split; [exact Hc | split; reflexivity].
  - unfold gestures. cbn [fold_left fst snd]. fold (gestures gs (Index.handleGestureChange random g s)).
    destruct (handleGestureChange_consistent random g s Hr Hc) as (Hc1 & Hp1 & Ho1).
    destruct (IH _ Hc1) as (Hc2 & Hp2 & Ho2).
    split; [exact Hc2|]. split; congruence.
Qed.

Lemma gestures_keep_the_page_consistent_witness :
  consistent (gestures [(0.5, open); (0.7, pinch); (0.2, none)] Index.initial).
Proof.
  apply (gestures_keep_the_page_consistent [(0.5, open); (0.7, pinch); (0.2, none)]
           Index.initial).
  - repeat constructor; unfold unitRandom; cbn; lra.
  - unfold consistent. cbn. discriminate.
Defined.

Lemma loadingTicks_frozen (randoms : list R) (prev : R) :
  95 <= prev -> Index.loadingTicks randoms prev = prev.
Proof.
  intros H. destruct randoms as [|random rest]; [reflexivity|].
  cbn [Index.loadingTicks]. unfold Rgeb. rewrite (proj2 (Rleb_true _ _) H). reflexivity.
Qed.

(** X21. The simulated loading progress.  With values of [Math.random()]
    in [0, 1), the ticks of the loading interval never decrease the
    progress; started below 95 they keep it below 115, so the progress can
    pass 100 before the scene is ready; at 95 or more the progress is frozen,
    whatever the number of ticks that follow. *)
Theorem loading_progress_bounds (randoms : list R) (prev : R) :
  Forall unitRandom randoms ->
  let progress := Index.loadingTicks randoms prev in
  prev <= progress /\
  (prev < 95 -> progress < 115) /\
  (95 <= prev -> progress = prev) /\
  (95 <= progress -> forall more : list R, Index.loadingTicks more progress = progress) /\
  (exists rs : list R, Forall unitRandom rs /\ 100 < Index.loadingTicks rs 0).
Proof.
  intros Hall. cbv zeta.
  split; [|split; [|split; [|split]]].
  - revert prev. induction Hall as [|random rest Hr _ IH]; intros prev; [cbn; lra|].
    cbn [Index.loadingTicks]. unfold Index.loadingTick, Rgeb.
    destruct (Rleb 95 prev) eqn:E; [lra|].
    specialize (IH (prev + random * 20)). unfold unitRandom in Hr. lra.
  - revert prev. induction Hall as [|random rest Hr _ IH]; intros prev Hp; [cbn; lra|].
    cbn [Index.loadingTicks]. unfold Index.loadingTick, Rgeb.
    rewrite (proj2 (Rleb_false _ _) Hp).
    unfold unitRandom in Hr.
    destruct (Rlt_dec (prev + random * 20) 95) as [Hlt|Hge].
    + apply IH. exact Hlt.
    + rewrite loadingTicks_frozen by lra. lra.
  - intros Hp. apply loadingTicks_frozen. exact Hp.
  - intros Hp more. apply loadingTicks_frozen. exact Hp.
  - exists [0.94; 0.94; 0.94; 0.94; 0.94; 0.99]. split.
    + repeat constructor; unfold unitRandom; lra.
    + cbn [Index.loadingTicks]. unfold Index.loadingTick, Rgeb.
      repeat match goal with
             | |- context [Rleb 95 ?a] =>
                 rewrite (proj2 (Rleb_false 95 a)) by lra
             end.
      lra.
Qed.

Lemma loading_progress_bounds_witness :
  0 <= Index.loadingTicks [0.5; 0.25] 0.
Proof.
  apply (loading_progress_bounds [0.5; 0.25] 0).
  repeat constructor; unfold unitRandom; lra.
Defined.

(** * Further properties: from the hand to the camera *)

(** X22. A tracked hand steers the camera in [galaxy].  After a video frame
    with a hand of at least 21 landmarks that leaves the page in [galaxy],
    with [hx] and [hy] the published hand position (the middle of landmarks
    0 and 9, mirrored left to right): the page's orbit rotation is
    [((hy - 0.5) * PI / 2, (hx - 0.5) * 2 * PI)], and the camera controller,
    given the page's props, aims at [x = (hx - 0.5) * 20] and
    [y = (0.5 - hy) * 10 + 2], at a depth of the clamped base distance times
    the cosine of the yaw, looking at height 0.  For landmarks in the unit
    square the pitch stays within a quarter turn of [PI], the yaw within
    [PI], and the target within [-10, 10] across and [-3, 7] in height. *)
Theorem tracked_hand_steers_the_camera
        (random : R) (state : HandGesture.HandGestureState)
        (lm : list HandGesture.Landmark) (others : list (list HandGesture.Landmark))
        (s : Index.State) (hk : HandGesture.Hook) (delta : R) (c : Scene.Refs) :
  (21 <= List.length lm)%nat ->
  let r := handFrame random state (HandGesture.mkResults (Some (lm :: others))) (s, hk) in
  let hx := 1 - (HandGesture.x (landmark lm 0) + HandGesture.x (landmark lm 9)) / 2 in
  let hy := (HandGesture.y (landmark lm 0) + HandGesture.y (landmark lm 9)) / 2 in
  let tg := snd (fst (Scene.targetBlock
                        (sceneProps (fst r) (HandGesture.current (snd r))) delta c)) in
  Index.treeState (fst r) = galaxy ->
  Index.orbitRotation (fst r) = ((hy - 0.5) * PI * 0.5, (hx - 0.5) * PI * 2) /\
  Scene.targetX tg = (hx - 0.5) * 20 /\
  Scene.targetY tg = (0.5 - hy) * 10 + 2 /\
  Scene.targetZ tg
    = cos ((hx - 0.5) * PI * 2) * Rmax 4 (Rmin 35 (18 + Scene.smoothZoomRef c)) /\
  Scene.lookAtY tg = 0 /\
  (0 <= HandGesture.x (landmark lm 0) <= 1 -> 0 <= HandGesture.x (landmark lm 9) <= 1 ->
   0 <= HandGesture.y (landmark lm 0) <= 1 -> 0 <= HandGesture.y (landmark lm 9) <= 1 ->
   - (PI / 4) <= (hy - 0.5) * PI * 0.5 <= PI / 4 /\
   - PI <= (hx - 0.5) * PI * 2 <= PI /\
   -10 <= Scene.targetX tg <= 10 /\ -3 <= Scene.targetY tg <= 7).
Proof.
  intros Hlen. cbv zeta.
  unfold handFrame. cbn [fst snd].
  rewrite (processResults_seen state lm others hk _ ltac:(lia) (detectGesture_full lm Hlen)).
  cbn [HandGesture.emitted HandGesture.hook HandGesture.current
       HandGesture.isTracking HandGesture.handPosition].
  set (hx := 1 - (HandGesture.x (landmark lm 0) + HandGesture.x (landmark lm 9)) / 2).
  set (hy := (HandGesture.y (landmark lm 0) + HandGesture.y (landmark lm 9)) / 2).
  match goal with
  | |- context [Index.handOrbitEffect true (Some (hx, hy)) ?s0] => set (s1 := s0)
  end.
  unfold Index.handOrbitEffect. cbn [andb fst snd].
  destruct (TreeState_eqb (Index.treeState s1) galaxy) eqn:Eg.
  - intros _. unfold sceneProps. cbn [Index.treeState Index.setOrbitRotation
      Index.orbitRotation HandGesture.isTracking HandGesture.handPosition].
    apply TreeState_eqb_eq in Eg. rewrite Eg.
    unfold Scene.targetBlock.
    cbn [Scene.state Scene.handPosition Scene.orbitRotation fst snd
         Scene.targetX Scene.targetY Scene.targetZ Scene.lookAtY].
    change (TreeState_eqb galaxy tree) with false.
    change (TreeState_eqb galaxy galaxy) with true.
    cbn [andb fst snd Scene.targetX Scene.targetY Scene.targetZ Scene.lookAtY].
    split; [reflexivity|]. split; [reflexivity|]. split; [reflexivity|].
    split; [reflexivity|]. split; [reflexivity|].
    intros H0 H9 G0 G9. pose proof PI_RGT_0 as Hpi.
    assert (Hx : 0 <= hx <= 1) by (unfold hx; lra).
    assert (Hy : 0 <= hy <= 1) by (unfold hy; lra).
    repeat split; nra.
  - intros Hg. apply TreeState_eqb_eq in Hg. rewrite Hg in Eg. discriminate.
Qed.

Lemma tracked_hand_steers_the_camera_witness :
  let hk := HandGesture.mkHook (HandGesture.current HandGesture.initial) pinch in
  let r := handFrame 0 (HandGesture.current HandGesture.initial)
             (HandGesture.mkResults (Some [closedHand])) (inGalaxy, hk) in
  Scene.lookAtY
    (snd (fst (Scene.targetBlock
                 (sceneProps (fst r) (HandGesture.current (snd r))) 1 fromGalaxy))) = 0.
Proof.
  cbv zeta.
  apply (tracked_hand_steers_the_camera 0 (HandGesture.current HandGesture.initial)
           closedHand [] inGalaxy
           (HandGesture.mkHook (HandGesture.current HandGesture.initial) pinch)
           1 fromGalaxy).
  - cbn. lia.
  - unfold handFrame. cbn [fst snd].
    rewrite (processResults_seen (HandGesture.current HandGesture.initial) closedHand []
               (HandGesture.mkHook (HandGesture.current HandGesture.initial) pinch) pinch);
      [reflexivity | cbn; lia | exact detectGesture_closedHand].
Defined.
